(** * CourtBooker: the booking and availability engine

    A shallow embedding of [server/storage.ts] (class [MemStorage]), of the
    booking routes of [server/routes.ts] and of the parts of
    [shared/schema.ts] they rely on, followed by the properties of the
    engine: the overlap test, the opening window, the no-double-booking
    invariant, the status routes, the stored amount, the day grid and the
    revenue metrics. *)

From Stdlib Require Import ZArith List String Ascii Bool Lia DecimalString.
Import ListNotations.

Local Open Scope string_scope.
Local Open Scope Z_scope.

(* ------------------------------------------------------------------ *)
(** ** JavaScript values used by the engine *)

(** The numbers the engine computes with are the results of [parseInt],
    small integer constants and sums of those.  They are integers or NaN:
    [None] stands for NaN, on which every comparison is false and through
    which every sum is NaN. *)
Module JsNum.

Definition number := option Z.

Definition NaN : number := None.

Definition add (a b : number) : number :=
  match a, b with
  | Some x, Some y => Some (x + y)
  | _, _ => None
  end.

Definition lt (a b : number) : bool :=
  match a, b with Some x, Some y => x <? y | _, _ => false end.

Definition le (a b : number) : bool :=
  match a, b with Some x, Some y => x <=? y | _, _ => false end.

Definition gt (a b : number) : bool := lt b a.

Definition ge (a b : number) : bool := le b a.

(** [a === b] on numbers. *)
Definition strictEq (a b : number) : bool :=
  match a, b with Some x, Some y => x =? y | _, _ => false end.

(** The comparison of [Set.prototype.has]: NaN is found in a set that
    holds NaN. *)
Definition sameValueZero (a b : number) : bool :=
  match a, b with
  | Some x, Some y => x =? y
  | None, None => true
  | _, _ => false
  end.

End JsNum.

Module JsStr.

(** A JavaScript string is held as the bytes of its UTF-8 encoding: a
    character of ASCII is one byte, every other character a lead byte
    followed by one to three continuation bytes.

    The white space and line terminators [parseInt] skips, each told of
    the bytes that encode it.  One byte: TAB, LF, VT, FF, CR and the
    space. *)
Definition isWhite (c : ascii) : bool :=
  let n := nat_of_ascii c in
  (Nat.eqb n 32 || (Nat.leb 9 n && Nat.leb n 13))%bool.

(** Two bytes: U+00A0, the no-break space. *)
Definition isWhite2 (c1 c2 : ascii) : bool :=
  (Nat.eqb (nat_of_ascii c1) 194 && Nat.eqb (nat_of_ascii c2) 160)%bool.

(** Three bytes: U+1680, U+2000 to U+200A, the line and paragraph
    separators U+2028 and U+2029, U+202F, U+205F, U+3000 and the
    byte-order mark U+FEFF. *)
Definition isWhite3 (c1 c2 c3 : ascii) : bool :=
  let n1 := nat_of_ascii c1 in
  let n2 := nat_of_ascii c2 in
  let n3 := nat_of_ascii c3 in
  ((Nat.eqb n1 225 && Nat.eqb n2 154 && Nat.eqb n3 128)
   || (Nat.eqb n1 226 && Nat.eqb n2 128
       && ((Nat.leb 128 n3 && Nat.leb n3 138)
           || Nat.eqb n3 168 || Nat.eqb n3 169 || Nat.eqb n3 175))
   || (Nat.eqb n1 226 && Nat.eqb n2 129 && Nat.eqb n3 159)
   || (Nat.eqb n1 227 && Nat.eqb n2 128 && Nat.eqb n3 128)
   || (Nat.eqb n1 239 && Nat.eqb n2 187 && Nat.eqb n3 191))%bool.

Definition digitVal (c : ascii) : option Z :=
  let n := Z.of_nat (nat_of_ascii c) in
  if ((48 <=? n) && (n <=? 57))%bool then Some (n - 48) else None.

(** [s] without the white space it starts with. *)
Fixpoint skipWhite (s : string) : string :=
  match s with
  | String c1 s1 =>
      if isWhite c1 then skipWhite s1
      else
        match s1 with
        | String c2 s2 =>
            if isWhite2 c1 c2 then skipWhite s2
            else
              match s2 with
              | String c3 s3 => if isWhite3 c1 c2 c3 then skipWhite s3 else s
              | EmptyString => s
              end
        | EmptyString => s
        end
  | EmptyString => s
  end.

(** The value of the longest prefix of decimal digits of [s], read after
    the digits worth [acc]. *)
Fixpoint digitsFrom (acc : Z) (s : string) : Z :=
  match s with
  | String c s' =>
      match digitVal c with
      | Some d => digitsFrom (10 * acc + d) s'
      | None => acc
      end
  | EmptyString => acc
  end.

(** [parseInt(s, 10)]: leading white space, an optional sign, then the
    longest run of digits; NaN when there is no digit. *)
Definition parseInt (s : string) : JsNum.number :=
  let t := skipWhite s in
  let '(sign, u) :=
    match t with
    | String "-" u => (-1, u)
    | String "+" u => (1, u)
    | _ => (1, t)
    end in
  match u with
  | String c _ =>
      match digitVal c with
      | Some _ => Some (sign * digitsFrom 0 u)
      | None => JsNum.NaN
      end
  | EmptyString => JsNum.NaN
  end.

(** [s.split(":")[0]]: what comes before the first colon. *)
Fixpoint beforeColon (s : string) : string :=
  match s with
  | EmptyString => EmptyString
  | String c s' =>
      if Ascii.eqb c ":" then EmptyString else String c (beforeColon s')
  end.

(** [s.split(":")[1]]: what stands between the first colon and the
    second, if there is a colon. *)
Fixpoint afterColon (s : string) : option string :=
  match s with
  | EmptyString => None
  | String c s' =>
      if Ascii.eqb c ":" then Some (beforeColon s') else afterColon s'
  end.

(** [s.length]: the number of UTF-16 code units of the string.  A
    character of one to three bytes is one code unit, a character of four
    bytes (lead byte from 240 on) is two; continuation bytes (128 to 191)
    count with their lead byte. *)
Fixpoint length (s : string) : nat :=
  match s with
  | EmptyString => O
  | String c s' =>
      let n := nat_of_ascii c in
      ((if Nat.leb 240 n then 2
        else if (Nat.leb 128 n && Nat.leb n 191)%bool then 0
        else 1) + length s')%nat
  end.

(** [n.toString()] for an integer. *)
Definition ofZ (n : Z) : string := NilZero.string_of_int (Z.to_int n).

Fixpoint zeros (n : nat) : string :=
  match n with O => EmptyString | S n' => String "0" (zeros n') end.

(** [s.padStart(w, "0")]. *)
Definition padStart0 (w : nat) (s : string) : string :=
  (zeros (w - String.length s) ++ s)%string.

(** [a >= b] on strings: code units compared from the left (here the
    bytes of the string, which order ASCII strings as JavaScript does). *)
Definition ge (a b : string) : bool := String.leb b a.

Definition toUpper (c : ascii) : ascii :=
  let n := nat_of_ascii c in
  if (Nat.leb 97 n && Nat.leb n 122)%bool then ascii_of_nat (n - 32) else c.

Fixpoint toUpperCase (s : string) : string :=
  match s with
  | EmptyString => EmptyString
  | String c s' => String (toUpper c) (toUpperCase s')
  end.

End JsStr.

(** A JavaScript [Map] with string keys: entries are kept in insertion
    order, [set] on a present key replaces the value where it stands and on
    an absent key appends. *)
Module JsMap.
Section Defs.
Context {V : Type}.

Definition t := list (string * V).

Definition empty : t := [].

Fixpoint get (k : string) (m : t) : option V :=
  match m with
  | [] => None
  | (k', v) :: m' => if String.eqb k' k then Some v else get k m'
  end.

Fixpoint set (k : string) (v : V) (m : t) : t :=
  match m with
  | [] => [(k, v)]
  | (k', v') :: m' =>
      if String.eqb k' k then (k, v) :: m' else (k', v') :: set k v m'
  end.

Definition values (m : t) : list V := map snd m.

Definition keys (m : t) : list string := map fst m.

End Defs.
Arguments t : clear implicits.
End JsMap.

(* ------------------------------------------------------------------ *)
(** ** shared/schema.ts *)

Module Court.
Record t := mk { id : string; name : string }.
End Court.

Module Sport.
Record t := mk { id : string; name : string; pricePerHour : Z }.
End Sport.

Module Booking.
Record t := mk {
  id : string;
  uuid : string;
  name : string;
  phone : string;
  sportId : string;
  courtId : string;
  date : string;
  startTime : string;
  hours : Z;
  amount : Z;
  status : string
}.

(** [{ ...booking, status }] *)
Definition withStatus (b : t) (s : string) : t :=
  mk (id b) (uuid b) (name b) (phone b) (sportId b) (courtId b) (date b)
     (startTime b) (hours b) (amount b) s.
End Booking.

(** The body of a create request, with the types [insertBookingSchema]
    gives its fields: [id] and [uuid] are omitted, [status] is optional
    (the column has a default).  [amount] is an integer, as the schema
    asks.  [hours] is taken in the integers as well, as the column of the
    table is: the schema itself lets any number from 1 to 8 through, and
    a request with a fraction of an hour is not among the bodies told of
    here. *)
Module InsertBooking.
Record t := mk {
  name : string;
  phone : string;
  sportId : string;
  courtId : string;
  date : string;
  startTime : string;
  hours : Z;
  amount : Z;
  status : option string
}.

Definition phoneChar (c : ascii) : bool :=
  match JsStr.digitVal c with
  | Some _ => true
  | None => (Ascii.eqb c "-" || Ascii.eqb c "+" || Ascii.eqb c " ")%bool
  end.

Fixpoint allChars (p : ascii -> bool) (s : string) : bool :=
  match s with
  | EmptyString => true
  | String c s' => (p c && allChars p s')%bool
  end.

(** [insertBookingSchema.safeParse].  From [extend]: [name] of at least
    2 characters, [phone] matching [/^[0-9\-\+ ]{7,20}$/] (its characters
    are of ASCII, so that the bytes are the characters), [hours] between 1
    and 8, [date] and [startTime] any string.  From the columns, through
    [createInsertSchema]: [sportId] and [courtId], which are
    [varchar(36)], of at most 36 characters; [amount] an integer;
    [status] any string, or absent.  The lengths are those of JavaScript,
    in UTF-16 code units. *)
Definition safeParse (body : t) : option t :=
  if (Nat.leb 2 (JsStr.length (name body))
      && (Nat.leb 7 (String.length (phone body))
          && Nat.leb (String.length (phone body)) 20
          && allChars phoneChar (phone body))
      && (Nat.leb (JsStr.length (sportId body)) 36
          && Nat.leb (JsStr.length (courtId body)) 36)
      && ((1 <=? hours body) && (hours body <=? 8)))%bool
  then Some body else None.
End InsertBooking.

Module TimeSlot.
Record t := mk {
  time : string;
  displayTime : string;
  available : bool;
  bookingId : option string
}.
End TimeSlot.

Module DashboardMetrics.
Record t := mk {
  todayRevenue : Z;
  weekRevenue : Z;
  monthRevenue : Z;
  totalBookings : Z;
  courtAOccupancy : Z;
  courtBOccupancy : Z
}.
End DashboardMetrics.

(* ------------------------------------------------------------------ *)
(** ** date-fns *)

(** A [Date] is used by the engine only through its local calendar day, so
    it is modelled as the number of that day, counted from 1970-01-01.
    [format] follows the proleptic Gregorian calendar; its [yyyy] is the
    one of years 0 to 9999. *)
Module DateFns.

Definition Date := Z.

(** [date.getDay()]: 0 is Sunday; 1970-01-01 was a Thursday. *)
Definition getDay (d : Date) : Z := (d + 4) mod 7.

(** Of the day [doe] of an era of 400 years, which starts on a first of
    March: the year, the day of that year and the day of the month. *)
Definition yearOfEra (doe : Z) : Z :=
  (doe - doe / 1460 + doe / 36524 - doe / 146096) / 365.

Definition dayOfYear (doe : Z) : Z :=
  let yoe := yearOfEra doe in
  doe - (365 * yoe + yoe / 4 - yoe / 100).

Definition dayOfMonth (doe : Z) : Z :=
  let doy := dayOfYear doe in
  let mp := (5 * doy + 2) / 153 in
  doy - (153 * mp + 2) / 5 + 1.

(** Year, month and day of the month of a day number. *)
Definition civil (d : Date) : Z * Z * Z :=
  let z := d + 719468 in
  let era := z / 146097 in
  let doe := z mod 146097 in
  let mp := (5 * dayOfYear doe + 2) / 153 in
  let m := if mp <? 10 then mp + 3 else mp - 9 in
  let y := yearOfEra doe + era * 400 + (if m <=? 2 then 1 else 0) in
  (y, m, dayOfMonth doe).

(** [format(d, "yyyy-MM-dd")] *)
Definition format (d : Date) : string :=
  let '(y, m, day) := civil d in
  (JsStr.padStart0 4 (JsStr.ofZ y) ++ "-" ++ JsStr.padStart0 2 (JsStr.ofZ m)
     ++ "-" ++ JsStr.padStart0 2 (JsStr.ofZ day))%string.

Definition subDays (d : Date) (n : Z) : Date := d - n.

(** [startOfWeek(d, { weekStartsOn })]: back to the latest day whose
    [getDay] is [weekStartsOn]. *)
Definition startOfWeekOn (weekStartsOn : Z) (d : Date) : Date :=
  let day := getDay d in
  let diff := (if day <? weekStartsOn then 7 else 0) + day - weekStartsOn in
  d - diff.

(** [startOfWeek(d)]: without options [weekStartsOn] is 0, Sunday. *)
Definition startOfWeek (d : Date) : Date := startOfWeekOn 0 d.

(** [startOfMonth(d)] *)
Definition startOfMonth (d : Date) : Date :=
  let '(_, _, day) := civil d in d - (day - 1).

End DateFns.

(** A check, by running through the 146097 days of an era, that the days
    of the month of seven days in a row are all different. *)
Module WeekCheck.

(** Whether, for [n] days of an era in a row from day [i] on, the day of
    the month differs from those of the six days before; [prev] holds
    these, the latest first. *)
Fixpoint weekScan (prev : list Z) (i : Z) (n : nat) : bool :=
  match n with
  | O => true
  | S n' =>
      let x := DateFns.dayOfMonth i in
      if existsb (Z.eqb x) prev then false
      else weekScan (x :: removelast prev) (i + 1) n'
  end.

Definition sixBefore (i : Z) : list Z :=
  map (fun k => DateFns.dayOfMonth ((i - k) mod 146097)) [1; 2; 3; 4; 5; 6].

End WeekCheck.

(* ------------------------------------------------------------------ *)
(** ** server/storage.ts *)

Module MemStorage.

(** The maps of the class; [admins] plays no part in the engine and is
    left out. *)
Record t := mk {
  courts : JsMap.t Court.t;
  sports : JsMap.t Sport.t;
  bookings : JsMap.t Booking.t
}.

Definition OPENING_HOUR : Z := 6.
Definition CLOSING_HOUR : Z := 23.

Definition withBookings (st : t) (bs : JsMap.t Booking.t) : t :=
  mk (courts st) (sports st) bs.

(** [randomUUID().slice(0, 8).toUpperCase()] on the drawn UUID [u]. *)
Definition shortUuid (u : string) : string :=
  JsStr.toUpperCase (String.substring 0 8 u).

(** [parseInt(startTime.split(":")[0], 10)] *)
Definition hourOf (startTime : string) : JsNum.number :=
  JsStr.parseInt (JsStr.beforeColon startTime).

Definition startHour (b : Booking.t) : JsNum.number :=
  hourOf (Booking.startTime b).

Definition endHour (b : Booking.t) : JsNum.number :=
  JsNum.add (startHour b) (Some (Booking.hours b)).

(** *** seedData *)

Definition sample (name phone sportId courtId date startTime : string)
    (hours amount : Z) : InsertBooking.t :=
  InsertBooking.mk name phone sportId courtId date startTime hours amount None.

Definition sampleBookings (today : DateFns.Date) : list InsertBooking.t :=
  let day n := DateFns.format (DateFns.subDays today n) in
  [ sample "Ahmed Khan" "+92 300 1234567" "cricket" "court-a" (DateFns.format today) "09:00" 2 4000;
    sample "Ali Hassan" "+92 321 9876543" "football" "court-b" (DateFns.format today) "14:00" 1 2500;
    sample "Muhammad Rizwan" "+92 333 5556789" "cricket" "court-a" (day 1) "10:00" 3 6000;
    sample "Usman Tariq" "+92 345 1112233" "football" "court-a" (day 1) "16:00" 2 5000;
    sample "Bilal Ahmed" "+92 301 4445566" "cricket" "court-b" (day 2) "08:00" 2 4000;
    sample "Hassan Ali" "+92 312 7778899" "football" "court-a" (day 2) "18:00" 1 2500;
    sample "Imran Shah" "+92 323 0001122" "cricket" "court-b" (day 3) "11:00" 2 4000;
    sample "Kashif Raza" "+92 334 3334455" "football" "court-b" (day 3) "15:00" 2 5000;
    sample "Naveed Iqbal" "+92 345 6667788" "cricket" "court-a" (day 4) "07:00" 1 2000;
    sample "Shahid Malik" "+92 300 9990011" "football" "court-a" (day 4) "19:00" 2 5000;
    sample "Waqar Younis" "+92 321 2223344" "cricket" "court-b" (day 5) "12:00" 3 6000;
    sample "Yasir Arafat" "+92 333 5556677" "football" "court-b" (day 5) "17:00" 1 2500;
    sample "Zain Abbas" "+92 345 8889900" "cricket" "court-a" (day 6) "08:00" 2 4000;
    sample "Farhan Saeed" "+92 301 1112233" "football" "court-a" (day 6) "20:00" 2 5000;
    sample "Junaid Khan" "+92 312 4445566" "cricket" "court-b" (DateFns.format today) "18:00" 1 2000 ].

(** The record [{ id, uuid, ...booking, status }]. *)
Definition record (id uuid : string) (booking : InsertBooking.t)
    (status : string) : Booking.t :=
  Booking.mk id uuid (InsertBooking.name booking) (InsertBooking.phone booking)
    (InsertBooking.sportId booking) (InsertBooking.courtId booking)
    (InsertBooking.date booking) (InsertBooking.startTime booking)
    (InsertBooking.hours booking) (InsertBooking.amount booking) status.

(** The [forEach] of [seedData]; [rnd n] is the result of the [n]-th call
    of [randomUUID], the calls being counted from [i]. *)
Fixpoint seedBookings (rnd : nat -> string) (i : nat)
    (samples : list InsertBooking.t) (bs : JsMap.t Booking.t)
    : JsMap.t Booking.t :=
  match samples with
  | [] => bs
  | booking :: rest =>
      let id := rnd i in
      let uuid := shortUuid (rnd (S i)) in
      seedBookings rnd (S (S i)) rest
        (JsMap.set id (record id uuid booking "booked") bs)
  end.

(** The store the constructor builds. *)
Definition seedData (today : DateFns.Date) (rnd : nat -> string) : t :=
  let courtA := Court.mk "court-a" "Court A" in
  let courtB := Court.mk "court-b" "Court B" in
  let cricket := Sport.mk "cricket" "Cricket" 2000 in
  let football := Sport.mk "football" "Football" 2500 in
  mk (JsMap.set (Court.id courtB) courtB
        (JsMap.set (Court.id courtA) courtA JsMap.empty))
     (JsMap.set (Sport.id football) football
        (JsMap.set (Sport.id cricket) cricket JsMap.empty))
     (seedBookings rnd 0 (sampleBookings today) JsMap.empty).

(** *** Catalogue and ledger *)

Definition getCourts (st : t) : list Court.t := JsMap.values (courts st).

Definition getSports (st : t) : list Sport.t := JsMap.values (sports st).

Definition getSport (id : string) (st : t) : option Sport.t :=
  JsMap.get id (sports st).

(** [createSport]; [id] is the drawn UUID. *)
Definition createSport (id name : string) (pricePerHour : Z) (st : t)
    : t * Sport.t :=
  let newSport := Sport.mk id name pricePerHour in
  (mk (courts st) (JsMap.set id newSport (sports st)) (bookings st), newSport).

Definition getBooking (id : string) (st : t) : option Booking.t :=
  JsMap.get id (bookings st).

(** [booking.status || "booked"]: an absent or empty status is falsy. *)
Definition statusOrBooked (s : option string) : string :=
  match s with
  | None => "booked"
  | Some EmptyString => "booked"
  | Some v => v
  end.

(** [createBooking]; [id] and [u] are the two drawn UUIDs. *)
Definition createBooking (booking : InsertBooking.t) (id u : string) (st : t)
    : t * Booking.t :=
  let newBooking :=
    record id (shortUuid u) booking
      (statusOrBooked (InsertBooking.status booking)) in
  (withBookings st (JsMap.set id newBooking (bookings st)), newBooking).

Definition updateBookingStatus (id status : string) (st : t)
    : t * option Booking.t :=
  match JsMap.get id (bookings st) with
  | None => (st, None)
  | Some booking =>
      let updatedBooking := Booking.withStatus booking status in
      (withBookings st (JsMap.set id updatedBooking (bookings st)),
       Some updatedBooking)
  end.

Definition getBookingsForDateAndCourt (date courtId : string) (st : t)
    : list Booking.t :=
  filter (fun b =>
            (String.eqb (Booking.date b) date
             && String.eqb (Booking.courtId b) courtId
             && String.eqb (Booking.status b) "booked")%bool)
         (JsMap.values (bookings st)).

(** *** Availability *)

(** The three-clause test of the loop of [checkSlotAvailability]. *)
Definition clash (requestedStartHour requestedEndHour
                  bookingStartHour bookingEndHour : JsNum.number) : bool :=
  ((JsNum.ge requestedStartHour bookingStartHour
    && JsNum.lt requestedStartHour bookingEndHour)
   || (JsNum.gt requestedEndHour bookingStartHour
       && JsNum.le requestedEndHour bookingEndHour)
   || (JsNum.le requestedStartHour bookingStartHour
       && JsNum.ge requestedEndHour bookingEndHour))%bool.

Definition checkSlotAvailability (courtId date startTime : string)
    (hours : Z) (st : t) : bool :=
  let existingBookings := getBookingsForDateAndCourt date courtId st in
  let requestedStartHour := hourOf startTime in
  let requestedEndHour := JsNum.add requestedStartHour (Some hours) in
  if (JsNum.lt requestedStartHour (Some OPENING_HOUR)
      || JsNum.gt requestedEndHour (Some CLOSING_HOUR))%bool
  then false
  else
    negb (existsb (fun booking =>
                     clash requestedStartHour requestedEndHour
                           (startHour booking) (endHour booking))
                  existingBookings).

(** [for (h = 0; h < n; h++)]: the values [h] takes. *)
Definition upto (n : Z) : list Z := map Z.of_nat (seq 0 (Z.to_nat n)).

(** The set [bookedHours], as the list of the numbers added to it. *)
Definition bookedHours (courtBookings : list Booking.t) : list JsNum.number :=
  flat_map (fun booking =>
              map (fun h => JsNum.add (startHour booking) (Some h))
                  (upto (Booking.hours booking)))
           courtBookings.

Definition has (set : list JsNum.number) (x : JsNum.number) : bool :=
  existsb (JsNum.sameValueZero x) set.

Definition slotFor (courtBookings : list Booking.t) (hour : Z) : TimeSlot.t :=
  let time := (JsStr.padStart0 2 (JsStr.ofZ hour) ++ ":00")%string in
  let displayTime :=
    (JsStr.ofZ (if hour >? 12 then hour - 12 else hour) ++ ":00 "
       ++ (if hour >=? 12 then "PM" else "AM"))%string in
  let available := negb (has (bookedHours courtBookings) (Some hour)) in
  let existingBooking :=
    find (fun b => JsNum.strictEq (startHour b) (Some hour)) courtBookings in
  TimeSlot.mk time displayTime available (option_map Booking.id existingBooking).

(** [for (hour = OPENING_HOUR; hour < CLOSING_HOUR; hour++)] *)
Definition gridHours : list Z :=
  map (fun i => OPENING_HOUR + i) (upto (CLOSING_HOUR - OPENING_HOUR)).

Definition courtSlots (date : string) (court : Court.t) (st : t)
    : list TimeSlot.t :=
  map (slotFor (getBookingsForDateAndCourt date (Court.id court) st)) gridHours.

(** [slots] is an object keyed by court id, filled court by court. *)
Definition getAvailability (date : string) (st : t)
    : list Court.t * list Sport.t * JsMap.t (list TimeSlot.t) :=
  let courts := getCourts st in
  let sports := getSports st in
  let slots :=
    fold_left (fun slots court =>
                 JsMap.set (Court.id court) (courtSlots date court st) slots)
              courts JsMap.empty in
  (courts, sports, slots).

(** *** Dashboard *)

Definition revenue (bs : list Booking.t) : Z :=
  fold_left (fun sum b => sum + Booking.amount b) bs 0.

Definition counted (b : Booking.t) : bool :=
  (String.eqb (Booking.status b) "booked"
   || String.eqb (Booking.status b) "completed")%bool.

(** [Math.round((h / total) * 100)], on exact fractions. *)
Definition roundPercent (h total : Z) : Z := (200 * h + total) / (2 * total).

(** [getDashboardMetrics]; [now] is the value of [new Date()]. *)
Definition getDashboardMetrics (now : DateFns.Date) (st : t)
    : DashboardMetrics.t :=
  let bookings := filter counted (JsMap.values (bookings st)) in
  let today := DateFns.format now in
  let weekStart := DateFns.format (DateFns.startOfWeek now) in
  let monthStart := DateFns.format (DateFns.startOfMonth now) in
  let todayRevenue :=
    revenue (filter (fun b => String.eqb (Booking.date b) today) bookings) in
  let weekRevenue :=
    revenue (filter (fun b => JsStr.ge (Booking.date b) weekStart) bookings) in
  let monthRevenue :=
    revenue (filter (fun b => JsStr.ge (Booking.date b) monthStart) bookings) in
  let totalBookings := Z.of_nat (List.length bookings) in
  let totalSlots := (CLOSING_HOUR - OPENING_HOUR) * 7 in
  let since := DateFns.format (DateFns.subDays now 7) in
  let hoursOf court :=
    fold_left (fun sum b => sum + Booking.hours b)
      (filter (fun b => (String.eqb (Booking.courtId b) court
                         && JsStr.ge (Booking.date b) since)%bool) bookings) 0 in
  DashboardMetrics.mk todayRevenue weekRevenue monthRevenue totalBookings
    (roundPercent (hoursOf "court-a") totalSlots)
    (roundPercent (hoursOf "court-b") totalSlots).

(** *** Further queries *)

Definition getCourt (id : string) (st : t) : option Court.t :=
  JsMap.get id (courts st).

(** [createCourt]; [id] is the drawn UUID, [name] the field of the
    [InsertCourt]. *)
Definition createCourt (id name : string) (st : t) : t * Court.t :=
  let newCourt := Court.mk id name in
  (mk (JsMap.set id newCourt (courts st)) (sports st) (bookings st), newCourt).

Definition getBookingByUuid (uuid : string) (st : t) : option Booking.t :=
  find (fun b => String.eqb (Booking.uuid b) uuid) (JsMap.values (bookings st)).

(** *** Charts *)

(** Of [getChartData] the two arrays of whole numbers are modelled; the
    third, [occupancyByCourtAndSport], rounds a floating-point quotient
    and is left out. *)

(** The dates of the loop [for (i = 6; i >= 0; i--)] of [getChartData]. *)
Definition chartDays (now : DateFns.Date) : list string :=
  map (fun i => DateFns.format (DateFns.subDays now i)) [6; 5; 4; 3; 2; 1; 0].

(** The array [revenueByDay] of [getChartData]. *)
Definition revenueByDay (now : DateFns.Date) (st : t) : list (string * Z) :=
  let bookings := filter counted (JsMap.values (bookings st)) in
  map (fun date =>
         let dayBookings :=
           filter (fun b => String.eqb (Booking.date b) date) bookings in
         (date, revenue dayBookings))
      (chartDays now).

(** The array [bookingsByDay] of [getChartData]: the date, [courtA] and
    [courtB]. *)
Definition bookingsByDay (now : DateFns.Date) (st : t)
    : list (string * Z * Z) :=
  let bookings := filter counted (JsMap.values (bookings st)) in
  map (fun date =>
         let dayBookings :=
           filter (fun b => String.eqb (Booking.date b) date) bookings in
         let on court :=
           Z.of_nat (List.length
                       (filter (fun b => String.eqb (Booking.courtId b) court)
                               dayBookings)) in
         (date, on "court-a", on "court-b"))
      (chartDays now).

End MemStorage.

(* ------------------------------------------------------------------ *)
(** ** server/routes.ts: the booking routes *)

Module Routes.

(** What a handler sends: [res.status(code).json(booking)] or
    [res.status(code).json({ message })].  The storage in memory throws
    nothing, so the [catch] branches of the handlers, which answer 500,
    are never taken and are left out. *)
Inductive reply :=
| Json (code : Z) (body : option Booking.t)
| Message (code : Z) (message : string).

(** [req.session.userId], absent or empty when nobody is logged in. *)
Definition session := option string.

Definition requireAuth (s : session) (st : MemStorage.t)
    (next : MemStorage.t * reply) : MemStorage.t * reply :=
  match s with
  | None | Some EmptyString => (st, Message 401 "Unauthorized - please log in")
  | Some _ => next
  end.

(** [POST /api/bookings]; [id] and [u] are the UUIDs [createBooking]
    draws when it is reached. *)
Definition postBooking (s : session) (body : InsertBooking.t) (id u : string)
    (st : MemStorage.t) : MemStorage.t * reply :=
  requireAuth s st
    match InsertBooking.safeParse body with
    | None => (st, Message 400 "Validation failed")
    | Some data =>
        let isAvailable :=
          MemStorage.checkSlotAvailability (InsertBooking.courtId data)
            (InsertBooking.date data) (InsertBooking.startTime data)
            (InsertBooking.hours data) st in
        if negb isAvailable
        then (st, Message 409
               "That slot is already taken — please pick another time or court.")
        else
          let '(st', booking) := MemStorage.createBooking data id u st in
          (st', Json 201 (Some booking))
    end.

(** [POST /api/bookings/:id/cancel] *)
Definition postCancel (s : session) (id : string) (st : MemStorage.t)
    : MemStorage.t * reply :=
  requireAuth s st
    match MemStorage.getBooking id st with
    | None => (st, Message 404 "Booking not found")
    | Some booking =>
        if String.eqb (Booking.status booking) "cancelled"
        then (st, Message 400 "Booking is already cancelled")
        else
          let '(st', updatedBooking) :=
            MemStorage.updateBookingStatus id "cancelled" st in
          (st', Json 200 updatedBooking)
    end.

(** [POST /api/bookings/:id/complete] *)
Definition postComplete (s : session) (id : string) (st : MemStorage.t)
    : MemStorage.t * reply :=
  requireAuth s st
    match MemStorage.getBooking id st with
    | None => (st, Message 404 "Booking not found")
    | Some booking =>
        if String.eqb (Booking.status booking) "cancelled"
        then (st, Message 400 "Cannot complete a cancelled booking")
        else
          let '(st', updatedBooking) :=
            MemStorage.updateBookingStatus id "completed" st in
          (st', Json 200 updatedBooking)
    end.

(** The requests that change the ledger.  Each handler runs to its end
    before the next request is taken up. *)
Inductive request :=
| PostBooking (s : session) (body : InsertBooking.t) (id u : string)
| PostCancel (s : session) (id : string)
| PostComplete (s : session) (id : string).

Definition handle (r : request) (st : MemStorage.t) : MemStorage.t * reply :=
  match r with
  | PostBooking s body id u => postBooking s body id u st
  | PostCancel s id => postCancel s id st
  | PostComplete s id => postComplete s id st
  end.

(** The store after a sequence of requests. *)
Fixpoint serve (rs : list request) (st : MemStorage.t) : MemStorage.t :=
  match rs with
  | [] => st
  | r :: rs' => serve rs' (fst (handle r st))
  end.

(** The replies to a sequence of requests. *)
Fixpoint replies (rs : list request) (st : MemStorage.t) : list reply :=
  match rs with
  | [] => []
  | r :: rs' => snd (handle r st) :: replies rs' (fst (handle r st))
  end.

(** Whether [requireAuth] lets the request through. *)
Definition loggedIn (s : session) : bool :=
  match s with
  | None | Some EmptyString => false
  | Some _ => true
  end.

(** *** [GET /api/slots] *)

(** The names every object inherits from [Object.prototype]: reading one
    of them on the object [slots] finds a value even when no court has
    that id. *)
Definition objectPrototype : list string :=
  [ "constructor"; "hasOwnProperty"; "isPrototypeOf"; "propertyIsEnumerable";
    "toLocaleString"; "toString"; "valueOf"; "__proto__";
    "__defineGetter__"; "__defineSetter__"; "__lookupGetter__";
    "__lookupSetter__" ].

(** What the handler sends: the slots of one court, a value inherited from
    the prototype, the whole availability, or a message. *)
Inductive slotsReply :=
| CourtSlots (slots : list TimeSlot.t)
| Inherited (name : string)
| Availability
    (a : list Court.t * list Sport.t * JsMap.t (list TimeSlot.t))
| SlotsMessage (code : Z) (message : string).

(** [date] and [courtId] are [req.query.date] and [req.query.court_id],
    each given at most once. *)
Definition getSlots (date courtId : option string) (st : MemStorage.t)
    : slotsReply :=
  match date with
  | None | Some EmptyString => SlotsMessage 400 "Date parameter is required"
  | Some date =>
      let availability := MemStorage.getAvailability date st in
      match courtId with
      | None | Some EmptyString => Availability availability
      | Some courtId =>
          match JsMap.get courtId (snd availability) with
          | Some courtSlots => CourtSlots courtSlots
          | None =>
              if existsb (String.eqb courtId) objectPrototype
              then Inherited courtId
              else SlotsMessage 404 "Court not found"
          end
      end
  end.

End Routes.

(* ------------------------------------------------------------------ *)
(** ** The overlap predicate and the statements of the ledger invariant *)

Module Ledger.

(** The overlap predicate on two half-open ranges: [s1 < e2 && s2 < e1]. *)
Definition overlap (s1 e1 s2 e2 : JsNum.number) : bool :=
  (JsNum.lt s1 e2 && JsNum.lt s2 e1)%bool.

Definition overlaps (b1 b2 : Booking.t) : bool :=
  overlap (MemStorage.startHour b1) (MemStorage.endHour b1)
          (MemStorage.startHour b2) (MemStorage.endHour b2).

Definition booked (b : Booking.t) : bool :=
  String.eqb (Booking.status b) "booked".

(** No double booking: on every court and date the booked reservations,
    taken two by two, do not overlap.  The ranges are those the
    availability check reads: each starts at the hour before the colon of
    the start time, and a start time that reads as no hour gives a range
    that overlaps nothing. *)
Definition NoDoubleBooking (st : MemStorage.t) : Prop :=
  forall courtId date,
    ForallOrdPairs (fun b1 b2 => overlaps b1 b2 = false)
      (MemStorage.getBookingsForDateAndCourt date courtId st).

(** The same, told of two records of the ledger. *)
Definition compatible (b1 b2 : Booking.t) : Prop :=
  booked b1 = true -> booked b2 = true ->
  Booking.date b1 = Booking.date b2 ->
  Booking.courtId b1 = Booking.courtId b2 ->
  overlaps b1 b2 = false.

Definition Consistent (st : MemStorage.t) : Prop :=
  ForallOrdPairs compatible (JsMap.values (MemStorage.bookings st)).

(** A store is reachable from [st0] when requests lead from [st0] to it. *)
Definition reachable (st0 st : MemStorage.t) : Prop :=
  exists rs, st = Routes.serve rs st0.

(** The decision of [compatible], and of a relation on every two elements
    of a list in their order. *)
Definition compatibleb (b1 b2 : Booking.t) : bool :=
  (negb (booked b1 && booked b2
         && String.eqb (Booking.date b1) (Booking.date b2)
         && String.eqb (Booking.courtId b1) (Booking.courtId b2))
   || negb (overlaps b1 b2))%bool.

Fixpoint pairsb {A} (r : A -> A -> bool) (l : list A) : bool :=
  match l with
  | [] => true
  | a :: l' => (forallb (r a) l' && pairsb r l')%bool
  end.

Definition consistentb (st : MemStorage.t) : bool :=
  pairsb compatibleb (JsMap.values (MemStorage.bookings st)).

(** Whether the ranges two requests ask for overlap. *)
Definition rangesOverlap (s1 s2 : InsertBooking.t) : bool :=
  overlap (MemStorage.hourOf (InsertBooking.startTime s1))
          (JsNum.add (MemStorage.hourOf (InsertBooking.startTime s1))
                     (Some (InsertBooking.hours s1)))
          (MemStorage.hourOf (InsertBooking.startTime s2))
          (JsNum.add (MemStorage.hourOf (InsertBooking.startTime s2))
                     (Some (InsertBooking.hours s2))).

(** Two requests that cannot make a double booking: on another date, on
    another court, or with ranges that do not overlap. *)
Definition apart (s1 s2 : InsertBooking.t) : Prop :=
  InsertBooking.date s1 <> InsertBooking.date s2
  \/ InsertBooking.courtId s1 <> InsertBooking.courtId s2
  \/ rangesOverlap s1 s2 = false.

(** Create requests of one session, each with the UUIDs drawn for it. *)
Definition creates (s : Routes.session)
    (asks : list (InsertBooking.t * string * string)) : list Routes.request :=
  map (fun '(body, id, u) => Routes.PostBooking s body id u) asks.

(** Whether a reply is that of a booking made. *)
Definition created (r : Routes.reply) : bool :=
  match r with
  | Routes.Json code _ => code =? 201
  | Routes.Message _ _ => false
  end.

(** The store with the records that are not booked taken out. *)
Definition onlyBooked (st : MemStorage.t) : MemStorage.t :=
  MemStorage.withBookings st
    (filter (fun kb => booked (snd kb)) (MemStorage.bookings st)).

(** Whether a request stores a record under the drawn id [id]. *)
Definition draws (id : string) (r : Routes.request) : bool :=
  match r with
  | Routes.PostBooking _ _ id' _ => String.eqb id' id
  | _ => false
  end.

(** Everything of a record but its status. *)
Definition sameButStatus (b b' : Booking.t) : Prop :=
  Booking.withStatus b' (Booking.status b) = b.

(** The record under [id] is [b], with whatever status. *)
Definition kept (id : string) (b : Booking.t) (st : MemStorage.t) : Prop :=
  exists b', MemStorage.getBooking id st = Some b' /\ sameButStatus b b'.

(** *** Further invariants of the ledger *)

(** A record of one to eight hours that, when its start time reads as an
    hour, lies in the opening window. *)
Definition windowed (b : Booking.t) : Prop :=
  1 <= Booking.hours b <= 8
  /\ forall s, MemStorage.startHour b = Some s ->
       MemStorage.OPENING_HOUR <= s
       /\ s + Booking.hours b <= MemStorage.CLOSING_HOUR.

(** Every record is stored under its own id, and no id twice. *)
Definition keyed (st : MemStorage.t) : Prop :=
  NoDup (JsMap.keys (MemStorage.bookings st))
  /\ Forall (fun kb : string * Booking.t => Booking.id (snd kb) = fst kb)
            (MemStorage.bookings st).

(** What holds of every store the requests lead to from the seeded one. *)
Definition Sound (st : MemStorage.t) : Prop :=
  Consistent st
  /\ Forall windowed (JsMap.values (MemStorage.bookings st))
  /\ keyed st.

(** Whether a character is a lower-case letter. *)
Definition isLower (c : ascii) : bool :=
  (Nat.leb 97 (nat_of_ascii c) && Nat.leb (nat_of_ascii c) 122)%bool.

End Ledger.

(** The range of a booking as the specification has it: from its start
    time on the clock, over its hours. *)
Module Clock.

(** The start in minutes after midnight, for a start time written as
    hours and minutes around a colon. *)
Definition start (startTime : string) : option Z :=
  match MemStorage.hourOf startTime, JsStr.afterColon startTime with
  | Some h, Some minutes =>
      match JsStr.parseInt minutes with
      | Some m => Some (60 * h + m)
      | None => None
      end
  | _, _ => None
  end.

(** Whether the ranges of two bookings overlap, in minutes. *)
Definition overlap (b1 b2 : Booking.t) : bool :=
  match start (Booking.startTime b1), start (Booking.startTime b2) with
  | Some m1, Some m2 =>
      ((m1 <? m2 + 60 * Booking.hours b2)
       && (m2 <? m1 + 60 * Booking.hours b1))%bool
  | _, _ => false
  end.

(** The start time of [b] is the hour [h] of the day, written [HH:00] as
    the day grid writes the hours. *)
Definition onTheHour (b : Booking.t) (h : Z) : Prop :=
  0 <= h < 24
  /\ Booking.startTime b = (JsStr.padStart0 2 (JsStr.ofZ h) ++ ":00")%string.

End Clock.

(** The booking form of the client ([booking-modal.tsx]): the amount it
    sends with a create request. *)
Module BookingModal.

Definition calculatedAmount (sports : list Sport.t) (selectedSportId : string)
    (hours : Z) : Z :=
  match find (fun s => String.eqb (Sport.id s) selectedSportId) sports with
  | None => 0
  | Some selectedSport => Sport.pricePerHour selectedSport * hours
  end.

End BookingModal.

(** The week revenue as the specification words it, for a week that starts
    on the weekday [weekStartsOn] (0 Sunday, 1 Monday): the sum, over the
    ledger, of the amount of a record when it is booked or completed and
    its date is on or after the start of the week of [now], and of 0
    otherwise. *)
Module RevenueSpec.

Definition inWeek (weekStartsOn : Z) (now : DateFns.Date) (b : Booking.t) : bool :=
  ((String.eqb (Booking.status b) "booked"
    || String.eqb (Booking.status b) "completed")
   && JsStr.ge (Booking.date b)
        (DateFns.format (DateFns.startOfWeekOn weekStartsOn now)))%bool.

Fixpoint total (share : Booking.t -> Z) (bs : list Booking.t) : Z :=
  match bs with
  | [] => 0
  | b :: bs' => share b + total share bs'
  end.

Definition weekRevenue (weekStartsOn : Z) (now : DateFns.Date)
    (st : MemStorage.t) : Z :=
  total (fun b => if inWeek weekStartsOn now b then Booking.amount b else 0)
        (JsMap.values (MemStorage.bookings st)).

End RevenueSpec.

(** Stores and requests the properties are tried on. *)
Module Scenario.

(** 2024-12-01, a Sunday. *)
Definition sunday : DateFns.Date := 20058.

Definition rnd (n : nat) : string :=
  (JsStr.padStart0 8 (JsStr.ofZ (1000 + 37 * Z.of_nat n))
     ++ "-5c1d-4e2f-9a3b-7d6e5f4c3b2a")%string.

(** The store the server starts with on that day. *)
Definition seeded : MemStorage.t := MemStorage.seedData sunday rnd.

Definition admin : Routes.session := Some "admin-1".

Definition request (courtId date startTime : string) (hours amount : Z)
    : InsertBooking.t :=
  InsertBooking.mk "Sara Malik" "+92 300 7654321" "cricket" courtId date
    startTime hours amount None.

(** The two courts and the two sports, and no booking yet. *)
Definition empty : MemStorage.t :=
  MemStorage.mk (MemStorage.courts seeded) (MemStorage.sports seeded) JsMap.empty.

(** The first booking of the scenario of the specification: court A,
    cricket, 09:00 for 2 hours, 4000. *)
Definition nineToEleven : InsertBooking.t :=
  request "court-a" "2024-12-02" "09:00" 2 4000.

(** The ledger with that booking alone. *)
Definition oneBooking : MemStorage.t :=
  fst (Routes.postBooking admin nineToEleven "b-1" "9f8e7d6c-1111" empty).

(** The record that request leaves in the ledger. *)
Definition firstBooking : Booking.t :=
  MemStorage.record "b-1" "9F8E7D6C" nineToEleven "booked".

(** Requests served one after the other on the seeded store: a booking
    next to the one of 09:00 to 11:00 on court A, the cancellation of that
    one, the completion of the new one. *)
Definition afternoon : list Routes.request :=
  [ Routes.PostBooking admin (request "court-a" "2024-12-01" "11:00" 1 2000)
      "b-1" "9f8e7d6c-1111";
    Routes.PostCancel admin (rnd 0);
    Routes.PostComplete admin "b-1" ].

(** A request whose start time is no time of day, sent twice. *)
Definition noon : InsertBooking.t :=
  request "court-a" "2024-12-05" "noon" 2 4000.

Definition noonTwice : list Routes.request :=
  Ledger.creates admin
    [ (noon, "b-1", "9f8e7d6c-1111"); (noon, "b-2", "0a1b2c3d-2222") ].

(** One hour from 09:30 and one hour from 10:00, on one court and day. *)
Definition halfPastNine : InsertBooking.t :=
  request "court-a" "2024-12-05" "09:30" 1 2000.

Definition tenOClock : InsertBooking.t :=
  request "court-a" "2024-12-05" "10:00" 1 2000.

Definition halfHourApart : list Routes.request :=
  Ledger.creates admin
    [ (halfPastNine, "b-3", "9f8e7d6c-3333");
      (tenOClock, "b-4", "0a1b2c3d-4444") ].

(** Two hours of cricket, at 2000 an hour, sent with the amount [amount]. *)
Definition twoHoursFor (amount : Z) : InsertBooking.t :=
  request "court-a" "2024-12-02" "09:00" 2 amount.

End Scenario.

(** The sum of a list of numbers. *)
Definition sumZ (l : list Z) : Z := fold_right Z.add 0 l.

(** The pages of the client that the engine serves. *)
Module CreateBookingPage.

(** [availableSlots]: the slots of the selected court the form offers.
    [slots] is the object of the reply of [/api/availability]; [None]
    stands for the [TypeError] of calling [filter] on what a name of
    [Object.prototype] finds there. *)
Definition availableSlots (selectedCourtId : string)
    (slots : JsMap.t (list TimeSlot.t)) : option (list TimeSlot.t) :=
  match selectedCourtId with
  | EmptyString => Some []
  | _ =>
      match JsMap.get selectedCourtId slots with
      | Some courtSlots => Some (filter TimeSlot.available courtSlots)
      | None =>
          if existsb (String.eqb selectedCourtId) Routes.objectPrototype
          then None
          else Some []
      end
  end.

End CreateBookingPage.

Module BookingsPage.

Definition ITEMS_PER_PAGE : nat := 10.

(** [Math.ceil(n / ITEMS_PER_PAGE)] *)
Definition totalPages {A} (filteredBookings : list A) : nat :=
  (List.length filteredBookings + (ITEMS_PER_PAGE - 1)) / ITEMS_PER_PAGE.

(** [filteredBookings.slice((currentPage - 1) * ITEMS_PER_PAGE,
    currentPage * ITEMS_PER_PAGE)], for a page number from 1 on. *)
Definition paginatedBookings {A} (currentPage : nat)
    (filteredBookings : list A) : list A :=
  firstn (currentPage * ITEMS_PER_PAGE - (currentPage - 1) * ITEMS_PER_PAGE)
         (skipn ((currentPage - 1) * ITEMS_PER_PAGE) filteredBookings).

End BookingsPage.

(* ------------------------------------------------------------------ *)
(** ** Maps *)

Section JsMapFacts.
Context {V : Type}.
Implicit Types (m : JsMap.t V) (k : string) (v : V).

Lemma get_set_same k v m : JsMap.get k (JsMap.set k v m) = Some v.
Proof.
  induction m as [|[k' v'] m IH]; simpl.
  - now rewrite String.eqb_refl.
  - destruct (String.eqb k' k) eqn:E; simpl.
    + now rewrite String.eqb_refl.
    + now rewrite E.
Qed.

Lemma get_set_other k k' v m :
  k' <> k -> JsMap.get k' (JsMap.set k v m) = JsMap.get k' m.
Proof.
  intros Hne. induction m as [|[k0 v0] m IH]; simpl.
  - destruct (String.eqb_spec k k'); congruence.
  - destruct (String.eqb_spec k0 k) as [->|Hk]; simpl.
    + destruct (String.eqb_spec k k'); congruence.
    + destruct (String.eqb_spec k0 k'); congruence.
Qed.

Lemma get_In k v m : JsMap.get k m = Some v -> In v (JsMap.values m).
Proof.
  induction m as [|[k' v'] m IH]; simpl; [discriminate|].
  destruct (String.eqb k' k); intros H.
  - left. congruence.
  - right. auto.
Qed.

(** After [set] a value of the map is the new one or was there before. *)
Lemma In_values_set k v m x :
  In x (JsMap.values (JsMap.set k v m)) -> x = v \/ In x (JsMap.values m).
Proof.
  induction m as [|[k' v'] m IH]; simpl.
  - intros [H|[]]. now left.
  - destruct (String.eqb k' k); simpl.
    + intros [H|H]; [now left | now right; right].
    + intros [H|H]; [now right; left |].
      destruct (IH H); [now left | now right; right].
Qed.

Lemma keys_set_present k v b m :
  JsMap.get k m = Some b -> JsMap.keys (JsMap.set k v m) = JsMap.keys m.
Proof.
  induction m as [|[k' v'] m IH]; simpl; [discriminate|].
  destruct (String.eqb_spec k' k) as [->|Hk]; simpl; [reflexivity|].
  intros H. now rewrite IH.
Qed.

(** [set] keeps a relation that holds of every two values in the order
    of the map, when the new value stands in it with all the old ones,
    on either side. *)
Lemma pairs_set (R : V -> V -> Prop) k v m :
  ForallOrdPairs R (JsMap.values m) ->
  (forall x, In x (JsMap.values m) -> R v x /\ R x v) ->
  ForallOrdPairs R (JsMap.values (JsMap.set k v m)).
Proof.
  induction m as [|[k' v'] m IH]; simpl; intros Hp Hv.
  - repeat constructor.
  - inversion Hp as [|a l Ha Hl]; subst.
    destruct (String.eqb k' k); simpl.
    + constructor; [|exact Hl].
      apply Forall_forall. intros x Hx. apply Hv. now right.
    + constructor.
      * apply Forall_forall. intros x Hx.
        destruct (In_values_set _ _ _ _ Hx) as [->|Hin].
        -- apply Hv. now left.
        -- rewrite Forall_forall in Ha. now apply Ha.
      * apply IH; [exact Hl|]. intros x Hx. apply Hv. now right.
Qed.

End JsMapFacts.

Lemma pairs_filter {A} (R : A -> A -> Prop) (f : A -> bool) (l : list A) :
  ForallOrdPairs R l -> ForallOrdPairs R (filter f l).
Proof.
  induction 1 as [|a l Ha Hl IH]; simpl; [constructor|].
  destruct (f a); [|exact IH].
  constructor; [|exact IH].
  rewrite Forall_forall in *. intros x Hx.
  apply filter_In in Hx. now apply Ha.
Qed.

(* ------------------------------------------------------------------ *)
(** ** The overlap test *)

Ltac js_cmp :=
  unfold MemStorage.clash, Ledger.overlap, JsNum.ge, JsNum.gt, JsNum.le, JsNum.lt in *;
  simpl in *;
  repeat match goal with
         | |- context [?a <? ?b] => destruct (Z.ltb_spec a b)
         | |- context [?a <=? ?b] => destruct (Z.leb_spec a b)
         | H : context [?a <? ?b] |- _ => destruct (Z.ltb_spec a b)
         | H : context [?a <=? ?b] |- _ => destruct (Z.leb_spec a b)
         end;
  simpl in *; try reflexivity; try discriminate; try lia.

(** On two ranges that are not empty the three clauses say what the
    overlap predicate says. *)
Lemma clash_overlap (s1 e1 s2 e2 : Z) :
  s1 < e1 -> s2 < e2 ->
  MemStorage.clash (Some s1) (Some e1) (Some s2) (Some e2)
  = Ledger.overlap (Some s1) (Some e1) (Some s2) (Some e2).
Proof. intros H1 H2. js_cmp. Qed.

(** Whatever the ranges, NaN ends included, ranges that overlap clash. *)
Lemma clash_false_overlap (rs re bs be : JsNum.number) :
  MemStorage.clash rs re bs be = false -> Ledger.overlap rs re bs be = false.
Proof. destruct rs, re, bs, be; intros H; js_cmp. Qed.

Lemma overlap_sym (s1 e1 s2 e2 : JsNum.number) :
  Ledger.overlap s1 e1 s2 e2 = Ledger.overlap s2 e2 s1 e1.
Proof. unfold Ledger.overlap. apply andb_comm. Qed.

Lemma overlap_true_iff (s1 e1 s2 e2 : Z) :
  Ledger.overlap (Some s1) (Some e1) (Some s2) (Some e2) = true
  <-> s1 < e2 /\ s2 < e1.
Proof. js_cmp; split; intros; try discriminate; try lia; auto. Qed.

(** What [checkSlotAvailability] answers, clause by clause. *)
Lemma checkSlotAvailability_true courtId date startTime hours st :
  MemStorage.checkSlotAvailability courtId date startTime hours st = true
  <-> JsNum.lt (MemStorage.hourOf startTime) (Some MemStorage.OPENING_HOUR) = false
      /\ JsNum.gt (JsNum.add (MemStorage.hourOf startTime) (Some hours))
                  (Some MemStorage.CLOSING_HOUR) = false
      /\ forall b,
           In b (MemStorage.getBookingsForDateAndCourt date courtId st) ->
           MemStorage.clash (MemStorage.hourOf startTime)
             (JsNum.add (MemStorage.hourOf startTime) (Some hours))
             (MemStorage.startHour b) (MemStorage.endHour b) = false.
Proof.
  unfold MemStorage.checkSlotAvailability.
  destruct (JsNum.lt _ (Some MemStorage.OPENING_HOUR)) eqn:Eo.
  { split; [discriminate | intros [H _]; discriminate]. }
  destruct (JsNum.gt _ (Some MemStorage.CLOSING_HOUR)) eqn:Ec.
  { split; [discriminate | intros (_ & H & _); discriminate]. }
  cbn [orb]. rewrite negb_true_iff. split.
  - intros H. repeat split. intros b Hb.
    destruct (MemStorage.clash _ _ _ _) eqn:E; [|reflexivity].
    assert (existsb (fun booking =>
              MemStorage.clash (MemStorage.hourOf startTime)
                (JsNum.add (MemStorage.hourOf startTime) (Some hours))
                (MemStorage.startHour booking) (MemStorage.endHour booking))
              (MemStorage.getBookingsForDateAndCourt date courtId st) = true)
      as Hex by (apply existsb_exists; exists b; auto).
    congruence.
  - intros (_ & _ & H).
    destruct (existsb _ _) eqn:E; [|reflexivity].
    apply existsb_exists in E. destruct E as (b & Hb & Hc).
    rewrite (H b Hb) in Hc. discriminate.
Qed.

Lemma In_getBookingsForDateAndCourt b date courtId st :
  In b (MemStorage.getBookingsForDateAndCourt date courtId st)
  <-> In b (JsMap.values (MemStorage.bookings st))
      /\ Booking.date b = date /\ Booking.courtId b = courtId
      /\ Booking.status b = "booked".
Proof.
  unfold MemStorage.getBookingsForDateAndCourt.
  rewrite filter_In, !andb_true_iff, !String.eqb_eq. tauto.
Qed.

(** C3. For two ranges that are not empty, [s1, e1) and [s2, e2), the
    three-clause test of [checkSlotAvailability] fires exactly when
    [s1 < e2] and [s2 < e1]; and a request for [s1, e1) inside the opening
    window is refused exactly when some booked reservation of the court and
    date, of one hour or more, has a range [s2, e2) with [s1 < e2] and
    [s2 < e1]. *)
Theorem overlap_test_is_single_predicate (s1 e1 s2 e2 : Z) :
  s1 < e1 -> s2 < e2 ->
  (MemStorage.clash (Some s1) (Some e1) (Some s2) (Some e2) = true
   <-> s1 < e2 /\ s2 < e1)
  /\ forall st courtId date startTime,
       MemStorage.hourOf startTime = Some s1 ->
       MemStorage.OPENING_HOUR <= s1 -> e1 <= MemStorage.CLOSING_HOUR ->
       (forall b, In b (MemStorage.getBookingsForDateAndCourt date courtId st) ->
                  1 <= Booking.hours b) ->
       (MemStorage.checkSlotAvailability courtId date startTime (e1 - s1) st = false
        <-> exists b start,
              In b (MemStorage.getBookingsForDateAndCourt date courtId st)
              /\ MemStorage.startHour b = Some start
              /\ s1 < start + Booking.hours b /\ start < e1).
Proof.
  intros H1 H2. split.
  { rewrite clash_overlap by assumption. apply overlap_true_iff. }
  intros st courtId date startTime Hs Ho Hc Hpos.
  assert (Hchar := checkSlotAvailability_true courtId date startTime (e1 - s1) st).
  rewrite Hs in Hchar. simpl in Hchar.
  replace (s1 + (e1 - s1)) with e1 in Hchar by lia.
  split.
  - intros Hf.
    destruct (existsb (fun b =>
                MemStorage.clash (Some s1) (Some e1)
                  (MemStorage.startHour b) (MemStorage.endHour b))
                (MemStorage.getBookingsForDateAndCourt date courtId st)) eqn:E.
    + apply existsb_exists in E. destruct E as (b & Hb & Hcl).
      specialize (Hpos b Hb).
      unfold MemStorage.endHour in Hcl.
      destruct (MemStorage.startHour b) as [start|] eqn:Es.
      * exists b, start. repeat split; auto; simpl in Hcl;
          rewrite clash_overlap in Hcl by lia;
          apply overlap_true_iff in Hcl; lia.
      * simpl in Hcl. unfold MemStorage.clash in Hcl. simpl in Hcl. discriminate.
    + assert (MemStorage.checkSlotAvailability courtId date startTime (e1 - s1) st
              = true) as Ht; [|congruence].
      apply Hchar. unfold JsNum.lt, JsNum.gt, JsNum.lt.
      repeat split; try (apply Z.ltb_ge; lia).
      intros b Hb.
      destruct (MemStorage.clash _ _ _ _) eqn:Ecl; [|reflexivity].
      assert (existsb (fun b =>
                MemStorage.clash (Some s1) (Some e1)
                  (MemStorage.startHour b) (MemStorage.endHour b))
                (MemStorage.getBookingsForDateAndCourt date courtId st) = true)
        by (apply existsb_exists; exists b; auto).
      congruence.
  - intros (b & start & Hb & Es & Hlt1 & Hlt2).
    apply not_true_iff_false. intros E.
    apply Hchar in E. destruct E as (_ & _ & Hall).
    specialize (Hall b Hb). specialize (Hpos b Hb).
    unfold MemStorage.endHour in Hall. rewrite Es in Hall. simpl in Hall.
    rewrite clash_overlap in Hall by lia.
    assert (Ledger.overlap (Some s1) (Some e1) (Some start)
              (Some (start + Booking.hours b)) = true)
      by (apply overlap_true_iff; lia).
    congruence.
Qed.

(** The second request of the scenario of the specification, 10:00 for
    1 hour, against the booking of 09:00 for 2 hours. *)
Lemma overlap_test_witness :
  10 < 11 /\ 9 < 11
  /\ MemStorage.clash (Some 10) (Some 11) (Some 9) (Some 11) = true
  /\ exists b start,
       In b (MemStorage.getBookingsForDateAndCourt "2024-12-02" "court-a"
               Scenario.oneBooking)
       /\ MemStorage.startHour b = Some start
       /\ 10 < start + Booking.hours b /\ start < 11.
Proof.
  assert (H1 : 10 < 11) by lia. assert (H2 : 9 < 11) by lia.
  destruct (overlap_test_is_single_predicate 10 11 9 11 H1 H2) as [Hc Hs].
  split; [exact H1|]. split; [exact H2|]. split.
  - apply Hc. lia.
  - apply (Hs Scenario.oneBooking "court-a" "2024-12-02" "10:00").
    + reflexivity.
    + unfold MemStorage.OPENING_HOUR. lia.
    + unfold MemStorage.CLOSING_HOUR. lia.
    + intros b [<-|[]]. vm_compute. discriminate.
    + vm_compute. reflexivity.
Defined.

(* ------------------------------------------------------------------ *)
(** ** The opening window *)

(** C4. A request whose start hour is below the opening hour, or whose end
    hour is above the closing hour, is refused by [checkSlotAvailability]
    whatever the store holds. *)
Theorem outside_window_rejected st courtId date startTime hours (h : Z) :
  MemStorage.hourOf startTime = Some h ->
  h < 6 \/ h + hours > 23 ->
  MemStorage.checkSlotAvailability courtId date startTime hours st = false.
Proof.
  intros Hh Hout. unfold MemStorage.checkSlotAvailability.
  rewrite Hh. unfold JsNum.add, JsNum.gt, JsNum.lt,
    MemStorage.OPENING_HOUR, MemStorage.CLOSING_HOUR.
  destruct (Z.ltb_spec h 6); [reflexivity|].
  destruct (Z.ltb_spec 23 (h + hours)); [reflexivity|]. lia.
Qed.

(** 05:00 for 1 hour starts before the opening hour; 22:00 for 2 hours
    ends after the closing hour. *)
Lemma outside_window_witness :
  MemStorage.checkSlotAvailability "court-a" "2024-12-01" "05:00" 1 Scenario.seeded
    = false
  /\ MemStorage.checkSlotAvailability "court-b" "2024-12-03" "22:00" 2 Scenario.empty
    = false.
Proof.
  split.
  - apply (outside_window_rejected Scenario.seeded "court-a" "2024-12-01" "05:00" 1 5).
    + reflexivity.
    + left. lia.
  - apply (outside_window_rejected Scenario.empty "court-b" "2024-12-03" "22:00" 2 22).
    + reflexivity.
    + right. lia.
Defined.

(* ------------------------------------------------------------------ *)
(** ** No double booking *)

Lemma overlaps_sym b1 b2 : Ledger.overlaps b1 b2 = Ledger.overlaps b2 b1.
Proof. unfold Ledger.overlaps. apply overlap_sym. Qed.

Lemma lt_irrefl (x : JsNum.number) : JsNum.lt x x = false.
Proof. destruct x; simpl; [apply Z.ltb_irrefl | reflexivity]. Qed.

(** Ranges that touch do not overlap. *)
Lemma adjacent_no_overlap b1 b2 :
  MemStorage.endHour b1 = MemStorage.startHour b2 -> Ledger.overlaps b1 b2 = false.
Proof.
  intros H. unfold Ledger.overlaps, Ledger.overlap.
  rewrite H, lt_irrefl. apply andb_false_r.
Qed.

Lemma consistent_pairs (l : list Booking.t) courtId date :
  ForallOrdPairs Ledger.compatible l ->
  ForallOrdPairs (fun b1 b2 => Ledger.overlaps b1 b2 = false)
    (filter (fun b =>
               (String.eqb (Booking.date b) date
                && String.eqb (Booking.courtId b) courtId
                && String.eqb (Booking.status b) "booked")%bool) l).
Proof.
  induction 1 as [|a l Ha Hl IH]; simpl; [constructor|].
  destruct (_ && _)%bool eqn:Ea; [|exact IH].
  constructor; [|exact IH].
  rewrite Forall_forall in *. intros x Hx.
  apply filter_In in Hx. destruct Hx as [Hin Hx].
  rewrite !andb_true_iff, !String.eqb_eq in Ea, Hx.
  apply (Ha x Hin); unfold Ledger.booked; try rewrite String.eqb_eq;
    intuition congruence.
Qed.

Lemma pairs_consistent (l : list Booking.t) :
  (forall courtId date,
     ForallOrdPairs (fun b1 b2 => Ledger.overlaps b1 b2 = false)
       (filter (fun b =>
                  (String.eqb (Booking.date b) date
                   && String.eqb (Booking.courtId b) courtId
                   && String.eqb (Booking.status b) "booked")%bool) l)) ->
  ForallOrdPairs Ledger.compatible l.
Proof.
  induction l as [|a l IH]; intros H; [constructor|].
  constructor.
  - apply Forall_forall. intros x Hx Ba Bx Hd Hc.
    specialize (H (Booking.courtId a) (Booking.date a)). simpl in H.
    unfold Ledger.booked in Ba, Bx.
    rewrite !String.eqb_refl, Ba in H. simpl in H.
    inversion H as [|a' l' Hall _]; subst.
    rewrite Forall_forall in Hall. apply Hall.
    apply filter_In. split; [exact Hx|].
    rewrite Bx, <- Hd, <- Hc, !String.eqb_refl. reflexivity.
  - apply IH. intros courtId date. specialize (H courtId date). simpl in H.
    destruct (_ && _)%bool; [|exact H].
    now inversion H.
Qed.

Lemma consistent_iff st : Ledger.Consistent st <-> Ledger.NoDoubleBooking st.
Proof.
  split.
  - intros H courtId date. now apply consistent_pairs.
  - intros H. apply pairs_consistent. intros courtId date. apply H.
Qed.

Lemma safeParse_Some body data :
  InsertBooking.safeParse body = Some data ->
  data = body /\ 1 <= InsertBooking.hours data <= 8.
Proof.
  unfold InsertBooking.safeParse. destruct (_ && _)%bool eqn:E; [|discriminate].
  intros [= <-]. split; [reflexivity|].
  rewrite !andb_true_iff in E. destruct E as (_ & H1 & H2). lia.
Qed.

Lemma requireAuth_cases s st next :
  Routes.requireAuth s st next = (st, Routes.Message 401 "Unauthorized - please log in")
  \/ Routes.requireAuth s st next = next.
Proof. destruct s as [[|c s]|]; simpl; auto. Qed.

(** What a create request that is answered 201 has done. *)
Lemma postBooking_created s body id u st st' b :
  Routes.postBooking s body id u st = (st', Routes.Json 201 (Some b)) ->
  InsertBooking.safeParse body = Some body
  /\ MemStorage.checkSlotAvailability (InsertBooking.courtId body)
       (InsertBooking.date body) (InsertBooking.startTime body)
       (InsertBooking.hours body) st = true
  /\ b = MemStorage.record id (MemStorage.shortUuid u) body
           (MemStorage.statusOrBooked (InsertBooking.status body))
  /\ st' = MemStorage.withBookings st (JsMap.set id b (MemStorage.bookings st))
  /\ forall st0 next, Routes.requireAuth s st0 next = next.
Proof.
  unfold Routes.postBooking. intros H.
  assert (forall st0 next, Routes.requireAuth s st0 next = next) as Hauth.
  { destruct s as [[|c s]|]; simpl in H; try discriminate. reflexivity. }
  rewrite Hauth in H.
  destruct (InsertBooking.safeParse body) as [data|] eqn:Ep; [|discriminate].
  destruct (safeParse_Some _ _ Ep) as [-> _].
  destruct (MemStorage.checkSlotAvailability _ _ _ _ _) eqn:Ec; [|discriminate].
  simpl in H. injection H as <- <-. auto.
Qed.

Lemma not_booked_compatible b x :
  Ledger.booked b = false -> Ledger.compatible b x /\ Ledger.compatible x b.
Proof. intros H. split; intros H1 H2; congruence. Qed.

Lemma updateBookingStatus_consistent id status st :
  String.eqb status "booked" = false ->
  Ledger.Consistent st ->
  Ledger.Consistent (fst (MemStorage.updateBookingStatus id status st)).
Proof.
  intros Hs Hc. unfold MemStorage.updateBookingStatus.
  destruct (JsMap.get id (MemStorage.bookings st)) as [b|]; [|exact Hc].
  unfold Ledger.Consistent. simpl. apply pairs_set; [exact Hc|].
  intros x _. apply not_booked_compatible. exact Hs.
Qed.

Lemma createBooking_consistent data id u st :
  MemStorage.checkSlotAvailability (InsertBooking.courtId data)
    (InsertBooking.date data) (InsertBooking.startTime data)
    (InsertBooking.hours data) st = true ->
  Ledger.Consistent st ->
  Ledger.Consistent (fst (MemStorage.createBooking data id u st)).
Proof.
  intros Hfree Hc. unfold Ledger.Consistent. simpl.
  apply pairs_set; [exact Hc|].
  apply checkSlotAvailability_true in Hfree. destruct Hfree as (_ & _ & Hall).
  intros x Hx.
  assert (Ledger.compatible
            (MemStorage.record id (MemStorage.shortUuid u) data
               (MemStorage.statusOrBooked (InsertBooking.status data))) x) as Hnx.
  { intros _ Bx Hd Hcourt. simpl in Hd, Hcourt.
    apply clash_false_overlap. apply Hall.
    apply In_getBookingsForDateAndCourt. unfold Ledger.booked in Bx.
    apply String.eqb_eq in Bx. auto. }
  split; [exact Hnx|].
  intros B1 B2 Hd Hcourt. rewrite overlaps_sym. apply Hnx; auto.
Qed.

(** Every request leaves a consistent ledger consistent. *)
Lemma handle_consistent r st :
  Ledger.Consistent st -> Ledger.Consistent (fst (Routes.handle r st)).
Proof.
  intros Hc. destruct r as [s body id u | s id | s id]; simpl.
  - unfold Routes.postBooking.
    match goal with
    | |- context [Routes.requireAuth s st ?n] =>
        destruct (requireAuth_cases s st n) as [-> | ->]; [exact Hc|]
    end.
    destruct (InsertBooking.safeParse body) as [data|]; [|exact Hc].
    destruct (MemStorage.checkSlotAvailability _ _ _ _ _) eqn:E; [|exact Hc].
    simpl. apply (createBooking_consistent data id u st E Hc).
  - unfold Routes.postCancel.
    match goal with
    | |- context [Routes.requireAuth s st ?n] =>
        destruct (requireAuth_cases s st n) as [-> | ->]; [exact Hc|]
    end.
    destruct (MemStorage.getBooking id st) as [b|]; [|exact Hc].
    destruct (String.eqb _ _); [exact Hc|].
    pose proof (updateBookingStatus_consistent id "cancelled" st eq_refl Hc) as H.
    destruct (MemStorage.updateBookingStatus id "cancelled" st). exact H.
  - unfold Routes.postComplete.
    match goal with
    | |- context [Routes.requireAuth s st ?n] =>
        destruct (requireAuth_cases s st n) as [-> | ->]; [exact Hc|]
    end.
    destruct (MemStorage.getBooking id st) as [b|]; [|exact Hc].
    destruct (String.eqb _ _); [exact Hc|].
    pose proof (updateBookingStatus_consistent id "completed" st eq_refl Hc) as H.
    destruct (MemStorage.updateBookingStatus id "completed" st). exact H.
Qed.

Lemma serve_consistent rs : forall st,
  Ledger.Consistent st -> Ledger.Consistent (Routes.serve rs st).
Proof.
  induction rs as [|r rs IH]; intros st Hc; simpl; [exact Hc|].
  apply IH. now apply handle_consistent.
Qed.

Lemma compatibleb_sound b1 b2 :
  Ledger.compatibleb b1 b2 = true -> Ledger.compatible b1 b2.
Proof.
  unfold Ledger.compatibleb. intros H B1 B2 Hd Hc.
  rewrite B1, B2, Hd, Hc, !String.eqb_refl in H. simpl in H.
  now apply negb_true_iff.
Qed.

Lemma pairsb_sound {A} (r : A -> A -> bool) (R : A -> A -> Prop) l :
  (forall x y, r x y = true -> R x y) ->
  Ledger.pairsb r l = true -> ForallOrdPairs R l.
Proof.
  intros Hr. induction l as [|a l IH]; simpl; [constructor|].
  rewrite andb_true_iff. intros [Ha Hl]. constructor; [|auto].
  rewrite forallb_forall in Ha. apply Forall_forall. auto.
Qed.

Lemma consistentb_sound st :
  Ledger.consistentb st = true -> Ledger.NoDoubleBooking st.
Proof.
  intros H. apply consistent_iff.
  exact (pairsb_sound _ _ _ compatibleb_sound H).
Qed.

(** The ledger without any record is without double booking. *)
Lemma empty_ledger_consistent courts sports :
  Ledger.NoDoubleBooking (MemStorage.mk courts sports JsMap.empty).
Proof. intros courtId date. constructor. Qed.

(** *** The dates of a week are written differently *)

Lemma weekScan_spec n : forall i,
  0 <= i -> i + Z.of_nat n <= 146097 ->
  WeekCheck.weekScan (WeekCheck.sixBefore i) i n = true ->
  forall x k, i <= x < i + Z.of_nat n -> 1 <= k <= 6 ->
    DateFns.dayOfMonth x <> DateFns.dayOfMonth ((x - k) mod 146097).
Proof.
  induction n as [|n IH]; intros i Hi Hn H x k Hx Hk; [lia|].
  cbn [WeekCheck.weekScan] in H.
  destruct (existsb _ (WeekCheck.sixBefore i)) eqn:E; [discriminate|].
  destruct (Z.eq_dec x i) as [->|Hne].
  - unfold WeekCheck.sixBefore in E. cbn [map existsb] in E.
    repeat (apply orb_false_iff in E; destruct E as [? E]).
    assert (k = 1 \/ k = 2 \/ k = 3 \/ k = 4 \/ k = 5 \/ k = 6) as Hc by lia.
    repeat (destruct Hc as [->|Hc]); try subst k;
      apply Z.eqb_neq; assumption.
  - apply (IH (i + 1)); try lia.
    replace (WeekCheck.sixBefore (i + 1))
      with (DateFns.dayOfMonth i :: removelast (WeekCheck.sixBefore i)); [exact H|].
    unfold WeekCheck.sixBefore. cbn [map removelast].
    replace ((i + 1 - 1) mod 146097) with i by (rewrite Z.mod_small; lia).
    replace (i + 1 - 2) with (i - 1) by lia.
    replace (i + 1 - 3) with (i - 2) by lia.
    replace (i + 1 - 4) with (i - 3) by lia.
    replace (i + 1 - 5) with (i - 4) by lia.
    replace (i + 1 - 6) with (i - 5) by lia.
    reflexivity.
Qed.

Lemma era_scanned :
  WeekCheck.weekScan (WeekCheck.sixBefore 0) 0 (Z.to_nat 146097) = true.
Proof. vm_cast_no_check (eq_refl true). Qed.

Lemma dayOfMonth_week (z k : Z) :
  1 <= k <= 6 ->
  DateFns.dayOfMonth (z mod 146097) <> DateFns.dayOfMonth ((z - k) mod 146097).
Proof.
  intros Hk. rewrite <- (Zminus_mod_idemp_l z k).
  pose proof (Z.mod_pos_bound z 146097 ltac:(lia)).
  apply (weekScan_spec (Z.to_nat 146097) 0 ltac:(lia) ltac:(lia) era_scanned); lia.
Qed.

Lemma dayOfMonth_range doe : 1 <= DateFns.dayOfMonth doe <= 31.
Proof.
  unfold DateFns.dayOfMonth, DateFns.dayOfYear, DateFns.yearOfEra. cbv zeta.
  Z.div_mod_to_equations. lia.
Qed.

Lemma append_assoc (a b c : string) : ((a ++ b) ++ c = a ++ (b ++ c))%string.
Proof. induction a as [|x a IH]; simpl; [reflexivity|now rewrite IH]. Qed.

Lemma length_append (a b : string) :
  String.length (a ++ b) = (String.length a + String.length b)%nat.
Proof. induction a as [|x a IH]; simpl; [reflexivity|now rewrite IH]. Qed.

(** Equal strings with ends of the same length have the same end. *)
Lemma append_same_end (a a' b b' : string) :
  (a ++ b = a' ++ b')%string -> String.length b = String.length b' -> b = b'.
Proof.
  revert a'. induction a as [|x a IH]; intros [|x' a'] H Hl; simpl in H.
  - exact H.
  - apply (f_equal String.length) in H. simpl in H.
    rewrite length_append in H. lia.
  - apply (f_equal String.length) in H. simpl in H.
    rewrite length_append in H. lia.
  - injection H as _ H. now apply (IH a').
Qed.

(** The two characters of a day of the month read back as that day. *)
Lemma day_written (x : Z) :
  1 <= x <= 31 ->
  JsStr.parseInt (JsStr.padStart0 2 (JsStr.ofZ x)) = Some x
  /\ String.length (JsStr.padStart0 2 (JsStr.ofZ x)) = 2%nat.
Proof.
  intros Hx.
  assert (exists n, x = Z.of_nat n /\ (n < 32)%nat) as (n & -> & Hn)
    by (exists (Z.to_nat x); lia).
  do 32 (destruct n as [|n]; [try lia; split; reflexivity|]). lia.
Qed.

Lemma format_day (d : DateFns.Date) :
  exists p,
    DateFns.format d
    = (p ++ JsStr.padStart0 2
              (JsStr.ofZ (DateFns.dayOfMonth ((d + 719468) mod 146097))))%string.
Proof.
  unfold DateFns.format, DateFns.civil. cbv zeta.
  eexists. rewrite <- !append_assoc. reflexivity.
Qed.

(** The dates of seven days in a row are written differently. *)
Lemma format_week_distinct today (i j : Z) :
  0 <= i < j -> j <= 6 ->
  DateFns.format (DateFns.subDays today i)
  <> DateFns.format (DateFns.subDays today j).
Proof.
  intros Hi Hj E. unfold DateFns.subDays in E.
  destruct (format_day (today - i)) as (p & Ep).
  destruct (format_day (today - j)) as (q & Eq).
  rewrite Ep, Eq in E.
  pose proof (dayOfMonth_range ((today - i + 719468) mod 146097)) as Ri.
  pose proof (dayOfMonth_range ((today - j + 719468) mod 146097)) as Rj.
  destruct (day_written _ Ri) as [Pi Li]. destruct (day_written _ Rj) as [Pj Lj].
  apply append_same_end in E; [|congruence].
  rewrite E, Pj in Pi. injection Pi as Pi.
  apply (dayOfMonth_week (today - i + 719468) (j - i) ltac:(lia)).
  replace (today - i + 719468 - (j - i)) with (today - j + 719468) by lia.
  congruence.
Qed.

(** *** The seeded store *)

Lemma apart_compatible s1 s2 id1 u1 st1 id2 u2 st2 :
  Ledger.apart s1 s2 ->
  Ledger.compatible (MemStorage.record id1 u1 s1 st1) (MemStorage.record id2 u2 s2 st2)
  /\ Ledger.compatible (MemStorage.record id2 u2 s2 st2)
                       (MemStorage.record id1 u1 s1 st1).
Proof.
  intros Ha.
  assert (Ledger.compatible (MemStorage.record id1 u1 s1 st1)
                            (MemStorage.record id2 u2 s2 st2)) as H.
  { intros _ _ Hd Hc. simpl in Hd, Hc.
    destruct Ha as [Ha|[Ha|Ha]]; [contradiction | contradiction | exact Ha]. }
  split; [exact H|].
  intros B2 B1 Hd Hc. rewrite overlaps_sym. apply H; auto.
Qed.

(** The loop of [seedData] keeps the ledger consistent when the samples
    are apart from one another and from those already stored. *)
Lemma seedBookings_consistent rnd samples : forall i bs seen,
  (forall x, In x (JsMap.values bs) ->
             exists id u s, In s seen /\ x = MemStorage.record id u s "booked") ->
  (forall s s', In s seen -> In s' samples -> Ledger.apart s s') ->
  ForallOrdPairs Ledger.apart samples ->
  ForallOrdPairs Ledger.compatible (JsMap.values bs) ->
  ForallOrdPairs Ledger.compatible
    (JsMap.values (MemStorage.seedBookings rnd i samples bs)).
Proof.
  induction samples as [|booking rest IH]; intros i bs seen Hseen Hap Hpairs Hc;
    simpl; [exact Hc|].
  inversion Hpairs as [|a l Hhead Hrest]; subst.
  apply (IH _ _ (booking :: seen)).
  - intros x Hx. destruct (In_values_set _ _ _ _ Hx) as [->|Hin].
    + eexists _, _, booking. split; [now left | reflexivity].
    + destruct (Hseen x Hin) as (id & u & s & Hs & ->).
      exists id, u, s. split; [now right | reflexivity].
  - intros s s' [<-|Hs] Hs'.
    + rewrite Forall_forall in Hhead. now apply Hhead.
    + apply Hap; [exact Hs | now right].
  - exact Hrest.
  - apply pairs_set; [exact Hc|].
    intros x Hx. destruct (Hseen x Hx) as (id & u & s & Hs & ->).
    apply apart_compatible.
    destruct (Hap s booking Hs (or_introl eq_refl)) as [H|[H|H]].
    + left. congruence.
    + right. left. congruence.
    + right. right. unfold Ledger.rangesOverlap in *.
      rewrite overlap_sym. exact H.
Qed.

Ltac each_pair tac :=
  repeat (apply FOP_cons;
          [repeat (apply Forall_cons; [tac|]); apply Forall_nil|]);
  apply FOP_nil.

(** The store the constructor builds is without double booking, whatever
    the day and the UUIDs drawn. *)
Lemma seedData_no_double_booking today rnd :
  Ledger.NoDoubleBooking (MemStorage.seedData today rnd).
Proof.
  pose proof (format_week_distinct today) as Hdays. revert Hdays.
  intros Hdays. apply consistent_iff.
  unfold Ledger.Consistent, MemStorage.seedData.
  cbn [MemStorage.bookings].
  apply (seedBookings_consistent rnd _ 0%nat JsMap.empty []).
  - intros x [].
  - intros s s' [].
  - unfold MemStorage.sampleBookings.
    replace (DateFns.format today) with (DateFns.format (DateFns.subDays today 0))
      by (unfold DateFns.subDays; now rewrite Z.sub_0_r).
    each_pair ltac:(first
      [ right; left; simpl; discriminate
      | right; right; vm_compute; reflexivity
      | left; simpl;
        first [ apply Hdays; lia
              | intros E; symmetry in E; revert E; apply Hdays; lia ] ]).
  - constructor.
Qed.

(** Of the ranges as the availability check reads them: the start is the
    hour before the colon of the start time, whatever the minutes, and a
    start time that does not read as an hour overlaps nothing.  From a
    store whose booked records of every court and date have ranges, so
    read, that do not overlap two by two, the create, cancel and complete
    routes lead to such stores only.  Ranges that touch, the end of one
    being the start of the other, do not overlap. *)
Theorem no_double_booking_reachable st0 st :
  Ledger.NoDoubleBooking st0 ->
  Ledger.reachable st0 st ->
  Ledger.NoDoubleBooking st
  /\ forall b1 b2,
       MemStorage.endHour b1 = MemStorage.startHour b2 ->
       Ledger.overlaps b1 b2 = false.
Proof.
  intros H0 [rs ->]. split.
  - apply consistent_iff. apply serve_consistent. now apply consistent_iff.
  - exact adjacent_no_overlap.
Qed.

(** The store the server starts with on 2024-12-01 and the store three
    requests later. *)
Lemma no_double_booking_witness :
  Ledger.NoDoubleBooking Scenario.seeded
  /\ Ledger.NoDoubleBooking (Routes.serve Scenario.afternoon Scenario.seeded)
  /\ List.length (MemStorage.getBookingsForDateAndCourt "2024-12-01" "court-a"
                    (Routes.serve Scenario.afternoon Scenario.seeded)) = 0%nat.
Proof.
  assert (H0 : Ledger.NoDoubleBooking Scenario.seeded)
    by (apply consistentb_sound; vm_compute; reflexivity).
  split; [exact H0|]. split.
  - apply (no_double_booking_reachable Scenario.seeded
             (Routes.serve Scenario.afternoon Scenario.seeded) H0).
    exists Scenario.afternoon. reflexivity.
  - vm_compute. reflexivity.
Defined.

(** The same of every store the requests lead to from the store the
    constructor builds: the ranges are those the availability check
    reads. *)
Lemma served_from_seed today rnd rs :
  Ledger.NoDoubleBooking (Routes.serve rs (MemStorage.seedData today rnd)).
Proof.
  apply consistent_iff, serve_consistent, consistent_iff.
  apply seedData_no_double_booking.
Qed.

Lemma FOP_impl {A} (R R' : A -> A -> Prop) (l : list A) :
  (forall x y, R x y -> R' x y) -> ForallOrdPairs R l -> ForallOrdPairs R' l.
Proof.
  intros HR H. induction H as [|a l Ha _ IH]; constructor; [|exact IH].
  eapply Forall_impl; [|exact Ha]. intros y. apply HR.
Qed.

(** An hour of the day written [HH:00] reads as that hour. *)
Lemma hourOf_on_the_hour (h : Z) :
  0 <= h < 24 ->
  MemStorage.hourOf (JsStr.padStart0 2 (JsStr.ofZ h) ++ ":00") = Some h.
Proof.
  intros H.
  assert (E : h = 0 \/ h = 1 \/ h = 2 \/ h = 3 \/ h = 4 \/ h = 5 \/ h = 6 \/ h = 7 \/ h = 8 \/ h = 9 \/ h = 10 \/ h = 11 \/ h = 12 \/ h = 13 \/ h = 14 \/ h = 15 \/ h = 16 \/ h = 17 \/ h = 18 \/ h = 19 \/ h = 20 \/ h = 21 \/ h = 22 \/ h = 23) by lia.
  repeat (destruct E as [->|E]; [reflexivity|]). subst h. reflexivity.
Qed.

(** The ranges of two records on the hour overlap on the clock as the
    availability check reads them. *)
Lemma on_the_hour_apart b1 b2 h1 h2 :
  Clock.onTheHour b1 h1 -> Clock.onTheHour b2 h2 ->
  Ledger.overlaps b1 b2 = false ->
  h1 + Booking.hours b1 <= h2 \/ h2 + Booking.hours b2 <= h1.
Proof.
  intros [R1 E1] [R2 E2] Ho.
  unfold Ledger.overlaps, MemStorage.endHour, MemStorage.startHour in Ho.
  rewrite E1, E2, !hourOf_on_the_hour in Ho by assumption.
  cbn [JsNum.add] in Ho.
  assert (~ (h1 < h2 + Booking.hours b2 /\ h2 < h1 + Booking.hours b1)) as Hn.
  { intros C. apply overlap_true_iff in C. congruence. }
  lia.
Qed.

(** X1. In every store the requests lead to from the store the constructor
    builds, whatever the day and the UUIDs drawn, two booked records of
    one court and date whose start times are hours of the day written
    [HH:00] have ranges [h, h + hours) that do not overlap: one ends at or
    before the start of the other.  Nothing is said of a record whose
    start time is written otherwise. *)
Theorem whole_hours_never_double_booked today rnd rs courtId date :
  ForallOrdPairs
    (fun b1 b2 =>
       forall h1 h2,
         Clock.onTheHour b1 h1 -> Clock.onTheHour b2 h2 ->
         h1 + Booking.hours b1 <= h2 \/ h2 + Booking.hours b2 <= h1)
    (MemStorage.getBookingsForDateAndCourt date courtId
       (Routes.serve rs (MemStorage.seedData today rnd))).
Proof.
  apply (FOP_impl (fun b1 b2 => Ledger.overlaps b1 b2 = false)).
  - intros b1 b2 Ho h1 h2 H1 H2. exact (on_the_hour_apart b1 b2 h1 h2 H1 H2 Ho).
  - apply consistent_iff, serve_consistent, consistent_iff.
    apply seedData_no_double_booking.
Qed.

(** The seeded day after a booking next to the one of 09:00 to 11:00 on
    court A: the two records of court A are on the hour, 9 and 11, and the
    first ends where the second starts. *)
Example whole_hours_on_the_seeded_day :
  exists b1 b2,
    MemStorage.getBookingsForDateAndCourt "2024-12-01" "court-a"
      (Routes.serve [Routes.PostBooking Scenario.admin
                       (Scenario.request "court-a" "2024-12-01" "11:00" 1 2000)
                       "b-1" "9f8e7d6c-1111"] Scenario.seeded) = [b1; b2]
    /\ Clock.onTheHour b1 9 /\ Clock.onTheHour b2 11
    /\ 9 + Booking.hours b1 = 11.
Proof.
  eexists _, _. split; [vm_compute; reflexivity|].
  repeat split; try reflexivity; lia.
Qed.

(** C1. Double bookings the create route stores.  On the store the server
    starts with, the same request with the start time [noon], sent twice,
    is answered 201 twice and leaves two booked records of the same
    court, date, start time and hours; and a request for one hour from
    09:30 followed by one for one hour from 10:00 on the same court and
    date are both answered 201, and leave two booked records whose
    ranges, 09:30 to 10:30 and 10:00 to 11:00, overlap. *)
Theorem double_booking_is_stored :
  (map Ledger.created (Routes.replies Scenario.noonTwice Scenario.seeded)
     = [true; true]
   /\ MemStorage.getBookingsForDateAndCourt "2024-12-05" "court-a"
        (Routes.serve Scenario.noonTwice Scenario.seeded)
      = [ MemStorage.record "b-1" "9F8E7D6C" Scenario.noon "booked";
          MemStorage.record "b-2" "0A1B2C3D" Scenario.noon "booked" ])
  /\ (map Ledger.created (Routes.replies Scenario.halfHourApart Scenario.seeded)
        = [true; true]
      /\ MemStorage.getBookingsForDateAndCourt "2024-12-05" "court-a"
           (Routes.serve Scenario.halfHourApart Scenario.seeded)
         = [ MemStorage.record "b-3" "9F8E7D6C" Scenario.halfPastNine "booked";
             MemStorage.record "b-4" "0A1B2C3D" Scenario.tenOClock "booked" ]
      /\ Clock.start "09:30" = Some 570
      /\ Clock.start "10:00" = Some 600
      /\ Clock.overlap
           (MemStorage.record "b-3" "9F8E7D6C" Scenario.halfPastNine "booked")
           (MemStorage.record "b-4" "0A1B2C3D" Scenario.tenOClock "booked")
         = true).
Proof. vm_compute. repeat split. Qed.

(** *** Requests for overlapping ranges, served one after the other *)







(** The scenario of the specification: 09:00 for 2 hours is booked, 10:00
    for 1 hour is refused, 11:00 for 1 hour is booked. *)
Example three_requests :
  map Ledger.created
    (Routes.replies
       (Ledger.creates Scenario.admin
          [ (Scenario.request "court-a" "2024-12-02" "09:00" 2 4000, "b-1", "9f8e7d6c-1111");
            (Scenario.request "court-a" "2024-12-02" "10:00" 1 2000, "b-2", "1a2b3c4d-2222");
            (Scenario.request "court-a" "2024-12-02" "11:00" 1 2000, "b-3", "5e6f7a8b-3333") ])
       Scenario.empty)
  = [true; false; true].
Proof. vm_compute. reflexivity. Qed.


(* ------------------------------------------------------------------ *)
(** ** Status updates *)

(** C10. [updateBookingStatus] on a present id answers the record with its
    status replaced and nothing else changed, stores it under the same id
    at the same place, and leaves every other record, the courts and the
    sports as they were; on an absent id it answers nothing and leaves the
    store as it was. *)
Theorem updateBookingStatus_frame id status st :
  match MemStorage.getBooking id st with
  | Some b =>
      exists st' b',
        MemStorage.updateBookingStatus id status st = (st', Some b')
        /\ Booking.status b' = status
        /\ (Booking.id b', Booking.uuid b', Booking.name b', Booking.phone b',
            Booking.sportId b')
           = (Booking.id b, Booking.uuid b, Booking.name b, Booking.phone b,
              Booking.sportId b)
        /\ (Booking.courtId b', Booking.date b', Booking.startTime b',
            Booking.hours b', Booking.amount b')
           = (Booking.courtId b, Booking.date b, Booking.startTime b,
              Booking.hours b, Booking.amount b)
        /\ MemStorage.getBooking id st' = Some b'
        /\ (forall id', id' <> id ->
              MemStorage.getBooking id' st' = MemStorage.getBooking id' st)
        /\ JsMap.keys (MemStorage.bookings st') = JsMap.keys (MemStorage.bookings st)
        /\ MemStorage.courts st' = MemStorage.courts st
        /\ MemStorage.sports st' = MemStorage.sports st
  | None => MemStorage.updateBookingStatus id status st = (st, None)
  end.
Proof.
  unfold MemStorage.getBooking, MemStorage.updateBookingStatus.
  destruct (JsMap.get id (MemStorage.bookings st)) as [b|] eqn:E; [|reflexivity].
  eexists _, _. split; [reflexivity|]. simpl.
  repeat split.
  - apply get_set_same.
  - intros id' Hne. now apply get_set_other.
  - now apply keys_set_present with (b := b).
Qed.

(** What the two status routes do, case by case: not found, refused on a
    cancelled record, carried out on any other. *)
Lemma postCancel_cases s id st :
  Routes.postCancel s id st =
  Routes.requireAuth s st
    match MemStorage.getBooking id st with
    | None => (st, Routes.Message 404 "Booking not found")
    | Some b =>
        if String.eqb (Booking.status b) "cancelled"
        then (st, Routes.Message 400 "Booking is already cancelled")
        else (MemStorage.withBookings st
                (JsMap.set id (Booking.withStatus b "cancelled")
                   (MemStorage.bookings st)),
              Routes.Json 200 (Some (Booking.withStatus b "cancelled")))
    end.
Proof.
  unfold Routes.postCancel, MemStorage.updateBookingStatus, MemStorage.getBooking.
  destruct (JsMap.get id (MemStorage.bookings st)); reflexivity.
Qed.

Lemma postComplete_cases s id st :
  Routes.postComplete s id st =
  Routes.requireAuth s st
    match MemStorage.getBooking id st with
    | None => (st, Routes.Message 404 "Booking not found")
    | Some b =>
        if String.eqb (Booking.status b) "cancelled"
        then (st, Routes.Message 400 "Cannot complete a cancelled booking")
        else (MemStorage.withBookings st
                (JsMap.set id (Booking.withStatus b "completed")
                   (MemStorage.bookings st)),
              Routes.Json 200 (Some (Booking.withStatus b "completed")))
    end.
Proof.
  unfold Routes.postComplete, MemStorage.updateBookingStatus, MemStorage.getBooking.
  destruct (JsMap.get id (MemStorage.bookings st)); reflexivity.
Qed.

(** From [booked] both routes go through; from [cancelled] both are
    refused with status 400 and the store is left as it was. *)
Lemma status_routes_from_booked_and_cancelled id st b :
  MemStorage.getBooking id st = Some b ->
  (Booking.status b = "booked" ->
     snd (Routes.postCancel Scenario.admin id st)
       = Routes.Json 200 (Some (Booking.withStatus b "cancelled"))
     /\ snd (Routes.postComplete Scenario.admin id st)
       = Routes.Json 200 (Some (Booking.withStatus b "completed")))
  /\ (Booking.status b = "cancelled" ->
        Routes.postCancel Scenario.admin id st
          = (st, Routes.Message 400 "Booking is already cancelled")
        /\ Routes.postComplete Scenario.admin id st
          = (st, Routes.Message 400 "Cannot complete a cancelled booking")).
Proof.
  intros Hb. rewrite postCancel_cases, postComplete_cases, Hb. simpl.
  split; intros ->; simpl; auto.
Qed.

(** A completed record is cancelled when asked: the cancel route looks
    for [cancelled] only. *)
Lemma cancel_of_completed_goes_through id st b :
  MemStorage.getBooking id st = Some b ->
  Booking.status b = "completed" ->
  exists st',
    Routes.postCancel Scenario.admin id st
      = (st', Routes.Json 200 (Some (Booking.withStatus b "cancelled")))
    /\ MemStorage.getBooking id st' = Some (Booking.withStatus b "cancelled").
Proof.
  intros Hb Hs. rewrite postCancel_cases, Hb, Hs. simpl.
  eexists. split; [reflexivity|]. apply get_set_same.
Qed.

(** C5, on the ledger with the one booking ["b-1"]: completing it and then
    cancelling it is answered 200 and leaves it cancelled, completing it
    twice is answered 200 both times; cancelling it and then completing it
    is answered 400 and leaves it cancelled. *)
Theorem cancel_after_complete_differs :
  let completed := fst (Routes.postComplete Scenario.admin "b-1" Scenario.oneBooking) in
  let cancelled := fst (Routes.postCancel Scenario.admin "b-1" Scenario.oneBooking) in
  option_map Booking.status (MemStorage.getBooking "b-1" completed) = Some "completed"
  /\ (exists b, snd (Routes.postCancel Scenario.admin "b-1" completed)
                = Routes.Json 200 (Some b)
                /\ Booking.status b = "cancelled")
  /\ option_map Booking.status
       (MemStorage.getBooking "b-1"
          (fst (Routes.postCancel Scenario.admin "b-1" completed)))
     = Some "cancelled"
  /\ (exists b, snd (Routes.postComplete Scenario.admin "b-1" completed)
                = Routes.Json 200 (Some b))
  /\ snd (Routes.postComplete Scenario.admin "b-1" cancelled)
     = Routes.Message 400 "Cannot complete a cancelled booking"
  /\ option_map Booking.status
       (MemStorage.getBooking "b-1"
          (fst (Routes.postComplete Scenario.admin "b-1" cancelled)))
     = Some "cancelled".
Proof.
  vm_compute. repeat split; try reflexivity; eexists; repeat split; reflexivity.
Qed.

(* ------------------------------------------------------------------ *)
(** ** The stored amount *)

Lemma withStatus_withStatus b s1 s2 :
  Booking.withStatus (Booking.withStatus b s1) s2 = Booking.withStatus b s2.
Proof. reflexivity. Qed.

Lemma withStatus_amount b s : Booking.amount (Booking.withStatus b s) = Booking.amount b.
Proof. reflexivity. Qed.

Lemma sameButStatus_amount b b' :
  Ledger.sameButStatus b b' -> Booking.amount b' = Booking.amount b.
Proof. intros <-. reflexivity. Qed.

Section Stability.
Variable id : string.
Variable b : Booking.t.

Lemma updateBookingStatus_kept id' status st :
  Ledger.kept id b st -> Ledger.kept id b (fst (MemStorage.updateBookingStatus id' status st)).
Proof.
  intros (b' & Hg & Hs). unfold MemStorage.updateBookingStatus.
  destruct (JsMap.get id' (MemStorage.bookings st)) as [b0|] eqn:E;
    [|exists b'; auto].
  simpl. unfold Ledger.kept, MemStorage.getBooking. simpl.
  destruct (String.eqb_spec id' id) as [->|Hne].
  - rewrite get_set_same. eexists. split; [reflexivity|].
    unfold MemStorage.getBooking in Hg. rewrite Hg in E. injection E as <-.
    exact Hs.
  - rewrite get_set_other by congruence. exists b'. auto.
Qed.

Lemma handle_kept r st :
  Ledger.draws id r = false -> Ledger.kept id b st -> Ledger.kept id b (fst (Routes.handle r st)).
Proof.
  intros Hd Hk. destruct r as [s body id' u | s id' | s id']; simpl.
  - unfold Routes.postBooking.
    match goal with
    | |- context [Routes.requireAuth s st ?n] =>
        destruct (requireAuth_cases s st n) as [-> | ->]; [exact Hk|]
    end.
    destruct (InsertBooking.safeParse body) as [data|]; [|exact Hk].
    destruct (negb _); [exact Hk|]. simpl.
    destruct Hk as (b' & Hg & Hs). exists b'. split; [|exact Hs].
    unfold MemStorage.getBooking. simpl. simpl in Hd.
    apply String.eqb_neq in Hd. rewrite get_set_other by congruence. exact Hg.
  - unfold Routes.postCancel.
    match goal with
    | |- context [Routes.requireAuth s st ?n] =>
        destruct (requireAuth_cases s st n) as [-> | ->]; [exact Hk|]
    end.
    destruct (MemStorage.getBooking id' st); [|exact Hk].
    destruct (String.eqb _ _); [exact Hk|].
    pose proof (updateBookingStatus_kept id' "cancelled" st Hk) as H.
    destruct (MemStorage.updateBookingStatus id' "cancelled" st). exact H.
  - unfold Routes.postComplete.
    match goal with
    | |- context [Routes.requireAuth s st ?n] =>
        destruct (requireAuth_cases s st n) as [-> | ->]; [exact Hk|]
    end.
    destruct (MemStorage.getBooking id' st); [|exact Hk].
    destruct (String.eqb _ _); [exact Hk|].
    pose proof (updateBookingStatus_kept id' "completed" st Hk) as H.
    destruct (MemStorage.updateBookingStatus id' "completed" st). exact H.
Qed.

Lemma serve_kept rs : forall st,
  forallb (fun r => negb (Ledger.draws id r)) rs = true ->
  Ledger.kept id b st -> Ledger.kept id b (Routes.serve rs st).
Proof.
  induction rs as [|r rs IH]; intros st Hd Hk; simpl; [exact Hk|].
  simpl in Hd. apply andb_true_iff in Hd. destruct Hd as [Hr Hrs].
  apply IH; [exact Hrs|]. apply handle_kept; [|exact Hk].
  now apply negb_true_iff.
Qed.

End Stability.

(** C6. The amount the create route stores is not checked against the
    price.  Cricket costs 2000 an hour and the booking form sends 4000
    for two hours; a request for two hours of cricket sent with the
    amount 1, and one sent with the amount -5, are answered 201, and the
    booking is stored with the amount of the request. *)
Theorem amount_of_request_is_stored_unchecked :
  MemStorage.getSport "cricket" Scenario.empty
    = Some (Sport.mk "cricket" "Cricket" 2000)
  /\ BookingModal.calculatedAmount (MemStorage.getSports Scenario.empty)
       "cricket" 2 = 4000
  /\ snd (Routes.postBooking Scenario.admin (Scenario.twoHoursFor 1)
            "b-1" "9f8e7d6c-1111" Scenario.empty)
     = Routes.Json 201
         (Some (MemStorage.record "b-1" "9F8E7D6C" (Scenario.twoHoursFor 1)
                  "booked"))
  /\ Booking.amount
       (MemStorage.record "b-1" "9F8E7D6C" (Scenario.twoHoursFor 1) "booked")
     = 1
  /\ snd (Routes.postBooking Scenario.admin (Scenario.twoHoursFor (-5))
            "b-1" "9f8e7d6c-1111" Scenario.empty)
     = Routes.Json 201
         (Some (MemStorage.record "b-1" "9F8E7D6C" (Scenario.twoHoursFor (-5))
                  "booked"))
  /\ Booking.amount
       (MemStorage.record "b-1" "9F8E7D6C" (Scenario.twoHoursFor (-5)) "booked")
     = -5.
Proof. vm_compute. repeat split. Qed.

(** No rule of the create route ties the stored amount to the price of
    the sport: the request of two hours of cricket for 1 is stored. *)
Lemma amount_not_recomputed_by_server :
  ~ (forall s body id u st st' b sport,
       Routes.postBooking s body id u st = (st', Routes.Json 201 (Some b)) ->
       MemStorage.getSport (Booking.sportId b) st = Some sport ->
       Booking.amount b = Sport.pricePerHour sport * Booking.hours b).
Proof.
  intros H.
  specialize (H Scenario.admin
                (Scenario.request "court-a" "2024-12-02" "09:00" 2 1)
                "b-1" "9f8e7d6c-1111" Scenario.empty _ _
                (Sport.mk "cricket" "Cricket" 2000) eq_refl eq_refl).
  vm_compute in H. discriminate.
Qed.

(** X27. The amount of a booking the create route stores is the amount of
    the request, which is the price per hour of the selected sport times
    the hours when the request is the one the booking form builds;
    afterwards, through any requests that do not store another record
    under its id, the record stays what it was but for its status, so
    with its amount; and adding a sport changes no booking. *)
Theorem amount_is_request_amount_and_stable s body id u st st' b :
  Routes.postBooking s body id u st = (st', Routes.Json 201 (Some b)) ->
  Booking.amount b = InsertBooking.amount body
  /\ (forall sport,
        find (fun sp => String.eqb (Sport.id sp) (InsertBooking.sportId body))
             (MemStorage.getSports st) = Some sport ->
        InsertBooking.amount body
          = BookingModal.calculatedAmount (MemStorage.getSports st)
              (InsertBooking.sportId body) (InsertBooking.hours body) ->
        Booking.amount b = Sport.pricePerHour sport * Booking.hours b)
  /\ (forall rs,
        forallb (fun r => negb (Ledger.draws id r)) rs = true ->
        exists b',
          MemStorage.getBooking id (Routes.serve rs st') = Some b'
          /\ Ledger.sameButStatus b b'
          /\ Booking.amount b' = Booking.amount b
          /\ MemStorage.sports (Routes.serve rs st') = MemStorage.sports st)
  /\ (forall sid name price,
        MemStorage.getBooking id (fst (MemStorage.createSport sid name price st'))
        = Some b).
Proof.
  intros H. destruct (postBooking_created _ _ _ _ _ _ _ H)
    as (_ & _ & Hb & Hst & _).
  assert (MemStorage.getBooking id st' = Some b) as Hget.
  { subst st'. unfold MemStorage.getBooking. simpl. apply get_set_same. }
  split; [subst b; reflexivity|]. split; [|split].
  - intros sport Hf Ha. unfold BookingModal.calculatedAmount in Ha.
    rewrite Hf in Ha. subst b. simpl. exact Ha.
  - intros rs Hrs.
    assert (Ledger.kept id b st') as Hk.
    { exists b. split; [exact Hget|]. unfold Ledger.sameButStatus. now destruct b. }
    destruct (serve_kept id b rs st' Hrs Hk) as (b' & Hg & Hs).
    exists b'. repeat split; auto using sameButStatus_amount.
    assert (forall rs0 st0, MemStorage.sports (Routes.serve rs0 st0)
                            = MemStorage.sports st0) as Hsp.
    { clear. induction rs0 as [|r rs0 IH]; intros st0; simpl; [reflexivity|].
      rewrite IH. destruct r as [s body id u | s id | s id]; simpl.
      - unfold Routes.postBooking.
        match goal with
        | |- context [Routes.requireAuth s st0 ?n] =>
            destruct (requireAuth_cases s st0 n) as [-> | ->]; [reflexivity|]
        end.
        destruct (InsertBooking.safeParse body); [|reflexivity].
        destruct (negb _); reflexivity.
      - rewrite postCancel_cases.
        match goal with
        | |- context [Routes.requireAuth s st0 ?n] =>
            destruct (requireAuth_cases s st0 n) as [-> | ->]; [reflexivity|]
        end.
        destruct (MemStorage.getBooking id st0); [|reflexivity].
        destruct (String.eqb _ _); reflexivity.
      - rewrite postComplete_cases.
        match goal with
        | |- context [Routes.requireAuth s st0 ?n] =>
            destruct (requireAuth_cases s st0 n) as [-> | ->]; [reflexivity|]
        end.
        destruct (MemStorage.getBooking id st0); [|reflexivity].
        destruct (String.eqb _ _); reflexivity. }
    rewrite Hsp. subst st'. reflexivity.
  - intros sid name price. exact Hget.
Qed.

(** The booking of the scenario: two hours of cricket, amount 4000. *)
Lemma amount_witness :
  Routes.postBooking Scenario.admin Scenario.nineToEleven "b-1" "9f8e7d6c-1111"
    Scenario.empty
  = (Scenario.oneBooking, Routes.Json 201 (Some Scenario.firstBooking))
  /\ Booking.amount Scenario.firstBooking = 4000
  /\ exists b',
       MemStorage.getBooking "b-1"
         (Routes.serve [Routes.PostComplete Scenario.admin "b-1"]
            Scenario.oneBooking) = Some b'
       /\ Booking.amount b' = 4000.
Proof.
  assert (H : Routes.postBooking Scenario.admin Scenario.nineToEleven "b-1"
                "9f8e7d6c-1111" Scenario.empty
              = (Scenario.oneBooking, Routes.Json 201 (Some Scenario.firstBooking)))
    by (vm_compute; reflexivity).
  destruct (amount_is_request_amount_and_stable _ _ _ _ _ _ _ H)
    as (Ha & _ & Hs & _).
  split; [exact H|]. split; [exact Ha|].
  destruct (Hs [Routes.PostComplete Scenario.admin "b-1"] eq_refl)
    as (b' & Hg & _ & Hb & _).
  exists b'. split; [exact Hg|]. rewrite Hb. exact Ha.
Defined.

(* ------------------------------------------------------------------ *)
(** ** Completed bookings *)

Lemma set_set {V} k (v1 v2 : V) m :
  JsMap.set k v2 (JsMap.set k v1 m) = JsMap.set k v2 m.
Proof.
  induction m as [|[k' v'] m IH]; simpl.
  - now rewrite String.eqb_refl.
  - destruct (String.eqb k' k) eqn:E; simpl.
    + now rewrite String.eqb_refl.
    + now rewrite E, IH.
Qed.

Lemma getBookingsForDateAndCourt_onlyBooked date courtId st :
  MemStorage.getBookingsForDateAndCourt date courtId (Ledger.onlyBooked st)
  = MemStorage.getBookingsForDateAndCourt date courtId st.
Proof.
  unfold MemStorage.getBookingsForDateAndCourt, Ledger.onlyBooked. simpl.
  unfold JsMap.values.
  induction (MemStorage.bookings st) as [|[k b] m IH]; simpl; [reflexivity|].
  unfold Ledger.booked at 1. simpl.
  destruct (String.eqb (Booking.status b) "booked") eqn:E; simpl.
  - rewrite E. now rewrite IH.
  - rewrite andb_false_r. exact IH.
Qed.

(** A booked record of the ledger after [set k v], [v] not booked, was a
    booked record before. *)
Lemma booked_after_set date courtId k v st x :
  Ledger.booked v = false ->
  In x (MemStorage.getBookingsForDateAndCourt date courtId
          (MemStorage.withBookings st (JsMap.set k v (MemStorage.bookings st)))) ->
  In x (MemStorage.getBookingsForDateAndCourt date courtId st).
Proof.
  intros Hv Hx. apply In_getBookingsForDateAndCourt in Hx.
  destruct Hx as (Hin & Hd & Hc & Hs). simpl in Hin.
  apply In_getBookingsForDateAndCourt. repeat split; auto.
  destruct (In_values_set _ _ _ _ Hin) as [->|H]; [|exact H].
  unfold Ledger.booked in Hv. rewrite Hs in Hv. discriminate.
Qed.

(** C8. The answer of [checkSlotAvailability] is the one it gives on the
    ledger with every record that is not booked taken out.  And when a
    booking made through the create route is marked completed, its own
    slot is reported free, every request that was free before the booking
    was made is free again, and the same request made anew is answered 201
    with a booked record. *)
Theorem completed_booking_frees_slot s body id u st st1 b :
  Routes.postBooking s body id u st = (st1, Routes.Json 201 (Some b)) ->
  Booking.status b = "booked" ->
  (forall st0 courtId date startTime hours,
     MemStorage.checkSlotAvailability courtId date startTime hours
       (Ledger.onlyBooked st0)
     = MemStorage.checkSlotAvailability courtId date startTime hours st0)
  /\ exists st2,
       Routes.postComplete s id st1
         = (st2, Routes.Json 200 (Some (Booking.withStatus b "completed")))
       /\ MemStorage.getBooking id st2 = Some (Booking.withStatus b "completed")
       /\ MemStorage.checkSlotAvailability (Booking.courtId b) (Booking.date b)
            (Booking.startTime b) (Booking.hours b) st2 = true
       /\ (forall courtId date startTime hours,
             MemStorage.checkSlotAvailability courtId date startTime hours st = true ->
             MemStorage.checkSlotAvailability courtId date startTime hours st2 = true)
       /\ forall id' u',
            exists st3 b',
              Routes.postBooking s body id' u' st2 = (st3, Routes.Json 201 (Some b'))
              /\ Booking.status b' = "booked"
              /\ (Booking.courtId b', Booking.date b', Booking.startTime b',
                  Booking.hours b')
                 = (Booking.courtId b, Booking.date b, Booking.startTime b,
                    Booking.hours b).
Proof.
  intros H Hbooked.
  destruct (postBooking_created _ _ _ _ _ _ _ H) as (Hp & Hfree & Hb & Hst & Hauth).
  split.
  { intros st0 courtId date startTime hours.
    unfold MemStorage.checkSlotAvailability.
    now rewrite getBookingsForDateAndCourt_onlyBooked. }
  set (b2 := Booking.withStatus b "completed").
  set (st2 := MemStorage.withBookings st (JsMap.set id b2 (MemStorage.bookings st))).
  assert (forall courtId date startTime hours,
            MemStorage.checkSlotAvailability courtId date startTime hours st = true ->
            MemStorage.checkSlotAvailability courtId date startTime hours st2 = true)
    as Hmono.
  { intros courtId date startTime hours Hc.
    apply checkSlotAvailability_true in Hc. destruct Hc as (Ho & Hcl & Hall).
    apply checkSlotAvailability_true. repeat split; auto.
    intros x Hx. apply Hall.
    apply (booked_after_set date courtId id b2 st x); [reflexivity | exact Hx]. }
  assert (MemStorage.checkSlotAvailability (Booking.courtId b) (Booking.date b)
            (Booking.startTime b) (Booking.hours b) st2 = true) as Hfree2.
  { apply Hmono. subst b. exact Hfree. }
  exists st2. split; [|split; [|split; [|split]]].
  - rewrite postComplete_cases, Hauth.
    assert (MemStorage.getBooking id st1 = Some b) as ->.
    { subst st1. unfold MemStorage.getBooking. simpl. apply get_set_same. }
    rewrite Hbooked. simpl. subst st1. unfold MemStorage.withBookings. simpl.
    rewrite set_set. reflexivity.
  - unfold MemStorage.getBooking. simpl. apply get_set_same.
  - exact Hfree2.
  - exact Hmono.
  - intros id' u'. unfold Routes.postBooking.
    rewrite Hauth, Hp.
    assert (MemStorage.checkSlotAvailability (InsertBooking.courtId body)
              (InsertBooking.date body) (InsertBooking.startTime body)
              (InsertBooking.hours body) st2 = true) as ->.
    { subst b. exact Hfree2. }
    simpl. eexists _, _. split; [reflexivity|]. simpl.
    subst b. simpl in *. auto.
Qed.

(** The booking of the scenario, completed, and its slot asked for again. *)
Lemma completed_frees_slot_witness :
  Routes.postBooking Scenario.admin Scenario.nineToEleven "b-1" "9f8e7d6c-1111"
    Scenario.empty
  = (Scenario.oneBooking, Routes.Json 201 (Some Scenario.firstBooking))
  /\ Booking.status Scenario.firstBooking = "booked"
  /\ exists st2,
       Routes.postComplete Scenario.admin "b-1" Scenario.oneBooking
       = (st2, Routes.Json 200
                 (Some (Booking.withStatus Scenario.firstBooking "completed")))
       /\ MemStorage.checkSlotAvailability "court-a" "2024-12-02" "09:00" 2 st2
          = true.
Proof.
  assert (H : Routes.postBooking Scenario.admin Scenario.nineToEleven "b-1"
                "9f8e7d6c-1111" Scenario.empty
              = (Scenario.oneBooking, Routes.Json 201 (Some Scenario.firstBooking)))
    by (vm_compute; reflexivity).
  assert (Hb : Booking.status Scenario.firstBooking = "booked") by reflexivity.
  destruct (completed_booking_frees_slot _ _ _ _ _ _ _ H Hb)
    as (_ & st2 & Hc & _ & Hfree & _).
  split; [exact H|]. split; [exact Hb|].
  exists st2. split; [exact Hc | exact Hfree].
Defined.

(* ------------------------------------------------------------------ *)
(** ** The day grid *)

(** One slot for each whole hour from the opening hour to the hour before
    the closing hour, in order. *)
Lemma courtSlots_times date court st :
  map TimeSlot.time (MemStorage.courtSlots date court st)
  = ["06:00"; "07:00"; "08:00"; "09:00"; "10:00"; "11:00"; "12:00"; "13:00";
     "14:00"; "15:00"; "16:00"; "17:00"; "18:00"; "19:00"; "20:00"; "21:00";
     "22:00"].
Proof. unfold MemStorage.courtSlots. rewrite map_map. reflexivity. Qed.

Lemma gridHours_nth (h : Z) :
  MemStorage.OPENING_HOUR <= h < MemStorage.CLOSING_HOUR ->
  nth_error MemStorage.gridHours (Z.to_nat (h - MemStorage.OPENING_HOUR)) = Some h.
Proof.
  unfold MemStorage.OPENING_HOUR, MemStorage.CLOSING_HOUR. intros H.
  assert (exists n, h = 6 + Z.of_nat n /\ (n < 17)%nat) as (n & -> & Hn).
  { exists (Z.to_nat (h - 6)). lia. }
  replace (Z.to_nat (6 + Z.of_nat n - 6)) with n by lia.
  do 17 (destruct n as [|n]; [reflexivity|]). lia.
Qed.

Lemma in_upto (n k : Z) : In k (MemStorage.upto n) <-> 0 <= k < n.
Proof.
  unfold MemStorage.upto. rewrite in_map_iff. split.
  - intros (i & <- & Hi). apply in_seq in Hi. lia.
  - intros H. exists (Z.to_nat k). split; [lia|]. apply in_seq. lia.
Qed.

(** Every hour a booking of the list spans is in [bookedHours]. *)
Lemma spanned_hour_booked bs b (start h : Z) :
  In b bs ->
  MemStorage.startHour b = Some start ->
  start <= h < start + Booking.hours b ->
  MemStorage.has (MemStorage.bookedHours bs) (Some h) = true.
Proof.
  intros Hb Hs Hh. unfold MemStorage.has. apply existsb_exists.
  exists (Some h). split; [|simpl; apply Z.eqb_refl].
  unfold MemStorage.bookedHours. apply in_flat_map. exists b. split; [exact Hb|].
  apply in_map_iff. exists (h - start). rewrite Hs. simpl. split.
  - f_equal. lia.
  - apply in_upto. lia.
Qed.

(** The slot of every hour of the grid that a booked reservation of the
    court and date spans is marked unavailable. *)
Lemma spanned_slot_unavailable date court st b (start h : Z) :
  In b (MemStorage.getBookingsForDateAndCourt date (Court.id court) st) ->
  MemStorage.startHour b = Some start ->
  start <= h < start + Booking.hours b ->
  MemStorage.OPENING_HOUR <= h < MemStorage.CLOSING_HOUR ->
  exists slot,
    nth_error (MemStorage.courtSlots date court st)
              (Z.to_nat (h - MemStorage.OPENING_HOUR)) = Some slot
    /\ TimeSlot.time slot = (JsStr.padStart0 2 (JsStr.ofZ h) ++ ":00")%string
    /\ TimeSlot.available slot = false.
Proof.
  intros Hb Hs Hh Hw. unfold MemStorage.courtSlots.
  eexists. split.
  - rewrite nth_error_map, (gridHours_nth h Hw). reflexivity.
  - split; [reflexivity|]. simpl.
    now rewrite (spanned_hour_booked _ b start h Hb Hs Hh).
Qed.

(** The id a slot carries is the id of a booking that starts at the hour
    of the slot. *)
Lemma slot_id_is_of_a_start bs (h : Z) i :
  TimeSlot.bookingId (MemStorage.slotFor bs h) = Some i ->
  exists b, In b bs /\ MemStorage.startHour b = Some h /\ Booking.id b = i.
Proof.
  simpl. destruct (find _ bs) as [b|] eqn:E; [|discriminate].
  simpl. intros [= <-]. apply find_some in E. destruct E as [Hin Heq].
  exists b. repeat split; auto.
  destruct (MemStorage.startHour b) as [x|]; simpl in Heq; [|discriminate].
  apply Z.eqb_eq in Heq. now subst.
Qed.

(** The slots of every court are found under its id. *)
Lemma getAvailability_slots date st court :
  In court (MemStorage.getCourts st) ->
  JsMap.get (Court.id court) (snd (MemStorage.getAvailability date st))
  = Some (MemStorage.courtSlots date court st).
Proof.
  unfold MemStorage.getAvailability. simpl.
  generalize (@JsMap.empty (list TimeSlot.t)).
  induction (MemStorage.getCourts st) as [|c l IH]; intros acc Hin; [contradiction|].
  simpl.
  destruct (in_dec (fun x y : Court.t =>
                      ltac:(decide equality; apply string_dec) : {x = y} + {x <> y})
                   court l) as [Hl|Hl].
  - now apply IH.
  - destruct Hin as [->|Hin]; [|contradiction].
    clear IH.
    assert (forall l0 acc0,
              (forall c0, In c0 l0 -> Court.id c0 = Court.id court ->
                          MemStorage.courtSlots date c0 st
                          = MemStorage.courtSlots date court st) ->
              JsMap.get (Court.id court) acc0
                = Some (MemStorage.courtSlots date court st) ->
              JsMap.get (Court.id court)
                (fold_left (fun slots c0 =>
                   JsMap.set (Court.id c0) (MemStorage.courtSlots date c0 st) slots)
                   l0 acc0)
              = Some (MemStorage.courtSlots date court st)) as Hkeep.
    { induction l0 as [|c0 l0 IH0]; intros acc0 Hsame Hacc; simpl; [exact Hacc|].
      apply IH0; [intros; apply Hsame; auto; now right|].
      destruct (String.eqb_spec (Court.id c0) (Court.id court)) as [E|E].
      - rewrite E, get_set_same. f_equal. apply Hsame; auto. now left.
      - rewrite get_set_other by congruence. exact Hacc. }
    apply Hkeep; [|apply get_set_same].
    intros c0 _ E. unfold MemStorage.courtSlots. now rewrite E.
Qed.

(** C7, on the store the server starts with on 2024-12-01: the first
    booking, on court A at 09:00 for 2 hours, spans the hours 9 and 10; the
    grid of court A marks both slots unavailable, the slot of 09:00 with
    the id of the booking and the slot of 10:00 with no id. *)
Theorem continuation_hour_carries_no_id :
  exists b slots,
    In b (MemStorage.getBookingsForDateAndCourt "2024-12-01" "court-a"
            Scenario.seeded)
    /\ MemStorage.startHour b = Some 9 /\ Booking.hours b = 2
    /\ JsMap.get "court-a"
         (snd (MemStorage.getAvailability "2024-12-01" Scenario.seeded))
       = Some slots
    /\ nth_error slots 3
       = Some (TimeSlot.mk "09:00" "9:00 AM" false (Some (Booking.id b)))
    /\ nth_error slots 4 = Some (TimeSlot.mk "10:00" "10:00 AM" false None).
Proof.
  eexists _, _. split; [vm_compute; left; reflexivity|].
  repeat split; vm_compute; reflexivity.
Qed.

(* ------------------------------------------------------------------ *)
(** ** Revenue of the week *)

Lemma revenue_total_from bs : forall acc,
  fold_left (fun sum b => sum + Booking.amount b) bs acc
  = acc + RevenueSpec.total Booking.amount bs.
Proof.
  induction bs as [|b bs IH]; intros acc; simpl; [lia|]. rewrite IH. lia.
Qed.

Lemma revenue_total bs :
  MemStorage.revenue bs = RevenueSpec.total Booking.amount bs.
Proof. unfold MemStorage.revenue. now rewrite revenue_total_from. Qed.

(** The sum over those of a list that pass two tests in a row is the sum
    over the list of the shares of those that pass both. *)
Lemma total_filter_filter (f g : Booking.t -> bool) bs :
  RevenueSpec.total Booking.amount (filter g (filter f bs))
  = RevenueSpec.total (fun b => if (f b && g b)%bool then Booking.amount b else 0) bs.
Proof.
  induction bs as [|b bs IH]; simpl; [reflexivity|].
  destruct (f b); simpl; [destruct (g b); simpl|]; rewrite IH; reflexivity.
Qed.

(** [startOfWeek] with the week starting on weekday [w] answers the latest
    day not after [d] that falls on [w]. *)
Lemma startOfWeekOn_spec (w : Z) (d : DateFns.Date) :
  0 <= w < 7 ->
  DateFns.getDay (DateFns.startOfWeekOn w d) = w
  /\ DateFns.startOfWeekOn w d <= d < DateFns.startOfWeekOn w d + 7.
Proof.
  intros Hw. unfold DateFns.startOfWeekOn, DateFns.getDay.
  pose proof (Z.mod_pos_bound (d + 4) 7 ltac:(lia)) as Hb.
  pose proof (Z.div_mod (d + 4) 7 ltac:(lia)) as Hd.
  destruct (Z.ltb_spec ((d + 4) mod 7) w).
  - split; [|lia].
    replace (d - (7 + (d + 4) mod 7 - w) + 4)
      with (w + ((d + 4) / 7 - 1) * 7) by lia.
    rewrite Z.mod_add by lia. apply Z.mod_small. lia.
  - split; [|lia].
    replace (d - (0 + (d + 4) mod 7 - w) + 4)
      with (w + ((d + 4) / 7) * 7) by lia.
    rewrite Z.mod_add by lia. apply Z.mod_small. lia.
Qed.

(** C9, as stated, fails: on Sunday 2024-12-01 the week of the metric
    starts that day, and the bookings of the six days before, which a week
    starting on Monday holds, are left out. *)
Lemma week_does_not_start_on_monday :
  DashboardMetrics.weekRevenue
    (MemStorage.getDashboardMetrics Scenario.sunday Scenario.seeded) = 8500
  /\ RevenueSpec.weekRevenue 1 Scenario.sunday Scenario.seeded = 59500
  /\ ~ (forall now st,
          DashboardMetrics.weekRevenue (MemStorage.getDashboardMetrics now st)
          = RevenueSpec.weekRevenue 1 now st).
Proof.
  split; [vm_compute; reflexivity|]. split; [vm_compute; reflexivity|].
  intros H. specialize (H Scenario.sunday Scenario.seeded).
  vm_compute in H. discriminate.
Qed.

(** C9, amended.  The week revenue is the sum of the amounts of the
    bookings that are booked or completed and whose date is on or after
    the start of the week of today, the week starting on Sunday: the start
    is the latest Sunday not after today.  A cancelled booking counts
    for 0. *)
Theorem week_revenue_from_sunday now st :
  DashboardMetrics.weekRevenue (MemStorage.getDashboardMetrics now st)
  = RevenueSpec.weekRevenue 0 now st
  /\ DateFns.getDay (DateFns.startOfWeek now) = 0
  /\ DateFns.startOfWeek now <= now < DateFns.startOfWeek now + 7
  /\ forall b, Booking.status b = "cancelled" ->
               RevenueSpec.inWeek 0 now b = false.
Proof.
  split; [|split; [|split]].
  - unfold MemStorage.getDashboardMetrics. simpl.
    rewrite revenue_total, total_filter_filter. reflexivity.
  - apply (startOfWeekOn_spec 0 now). lia.
  - apply (startOfWeekOn_spec 0 now). lia.
  - intros b Hb. unfold RevenueSpec.inWeek. rewrite Hb. reflexivity.
Qed.

(* ------------------------------------------------------------------ *)
(** * Further properties of the engine *)

(** ** What every store holds *)

Lemma get_None_keys {V} k (m : JsMap.t V) :
  JsMap.get k m = None <-> ~ In k (JsMap.keys m).
Proof.
  induction m as [|[k' v'] m IH]; simpl; [tauto|].
  destruct (String.eqb_spec k' k) as [->|Hne].
  - split; [discriminate | intros H; exfalso; auto].
  - rewrite IH. tauto.
Qed.

Lemma get_In_entry {V} k (v : V) m : JsMap.get k m = Some v -> In (k, v) m.
Proof.
  induction m as [|[k' v'] m IH]; simpl; [discriminate|].
  destruct (String.eqb_spec k' k) as [->|Hne].
  - intros [= ->]. now left.
  - intros H. right. auto.
Qed.

Lemma In_entry_get {V} k (v : V) m :
  NoDup (JsMap.keys m) -> In (k, v) m -> JsMap.get k m = Some v.
Proof.
  induction m as [|[k' v'] m IH]; simpl; [contradiction|].
  intros Hnd Hin. inversion Hnd as [|a l Hk Hnd']; subst.
  destruct Hin as [[= -> ->]|Hin].
  - now rewrite String.eqb_refl.
  - destruct (String.eqb_spec k' k) as [->|Hne]; [|auto].
    exfalso. apply Hk. change k with (fst (k, v)). now apply in_map.
Qed.

(** [set] on an absent key appends. *)
Lemma set_absent {V} k (v : V) m :
  JsMap.get k m = None -> JsMap.set k v m = (m ++ [(k, v)])%list.
Proof.
  induction m as [|[k' v'] m IH]; simpl; [reflexivity|].
  destruct (String.eqb k' k); [discriminate|].
  intros H. now rewrite IH.
Qed.

(** [set] on a present key replaces the value where it stands. *)
Lemma set_present {V} k (v b : V) m :
  JsMap.get k m = Some b ->
  exists m1 m2,
    m = (m1 ++ (k, b) :: m2)%list /\ JsMap.set k v m = (m1 ++ (k, v) :: m2)%list.
Proof.
  induction m as [|[k' v'] m IH]; simpl; [discriminate|].
  destruct (String.eqb_spec k' k) as [->|Hne].
  - intros [= ->]. exists [], m. auto.
  - intros H. destruct (IH H) as (m1 & m2 & -> & ->).
    exists ((k', v') :: m1), m2. auto.
Qed.

Lemma In_set {V} k (v : V) m x :
  In x (JsMap.set k v m) -> x = (k, v) \/ In x m.
Proof.
  induction m as [|[k' v'] m IH]; simpl.
  - intros [H|[]]. now left.
  - destruct (String.eqb k' k); simpl.
    + intros [H|H]; [now left | now right; right].
    + intros [H|H]; [now right; left |].
      destruct (IH H); [now left | now right; right].
Qed.

Lemma In_values_after_set {V} k (v : V) m : In v (JsMap.values (JsMap.set k v m)).
Proof. apply (get_In k). apply get_set_same. Qed.

Lemma keys_set_NoDup {V} k (v : V) m :
  NoDup (JsMap.keys m) -> NoDup (JsMap.keys (JsMap.set k v m)).
Proof.
  intros Hnd. destruct (JsMap.get k m) as [b|] eqn:E.
  - now rewrite (keys_set_present k v b m E).
  - rewrite (set_absent k v m E). unfold JsMap.keys. rewrite map_app. simpl.
    apply NoDup_app; [exact Hnd | repeat constructor; intros [] | ].
    intros x Hx [<-|[]]. now apply get_None_keys in E.
Qed.

Lemma windowed_withStatus b status :
  Ledger.windowed b -> Ledger.windowed (Booking.withStatus b status).
Proof. intros H. exact H. Qed.

(** A record the create route stores is windowed: the schema bounds its
    hours and the window test its range. *)
Lemma created_windowed data id u status st :
  1 <= InsertBooking.hours data <= 8 ->
  MemStorage.checkSlotAvailability (InsertBooking.courtId data)
    (InsertBooking.date data) (InsertBooking.startTime data)
    (InsertBooking.hours data) st = true ->
  Ledger.windowed (MemStorage.record id u data status).
Proof.
  intros Hh Hfree. split; [exact Hh|]. intros s Hs.
  apply checkSlotAvailability_true in Hfree. destruct Hfree as (Ho & Hc & _).
  unfold MemStorage.startHour in Hs. simpl in Hs. rewrite Hs in Ho, Hc.
  simpl in Ho, Hc. unfold JsNum.gt, JsNum.lt in Hc.
  apply Z.ltb_ge in Ho, Hc. simpl. lia.
Qed.

Lemma keyed_set id b st :
  Booking.id b = id ->
  Ledger.keyed st ->
  Ledger.keyed (MemStorage.withBookings st (JsMap.set id b (MemStorage.bookings st))).
Proof.
  intros Hid [Hnd Hall]. split; simpl.
  - now apply keys_set_NoDup.
  - apply Forall_forall. intros x Hx.
    destruct (In_set _ _ _ _ Hx) as [->|Hin]; [exact Hid|].
    rewrite Forall_forall in Hall. now apply Hall.
Qed.

Lemma Forall_values_set {V} (P : V -> Prop) k v (m : JsMap.t V) :
  P v -> Forall P (JsMap.values m) -> Forall P (JsMap.values (JsMap.set k v m)).
Proof.
  intros Hv Hm. apply Forall_forall. intros x Hx.
  destruct (In_values_set _ _ _ _ Hx) as [->|Hin]; [exact Hv|].
  rewrite Forall_forall in Hm. now apply Hm.
Qed.

Lemma updateBookingStatus_sound id status st :
  String.eqb status "booked" = false ->
  Ledger.Sound st ->
  Ledger.Sound (fst (MemStorage.updateBookingStatus id status st)).
Proof.
  intros Hs (Hc & Hw & Hk).
  split; [now apply updateBookingStatus_consistent|].
  unfold MemStorage.updateBookingStatus.
  destruct (JsMap.get id (MemStorage.bookings st)) as [b|] eqn:E; [|auto].
  simpl. split.
  - apply Forall_values_set; [|exact Hw].
    apply windowed_withStatus. rewrite Forall_forall in Hw.
    apply Hw. now apply (get_In id).
  - apply keyed_set; [|exact Hk]. simpl.
    destruct Hk as [_ Hall]. rewrite Forall_forall in Hall.
    exact (Hall _ (get_In_entry _ _ _ E)).
Qed.

Lemma handle_sound r st : Ledger.Sound st -> Ledger.Sound (fst (Routes.handle r st)).
Proof.
  intros Hs. destruct r as [s body id u | s id | s id]; simpl.
  - unfold Routes.postBooking.
    match goal with
    | |- context [Routes.requireAuth s st ?n] =>
        destruct (requireAuth_cases s st n) as [-> | ->]; [exact Hs|]
    end.
    destruct (InsertBooking.safeParse body) as [data|] eqn:Ep; [|exact Hs].
    destruct (MemStorage.checkSlotAvailability _ _ _ _ _) eqn:E; [|exact Hs].
    destruct Hs as (Hc & Hw & Hk). simpl. split; [|split].
    + apply (createBooking_consistent data id u st E Hc).
    + simpl. apply Forall_values_set; [|exact Hw].
      apply (created_windowed data _ _ _ st); [|exact E].
      now destruct (safeParse_Some _ _ Ep).
    + now apply keyed_set.
  - rewrite postCancel_cases.
    match goal with
    | |- context [Routes.requireAuth s st ?n] =>
        destruct (requireAuth_cases s st n) as [-> | ->]; [exact Hs|]
    end.
    destruct (MemStorage.getBooking id st) as [b|] eqn:E; [|exact Hs].
    destruct (String.eqb _ _); [exact Hs|].
    pose proof (updateBookingStatus_sound id "cancelled" st eq_refl Hs) as H.
    unfold MemStorage.updateBookingStatus in H.
    unfold MemStorage.getBooking in E. rewrite E in H. exact H.
  - rewrite postComplete_cases.
    match goal with
    | |- context [Routes.requireAuth s st ?n] =>
        destruct (requireAuth_cases s st n) as [-> | ->]; [exact Hs|]
    end.
    destruct (MemStorage.getBooking id st) as [b|] eqn:E; [|exact Hs].
    destruct (String.eqb _ _); [exact Hs|].
    pose proof (updateBookingStatus_sound id "completed" st eq_refl Hs) as H.
    unfold MemStorage.updateBookingStatus in H.
    unfold MemStorage.getBooking in E. rewrite E in H. exact H.
Qed.

Lemma serve_sound rs : forall st, Ledger.Sound st -> Ledger.Sound (Routes.serve rs st).
Proof.
  induction rs as [|r rs IH]; intros st H; simpl; [exact H|].
  apply IH. now apply handle_sound.
Qed.

(** The loop of [seedData] keeps what holds of the records it stores. *)
Lemma seedBookings_keeps rnd samples (P : Booking.t -> Prop) : forall i bs,
  (forall s id u, In s samples -> P (MemStorage.record id u s "booked")) ->
  Forall P (JsMap.values bs) ->
  NoDup (JsMap.keys bs) ->
  Forall (fun kb : string * Booking.t => Booking.id (snd kb) = fst kb) bs ->
  Forall P (JsMap.values (MemStorage.seedBookings rnd i samples bs))
  /\ NoDup (JsMap.keys (MemStorage.seedBookings rnd i samples bs))
  /\ Forall (fun kb : string * Booking.t => Booking.id (snd kb) = fst kb)
            (MemStorage.seedBookings rnd i samples bs).
Proof.
  induction samples as [|booking rest IH]; intros i bs HP Hv Hnd Hk; simpl; [auto|].
  apply IH.
  - intros s id u Hs. apply HP. now right.
  - apply Forall_values_set; [|exact Hv]. apply HP. now left.
  - now apply keys_set_NoDup.
  - apply Forall_forall. intros x Hx.
    destruct (In_set _ _ _ _ Hx) as [->|Hin]; [reflexivity|].
    rewrite Forall_forall in Hk. now apply Hk.
Qed.

Lemma samples_windowed today s id u :
  In s (MemStorage.sampleBookings today) ->
  Ledger.windowed (MemStorage.record id u s "booked").
Proof.
  unfold MemStorage.sampleBookings. simpl.
  intros H.
  repeat (destruct H as [<-|H];
          [split; [simpl; lia
                  | intros h E; vm_compute in E; injection E as <-;
                    unfold MemStorage.OPENING_HOUR, MemStorage.CLOSING_HOUR;
                    simpl; lia]|]).
  contradiction.
Qed.

Lemma seedData_sound today rnd : Ledger.Sound (MemStorage.seedData today rnd).
Proof.
  split.
  - apply consistent_iff. apply seedData_no_double_booking.
  - destruct (seedBookings_keeps rnd (MemStorage.sampleBookings today)
                Ledger.windowed 0%nat JsMap.empty) as (Hw & Hnd & Hk).
    + intros s id u Hs. now apply (samples_windowed today).
    + constructor.
    + constructor.
    + constructor.
    + split; [exact Hw|]. split; [exact Hnd | exact Hk].
Qed.



(** X4. In every store the requests lead to from the seeded one, no two
    records share an id, and every record is found by [getBooking] under
    its own id. *)
Theorem served_records_keyed today rnd rs :
  let st := Routes.serve rs (MemStorage.seedData today rnd) in
  NoDup (map Booking.id (JsMap.values (MemStorage.bookings st)))
  /\ Forall (fun b => MemStorage.getBooking (Booking.id b) st = Some b)
            (JsMap.values (MemStorage.bookings st)).
Proof.
  intros st.
  destruct (serve_sound rs _ (seedData_sound today rnd)) as (_ & _ & Hnd & Hk).
  fold st in Hnd, Hk.
  assert (map Booking.id (JsMap.values (MemStorage.bookings st))
          = JsMap.keys (MemStorage.bookings st)) as Hids.
  { unfold JsMap.values, JsMap.keys. rewrite map_map.
    apply map_ext_in. intros kb Hin. rewrite Forall_forall in Hk. now apply Hk. }
  split; [now rewrite Hids|].
  apply Forall_forall. intros b Hb.
  unfold JsMap.values in Hb. apply in_map_iff in Hb.
  destruct Hb as ([k b'] & <- & Hin). simpl.
  rewrite Forall_forall in Hk. pose proof (Hk _ Hin) as Hid. simpl in Hid.
  rewrite Hid. unfold MemStorage.getBooking. now apply In_entry_get.
Qed.

(** ** What the routes leave alone *)

(** X5. A request that is answered with a message, 400, 401, 404 or 409,
    leaves the store as it was. *)
Theorem error_reply_leaves_store r st code message :
  snd (Routes.handle r st) = Routes.Message code message ->
  fst (Routes.handle r st) = st.
Proof.
  destruct r as [s body id u | s id | s id]; simpl.
  - unfold Routes.postBooking.
    match goal with
    | |- context [Routes.requireAuth s st ?n] =>
        destruct (requireAuth_cases s st n) as [-> | ->]; [reflexivity|]
    end.
    destruct (InsertBooking.safeParse body); [|reflexivity].
    destruct (negb _); [reflexivity|]. simpl. discriminate.
  - rewrite postCancel_cases.
    match goal with
    | |- context [Routes.requireAuth s st ?n] =>
        destruct (requireAuth_cases s st n) as [-> | ->]; [reflexivity|]
    end.
    destruct (MemStorage.getBooking id st); [|reflexivity].
    destruct (String.eqb _ _); [reflexivity|]. simpl. discriminate.
  - rewrite postComplete_cases.
    match goal with
    | |- context [Routes.requireAuth s st ?n] =>
        destruct (requireAuth_cases s st n) as [-> | ->]; [reflexivity|]
    end.
    destruct (MemStorage.getBooking id st); [|reflexivity].
    destruct (String.eqb _ _); [reflexivity|]. simpl. discriminate.
Qed.

(** The request of 10:00 on the ledger that holds 09:00 to 11:00. *)
Lemma error_reply_witness :
  snd (Routes.handle
         (Routes.PostBooking Scenario.admin
            (Scenario.request "court-a" "2024-12-02" "10:00" 1 2000)
            "b-2" "1a2b3c4d-2222")
         Scenario.oneBooking)
  = Routes.Message 409
      "That slot is already taken — please pick another time or court."
  /\ fst (Routes.handle
            (Routes.PostBooking Scenario.admin
               (Scenario.request "court-a" "2024-12-02" "10:00" 1 2000)
               "b-2" "1a2b3c4d-2222")
            Scenario.oneBooking)
     = Scenario.oneBooking.
Proof.
  assert (H : snd (Routes.handle
                     (Routes.PostBooking Scenario.admin
                        (Scenario.request "court-a" "2024-12-02" "10:00" 1 2000)
                        "b-2" "1a2b3c4d-2222")
                     Scenario.oneBooking)
              = Routes.Message 409
                  "That slot is already taken — please pick another time or court.")
    by (vm_compute; reflexivity).
  split; [exact H|]. exact (error_reply_leaves_store _ _ _ _ H).
Defined.

Lemma keys_set_grows {V} k (v : V) m :
  exists more, JsMap.keys (JsMap.set k v m) = (JsMap.keys m ++ more)%list.
Proof.
  destruct (JsMap.get k m) as [b|] eqn:E.
  - exists []. rewrite (keys_set_present k v b m E). now rewrite app_nil_r.
  - exists [k]. rewrite (set_absent k v m E). unfold JsMap.keys. now rewrite map_app.
Qed.

Lemma handle_grows r st :
  exists more,
    JsMap.keys (MemStorage.bookings (fst (Routes.handle r st)))
    = (JsMap.keys (MemStorage.bookings st) ++ more)%list
    /\ MemStorage.courts (fst (Routes.handle r st)) = MemStorage.courts st
    /\ MemStorage.sports (fst (Routes.handle r st)) = MemStorage.sports st.
Proof.
  assert (exists more : list string,
            JsMap.keys (MemStorage.bookings st)
            = (JsMap.keys (MemStorage.bookings st) ++ more)%list
            /\ MemStorage.courts st = MemStorage.courts st
            /\ MemStorage.sports st = MemStorage.sports st) as Hsame
    by (exists []; now rewrite app_nil_r).
  destruct r as [s body id u | s id | s id]; simpl.
  - unfold Routes.postBooking.
    match goal with
    | |- context [Routes.requireAuth s st ?n] =>
        destruct (requireAuth_cases s st n) as [-> | ->]; [exact Hsame|]
    end.
    destruct (InsertBooking.safeParse body) as [data|]; [|exact Hsame].
    destruct (negb _); [exact Hsame|]. simpl.
    destruct (keys_set_grows id
                (MemStorage.record id (MemStorage.shortUuid u) data
                   (MemStorage.statusOrBooked (InsertBooking.status data)))
                (MemStorage.bookings st)) as (more & Hm).
    exists more. auto.
  - rewrite postCancel_cases.
    match goal with
    | |- context [Routes.requireAuth s st ?n] =>
        destruct (requireAuth_cases s st n) as [-> | ->]; [exact Hsame|]
    end.
    destruct (MemStorage.getBooking id st) as [b|] eqn:E; [|exact Hsame].
    destruct (String.eqb _ _); [exact Hsame|]. simpl.
    exists []. rewrite (keys_set_present id _ b _ E). now rewrite app_nil_r.
  - rewrite postComplete_cases.
    match goal with
    | |- context [Routes.requireAuth s st ?n] =>
        destruct (requireAuth_cases s st n) as [-> | ->]; [exact Hsame|]
    end.
    destruct (MemStorage.getBooking id st) as [b|] eqn:E; [|exact Hsame].
    destruct (String.eqb _ _); [exact Hsame|]. simpl.
    exists []. rewrite (keys_set_present id _ b _ E). now rewrite app_nil_r.
Qed.

(** X6. The requests only add to the ledger: the ids of the records of the
    store they lead to are those of the store before, in the same order,
    then those of the records added; a record found under an id before is
    found under it after; the courts and the sports do not change. *)
Theorem ledger_only_grows rs st :
  (exists more,
     JsMap.keys (MemStorage.bookings (Routes.serve rs st))
     = (JsMap.keys (MemStorage.bookings st) ++ more)%list)
  /\ (forall id, MemStorage.getBooking id (Routes.serve rs st) = None ->
                 MemStorage.getBooking id st = None)
  /\ MemStorage.courts (Routes.serve rs st) = MemStorage.courts st
  /\ MemStorage.sports (Routes.serve rs st) = MemStorage.sports st.
Proof.
  assert (exists more,
            JsMap.keys (MemStorage.bookings (Routes.serve rs st))
            = (JsMap.keys (MemStorage.bookings st) ++ more)%list
            /\ MemStorage.courts (Routes.serve rs st) = MemStorage.courts st
            /\ MemStorage.sports (Routes.serve rs st) = MemStorage.sports st)
    as (more & Hk & Hc & Hs).
  { revert st. induction rs as [|r rs IH]; intros st; simpl.
    - exists []. now rewrite app_nil_r.
    - destruct (IH (fst (Routes.handle r st))) as (more2 & Hk2 & Hc2 & Hs2).
      destruct (handle_grows r st) as (more1 & Hk1 & Hc1 & Hs1).
      exists (more1 ++ more2)%list. rewrite Hk2, Hk1, Hc2, Hc1, Hs2, Hs1.
      now rewrite app_assoc. }
  split; [now exists more|]. split; [|auto].
  intros id. unfold MemStorage.getBooking. rewrite !get_None_keys, Hk.
  intros H Hin. apply H. apply in_or_app. now left.
Qed.

(** ** The status of a record over time *)

Lemma handle_cancelled_stays id b r st :
  Ledger.draws id r = false ->
  MemStorage.getBooking id st = Some b ->
  Booking.status b = "cancelled" ->
  MemStorage.getBooking id (fst (Routes.handle r st)) = Some b.
Proof.
  intros Hd Hg Hs. destruct r as [s body id' u | s id' | s id']; simpl.
  - unfold Routes.postBooking.
    match goal with
    | |- context [Routes.requireAuth s st ?n] =>
        destruct (requireAuth_cases s st n) as [-> | ->]; [exact Hg|]
    end.
    destruct (InsertBooking.safeParse body) as [data|]; [|exact Hg].
    destruct (negb _); [exact Hg|]. simpl.
    unfold MemStorage.getBooking. simpl. simpl in Hd.
    apply String.eqb_neq in Hd. rewrite get_set_other by congruence. exact Hg.
  - rewrite postCancel_cases.
    match goal with
    | |- context [Routes.requireAuth s st ?n] =>
        destruct (requireAuth_cases s st n) as [-> | ->]; [exact Hg|]
    end.
    destruct (String.eqb_spec id' id) as [->|Hne].
    + rewrite Hg, Hs. simpl. exact Hg.
    + destruct (MemStorage.getBooking id' st); [|exact Hg].
      destruct (String.eqb _ _); [exact Hg|]. simpl.
      unfold MemStorage.getBooking. simpl.
      rewrite get_set_other by congruence. exact Hg.
  - rewrite postComplete_cases.
    match goal with
    | |- context [Routes.requireAuth s st ?n] =>
        destruct (requireAuth_cases s st n) as [-> | ->]; [exact Hg|]
    end.
    destruct (String.eqb_spec id' id) as [->|Hne].
    + rewrite Hg, Hs. simpl. exact Hg.
    + destruct (MemStorage.getBooking id' st); [|exact Hg].
      destruct (String.eqb _ _); [exact Hg|]. simpl.
      unfold MemStorage.getBooking. simpl.
      rewrite get_set_other by congruence. exact Hg.
Qed.

(** X7. A cancelled record stays as it is, cancelled, through every
    sequence of requests that stores no other record under its id. *)
Theorem cancelled_is_final id b rs : forall st,
  MemStorage.getBooking id st = Some b ->
  Booking.status b = "cancelled" ->
  forallb (fun r => negb (Ledger.draws id r)) rs = true ->
  MemStorage.getBooking id (Routes.serve rs st) = Some b.
Proof.
  induction rs as [|r rs IH]; intros st Hg Hs Hd; simpl; [exact Hg|].
  simpl in Hd. apply andb_true_iff in Hd. destruct Hd as [Hr Hrs].
  apply IH; [|exact Hs|exact Hrs].
  apply handle_cancelled_stays; auto. now apply negb_true_iff.
Qed.

(** The seeded booking of 09:00, cancelled, then asked to be completed,
    cancelled again and booked over. *)
Lemma cancelled_is_final_witness :
  exists b,
    MemStorage.getBooking (Scenario.rnd 0)
      (Routes.serve Scenario.afternoon Scenario.seeded) = Some b
    /\ Booking.status b = "cancelled"
    /\ MemStorage.getBooking (Scenario.rnd 0)
         (Routes.serve
            [ Routes.PostComplete Scenario.admin (Scenario.rnd 0);
              Routes.PostCancel Scenario.admin (Scenario.rnd 0);
              Routes.PostBooking Scenario.admin
                (Scenario.request "court-a" "2024-12-01" "09:00" 2 4000)
                "b-4" "0d1e2f3a-4444" ]
            (Routes.serve Scenario.afternoon Scenario.seeded)) = Some b.
Proof.
  eexists.
  assert (Hg : MemStorage.getBooking (Scenario.rnd 0)
                 (Routes.serve Scenario.afternoon Scenario.seeded)
               = Some (Booking.withStatus
                         (MemStorage.record (Scenario.rnd 0)
                            (MemStorage.shortUuid (Scenario.rnd 1))
                            (MemStorage.sample "Ahmed Khan" "+92 300 1234567"
                               "cricket" "court-a" "2024-12-01" "09:00" 2 4000)
                            "booked")
                         "cancelled"))
    by (vm_compute; reflexivity).
  split; [exact Hg|]. split; [reflexivity|].
  apply (cancelled_is_final _ _ _ _ Hg); [reflexivity | vm_compute; reflexivity].
Defined.

(** ** What the create route lets through *)

Lemma loggedIn_requireAuth s st next :
  Routes.loggedIn s = true -> Routes.requireAuth s st next = next.
Proof. destruct s as [[|c s]|]; simpl; [discriminate | reflexivity | discriminate]. Qed.

(** A no-break space (bytes 194 160) or a byte-order mark ahead of the
    hour is skipped, as the space is. *)
Example hourOf_skips_white_space :
  MemStorage.hourOf (String (ascii_of_nat 194) (String (ascii_of_nat 160) "10:00"))
    = Some 10
  /\ MemStorage.hourOf
       (String (ascii_of_nat 239)
          (String (ascii_of_nat 187) (String (ascii_of_nat 191) " 10:00")))
     = Some 10
  /\ MemStorage.hourOf " 10:00" = Some 10
  /\ MemStorage.hourOf "noon" = None.
Proof. repeat split; reflexivity. Qed.

(** A court id of 37 characters is refused by the schema, one of 36 is
    not; a name of one letter is refused. *)
Example safeParse_lengths :
  InsertBooking.safeParse
    (Scenario.request "court-0123456789-0123456789-012345678" "2024-12-02"
       "09:00" 2 4000) = None
  /\ InsertBooking.safeParse
       (Scenario.request "court-0123456789-0123456789-01234567" "2024-12-02"
          "09:00" 2 4000) <> None
  /\ InsertBooking.safeParse
       (InsertBooking.mk "S" "+92 300 7654321" "cricket" "court-a"
          "2024-12-02" "09:00" 2 4000 None) = None.
Proof. repeat split; try reflexivity. vm_compute. discriminate. Qed.

(** X8. A create request whose start time does not read as an hour passes
    both the window test and the overlap test: once it passes the schema
    it is answered 201 and stored, whatever the ledger holds. *)
Theorem unreadable_start_time_is_booked s body id u st :
  Routes.loggedIn s = true ->
  InsertBooking.safeParse body = Some body ->
  MemStorage.hourOf (InsertBooking.startTime body) = None ->
  exists st' b,
    Routes.postBooking s body id u st = (st', Routes.Json 201 (Some b))
    /\ MemStorage.getBooking id st' = Some b
    /\ Booking.startTime b = InsertBooking.startTime body.
Proof.
  intros Hl Hp Hn. unfold Routes.postBooking.
  rewrite (loggedIn_requireAuth _ _ _ Hl), Hp.
  assert (MemStorage.checkSlotAvailability (InsertBooking.courtId body)
            (InsertBooking.date body) (InsertBooking.startTime body)
            (InsertBooking.hours body) st = true) as ->.
  { apply checkSlotAvailability_true. rewrite Hn. repeat split.
    intros x _. unfold MemStorage.clash. simpl.
    destruct (MemStorage.startHour x), (MemStorage.endHour x); reflexivity. }
  simpl. eexists _, _. split; [reflexivity|]. split; [|reflexivity].
  unfold MemStorage.getBooking. simpl. apply get_set_same.
Qed.

(** A request for "noon" on the slot the ledger already holds. *)
Lemma unreadable_start_time_witness :
  exists st' b,
    Routes.postBooking Scenario.admin
      (Scenario.request "court-a" "2024-12-02" "noon" 2 4000)
      "b-5" "4b5c6d7e-5555" Scenario.oneBooking
    = (st', Routes.Json 201 (Some b))
    /\ Booking.startTime b = "noon".
Proof.
  destruct (unreadable_start_time_is_booked Scenario.admin
              (Scenario.request "court-a" "2024-12-02" "noon" 2 4000)
              "b-5" "4b5c6d7e-5555" Scenario.oneBooking
              eq_refl eq_refl eq_refl) as (st' & b & H & _ & Hs).
  exists st', b. split; [exact H | exact Hs].
Defined.

(** X9. The create route looks up neither the court nor the sport: a
    request that passes the schema, lies in the opening window and finds
    no booked reservation on its court and date is answered 201 also when
    the store has no court and no sport of the ids it names. *)
Theorem unknown_court_and_sport_are_booked s body id u st (h : Z) :
  Routes.loggedIn s = true ->
  InsertBooking.safeParse body = Some body ->
  MemStorage.hourOf (InsertBooking.startTime body) = Some h ->
  6 <= h -> h + InsertBooking.hours body <= 23 ->
  MemStorage.getBookingsForDateAndCourt (InsertBooking.date body)
    (InsertBooking.courtId body) st = [] ->
  MemStorage.getCourt (InsertBooking.courtId body) st = None ->
  MemStorage.getSport (InsertBooking.sportId body) st = None ->
  exists st' b,
    Routes.postBooking s body id u st = (st', Routes.Json 201 (Some b))
    /\ Booking.courtId b = InsertBooking.courtId body
    /\ Booking.sportId b = InsertBooking.sportId body
    /\ MemStorage.getCourt (Booking.courtId b) st' = None
    /\ MemStorage.getSport (Booking.sportId b) st' = None.
Proof.
  intros Hl Hp Hh Ho Hc Hnone Hcourt Hsport. unfold Routes.postBooking.
  rewrite (loggedIn_requireAuth _ _ _ Hl), Hp.
  assert (MemStorage.checkSlotAvailability (InsertBooking.courtId body)
            (InsertBooking.date body) (InsertBooking.startTime body)
            (InsertBooking.hours body) st = true) as ->.
  { apply checkSlotAvailability_true. rewrite Hh, Hnone. simpl.
    unfold JsNum.gt, JsNum.lt, MemStorage.OPENING_HOUR, MemStorage.CLOSING_HOUR.
    repeat split; try (apply Z.ltb_ge; lia). intros b []. }
  simpl. eexists _, _. split; [reflexivity|]. simpl. auto.
Qed.

(** Padel on a court the store does not have. *)
Lemma unknown_court_witness :
  exists st' b,
    Routes.postBooking Scenario.admin
      (InsertBooking.mk "Sara Malik" "+92 300 7654321" "padel" "court-z"
         "2024-12-02" "09:00" 2 1 None)
      "b-6" "8f9a0b1c-6666" Scenario.seeded
    = (st', Routes.Json 201 (Some b))
    /\ Booking.courtId b = "court-z".
Proof.
  destruct (unknown_court_and_sport_are_booked Scenario.admin
              (InsertBooking.mk "Sara Malik" "+92 300 7654321" "padel" "court-z"
                 "2024-12-02" "09:00" 2 1 None)
              "b-6" "8f9a0b1c-6666" Scenario.seeded 9
              eq_refl eq_refl eq_refl ltac:(lia) ltac:(simpl; lia)
              ltac:(vm_compute; reflexivity) eq_refl eq_refl)
    as (st' & b & H & Hc & _).
  exists st', b. split; [exact H | exact Hc].
Defined.

(** X10. A create request may name its own status; when that is not
    [booked], the record is stored with it and blocks nothing: every
    request that was free before is free after. *)
Theorem created_with_other_status_blocks_nothing s body id u st st' b status :
  Routes.postBooking s body id u st = (st', Routes.Json 201 (Some b)) ->
  InsertBooking.status body = Some status ->
  status <> "" -> status <> "booked" ->
  Booking.status b = status
  /\ forall courtId date startTime hours,
       MemStorage.checkSlotAvailability courtId date startTime hours st = true ->
       MemStorage.checkSlotAvailability courtId date startTime hours st' = true.
Proof.
  intros H Hs Hne Hnb.
  destruct (postBooking_created _ _ _ _ _ _ _ H) as (_ & _ & Hb & Hst & _).
  assert (Booking.status b = status) as Hstatus.
  { subst b. simpl. rewrite Hs. destruct status; [contradiction|reflexivity]. }
  split; [exact Hstatus|].
  intros courtId date startTime hours Hc.
  apply checkSlotAvailability_true in Hc. destruct Hc as (Ho & Hcl & Hall).
  apply checkSlotAvailability_true. repeat split; auto.
  intros x Hx. apply Hall. subst st'.
  apply (booked_after_set date courtId id b st x); [|exact Hx].
  unfold Ledger.booked. rewrite Hstatus. now apply String.eqb_neq.
Qed.

(** A request stored as completed, and the same slot asked for after. *)
Lemma created_with_other_status_witness :
  exists st' b,
    Routes.postBooking Scenario.admin
      (InsertBooking.mk "Sara Malik" "+92 300 7654321" "cricket" "court-a"
         "2024-12-02" "12:00" 1 2000 (Some "completed"))
      "b-7" "2c3d4e5f-7777" Scenario.oneBooking
    = (st', Routes.Json 201 (Some b))
    /\ Booking.status b = "completed"
    /\ MemStorage.checkSlotAvailability "court-a" "2024-12-02" "12:00" 1 st' = true.
Proof.
  eexists _, _.
  assert (H : Routes.postBooking Scenario.admin
                (InsertBooking.mk "Sara Malik" "+92 300 7654321" "cricket" "court-a"
                   "2024-12-02" "12:00" 1 2000 (Some "completed"))
                "b-7" "2c3d4e5f-7777" Scenario.oneBooking
              = (_, Routes.Json 201 (Some _)))
    by (vm_compute; reflexivity).
  split; [exact H|].
  destruct (created_with_other_status_blocks_nothing _ _ _ _ _ _ _ "completed" H
              eq_refl ltac:(discriminate) ltac:(discriminate)) as [Hs Hfree].
  split; [exact Hs|]. apply Hfree. vm_compute. reflexivity.
Defined.

(** ** The day grid, slot by slot *)

Lemma courtSlots_nth date court st (h : Z) :
  MemStorage.OPENING_HOUR <= h < MemStorage.CLOSING_HOUR ->
  nth_error (MemStorage.courtSlots date court st)
            (Z.to_nat (h - MemStorage.OPENING_HOUR))
  = Some (MemStorage.slotFor
            (MemStorage.getBookingsForDateAndCourt date (Court.id court) st) h).
Proof.
  intros Hw. unfold MemStorage.courtSlots.
  now rewrite nth_error_map, (gridHours_nth h Hw).
Qed.

(** An hour in [bookedHours] is spanned by a booking of the list. *)
Lemma booked_hour_spanned bs (h : Z) :
  MemStorage.has (MemStorage.bookedHours bs) (Some h) = true ->
  exists b start,
    In b bs /\ MemStorage.startHour b = Some start
    /\ start <= h < start + Booking.hours b.
Proof.
  unfold MemStorage.has. intros H. apply existsb_exists in H.
  destruct H as (x & Hx & Heq).
  destruct x as [x|]; simpl in Heq; [|discriminate].
  apply Z.eqb_eq in Heq. subst x.
  unfold MemStorage.bookedHours in Hx. apply in_flat_map in Hx.
  destruct Hx as (b & Hb & Hin). apply in_map_iff in Hin.
  destruct Hin as (k & Hk & Hup). apply in_upto in Hup.
  destruct (MemStorage.startHour b) as [start|] eqn:Es; simpl in Hk; [|discriminate].
  injection Hk as Hk. exists b, start. repeat split; auto; lia.
Qed.



(** Among reservations that do not overlap, each of an hour or more, the
    first that starts at an hour is the only one. *)
Lemma find_start bs b (s : Z) :
  ForallOrdPairs (fun b1 b2 => Ledger.overlaps b1 b2 = false) bs ->
  Forall (fun x => 1 <= Booking.hours x) bs ->
  In b bs ->
  MemStorage.startHour b = Some s ->
  find (fun x => JsNum.strictEq (MemStorage.startHour x) (Some s)) bs = Some b.
Proof.
  induction 1 as [|a l Ha Hl IH]; intros Hpos Hin Hs; [contradiction|].
  inversion Hpos as [|a' l' Hpa Hpl]; subst. simpl.
  destruct (JsNum.strictEq (MemStorage.startHour a) (Some s)) eqn:E.
  - destruct Hin as [->|Hin]; [reflexivity|]. exfalso.
    rewrite Forall_forall in Ha, Hpl.
    specialize (Ha b Hin). specialize (Hpl b Hin). simpl in Hpl.
    destruct (MemStorage.startHour a) as [sa|] eqn:Ea; simpl in E; [|discriminate].
    apply Z.eqb_eq in E. subst sa.
    unfold Ledger.overlaps, MemStorage.endHour in Ha. rewrite Ea, Hs in Ha.
    simpl in Ha. unfold Ledger.overlap, JsNum.lt in Ha.
    apply andb_false_iff in Ha. destruct Ha as [Ha|Ha]; apply Z.ltb_ge in Ha; lia.
  - destruct Hin as [->|Hin].
    + rewrite Hs in E. simpl in E. rewrite Z.eqb_refl in E. discriminate.
    + now apply IH.
Qed.

(** X12. In a store the requests lead to from the seeded one, the slot of
    the hour at which a booked reservation starts is marked unavailable
    and carries the id of that reservation. *)
Theorem start_slot_carries_booking_id today rnd rs date court b (s : Z) :
  let st := Routes.serve rs (MemStorage.seedData today rnd) in
  In b (MemStorage.getBookingsForDateAndCourt date (Court.id court) st) ->
  MemStorage.startHour b = Some s ->
  exists slot,
    nth_error (MemStorage.courtSlots date court st) (Z.to_nat (s - 6)) = Some slot
    /\ TimeSlot.available slot = false
    /\ TimeSlot.bookingId slot = Some (Booking.id b).
Proof.
  intros st Hb Hs.
  destruct (serve_sound rs _ (seedData_sound today rnd)) as (Hc & Hw & _).
  fold st in Hc, Hw. apply consistent_iff in Hc.
  rewrite Forall_forall in Hw.
  assert (forall x,
            In x (MemStorage.getBookingsForDateAndCourt date (Court.id court) st) ->
            Ledger.windowed x) as Hwin.
  { intros x Hx. apply Hw. now apply In_getBookingsForDateAndCourt in Hx. }
  destruct (Hwin b Hb) as [Hh Hrange]. destruct (Hrange s Hs) as [Ho Hcl].
  unfold MemStorage.OPENING_HOUR, MemStorage.CLOSING_HOUR in Ho, Hcl.
  eexists. split.
  - apply (courtSlots_nth date court st s).
    unfold MemStorage.OPENING_HOUR, MemStorage.CLOSING_HOUR. lia.
  - simpl. split.
    + rewrite (spanned_hour_booked _ b s s Hb Hs); [reflexivity | lia].
    + rewrite (find_start _ b s (Hc (Court.id court) date)); auto.
      apply Forall_forall. intros x Hx. destruct (Hwin x Hx). lia.
Qed.

(** The seeded booking of 14:00 on court B. *)
Lemma start_slot_witness :
  exists slot,
    nth_error (MemStorage.courtSlots "2024-12-01" (Court.mk "court-b" "Court B")
                 (Routes.serve Scenario.afternoon Scenario.seeded)) 8 = Some slot
    /\ TimeSlot.available slot = false
    /\ TimeSlot.bookingId slot = Some (Scenario.rnd 2).
Proof.
  apply (start_slot_carries_booking_id Scenario.sunday Scenario.rnd
           Scenario.afternoon "2024-12-01" (Court.mk "court-b" "Court B")
           (MemStorage.record (Scenario.rnd 2) (MemStorage.shortUuid (Scenario.rnd 3))
              (MemStorage.sample "Ali Hassan" "+92 321 9876543" "football"
                 "court-b" "2024-12-01" "14:00" 1 2500) "booked") 14).
  - vm_compute. left. reflexivity.
  - reflexivity.
Defined.

(** X13. For every court of the store, [getAvailability] holds under the
    id of the court a grid of seventeen slots, from 06:00 to 22:00, with
    their labels on the twelve-hour clock; the courts and the sports come
    along as the store lists them. *)
Theorem availability_has_grid_for_every_court date st court :
  In court (MemStorage.getCourts st) ->
  fst (MemStorage.getAvailability date st)
    = (MemStorage.getCourts st, MemStorage.getSports st)
  /\ exists slots,
       JsMap.get (Court.id court) (snd (MemStorage.getAvailability date st))
         = Some slots
       /\ map TimeSlot.time slots
          = ["06:00"; "07:00"; "08:00"; "09:00"; "10:00"; "11:00"; "12:00";
             "13:00"; "14:00"; "15:00"; "16:00"; "17:00"; "18:00"; "19:00";
             "20:00"; "21:00"; "22:00"]
       /\ map TimeSlot.displayTime slots
          = ["6:00 AM"; "7:00 AM"; "8:00 AM"; "9:00 AM"; "10:00 AM"; "11:00 AM";
             "12:00 PM"; "1:00 PM"; "2:00 PM"; "3:00 PM"; "4:00 PM"; "5:00 PM";
             "6:00 PM"; "7:00 PM"; "8:00 PM"; "9:00 PM"; "10:00 PM"].
Proof.
  intros Hin. split; [reflexivity|].
  exists (MemStorage.courtSlots date court st).
  split; [now apply getAvailability_slots|].
  split; [apply courtSlots_times|].
  unfold MemStorage.courtSlots. rewrite map_map. reflexivity.
Qed.

(** Court B of the seeded store. *)
Lemma availability_grid_witness :
  exists slots,
    JsMap.get "court-b" (snd (MemStorage.getAvailability "2024-12-01" Scenario.seeded))
      = Some slots
    /\ List.length (map TimeSlot.time slots) = 17%nat.
Proof.
  destruct (availability_has_grid_for_every_court "2024-12-01" Scenario.seeded
              (Court.mk "court-b" "Court B")
              ltac:(vm_compute; right; left; reflexivity))
    as (_ & slots & Hg & Ht & _).
  exists slots. split; [exact Hg|]. rewrite Ht. reflexivity.
Defined.

(** The time of the slot of an hour of the grid reads back as that hour. *)
Lemma slot_time_hour bs (h : Z) :
  In h MemStorage.gridHours ->
  MemStorage.hourOf (TimeSlot.time (MemStorage.slotFor bs h)) = Some h.
Proof.
  intros H. simpl.
  repeat (destruct H as [<-|H]; [reflexivity|]). contradiction.
Qed.

Lemma gridHours_window (h : Z) : In h MemStorage.gridHours -> 6 <= h < 23.
Proof.
  intros H. repeat (destruct H as [<-|H]; [vm_compute; split; congruence|]).
  contradiction.
Qed.

(** The slot of an hour says what the check says of one hour from it. *)
Lemma slot_agrees_with_check date courtId st (h : Z) :
  In h MemStorage.gridHours ->
  (forall b, In b (MemStorage.getBookingsForDateAndCourt date courtId st) ->
             1 <= Booking.hours b) ->
  MemStorage.checkSlotAvailability courtId date
    (TimeSlot.time
       (MemStorage.slotFor (MemStorage.getBookingsForDateAndCourt date courtId st) h))
    1 st
  = TimeSlot.available
      (MemStorage.slotFor (MemStorage.getBookingsForDateAndCourt date courtId st) h).
Proof.
  intros Hg Hpos. pose proof (gridHours_window h Hg) as Hw.
  set (bs := MemStorage.getBookingsForDateAndCourt date courtId st) in *.
  cbn [TimeSlot.available MemStorage.slotFor].
  destruct (MemStorage.has (MemStorage.bookedHours bs) (Some h)) eqn:E; simpl.
  - apply booked_hour_spanned in E. destruct E as (b & start & Hb & Hs & Hh).
    apply not_true_iff_false. intros Hc.
    apply checkSlotAvailability_true in Hc. destruct Hc as (_ & _ & Hall).
    specialize (Hall b Hb). specialize (Hpos b Hb).
    change (JsStr.padStart0 2 (JsStr.ofZ h) ++ ":00")%string
      with (TimeSlot.time (MemStorage.slotFor bs h)) in Hall.
    rewrite (slot_time_hour bs h Hg) in Hall.
    unfold MemStorage.endHour in Hall. rewrite Hs in Hall. simpl in Hall.
    rewrite clash_overlap in Hall by lia.
    assert (Ledger.overlap (Some h) (Some (h + 1)) (Some start)
              (Some (start + Booking.hours b)) = true)
      by (apply overlap_true_iff; lia).
    congruence.
  - apply checkSlotAvailability_true.
    change (JsStr.padStart0 2 (JsStr.ofZ h) ++ ":00")%string
      with (TimeSlot.time (MemStorage.slotFor bs h)).
    rewrite (slot_time_hour bs h Hg). simpl.
    unfold JsNum.gt, JsNum.lt, MemStorage.OPENING_HOUR, MemStorage.CLOSING_HOUR.
    repeat split; try (apply Z.ltb_ge; lia).
    intros b Hb. fold bs in Hb. specialize (Hpos b Hb).
    destruct (MemStorage.clash _ _ _ _) eqn:Ec; [|reflexivity]. exfalso.
    unfold MemStorage.endHour in Ec.
    destruct (MemStorage.startHour b) as [start|] eqn:Es.
    + simpl in Ec. rewrite clash_overlap in Ec by lia.
      apply overlap_true_iff in Ec.
      rewrite (spanned_hour_booked bs b start h Hb Es) in E; [discriminate|lia].
    + unfold MemStorage.clash in Ec. simpl in Ec. discriminate.
Qed.

(** X14. The grid and the availability check agree: when the booked
    reservations of a court and date are of an hour or more, a slot of the
    grid is marked available exactly when [checkSlotAvailability] accepts
    one hour from the time of the slot. *)
Theorem grid_agrees_with_check date court st slot :
  (forall b, In b (MemStorage.getBookingsForDateAndCourt date (Court.id court) st) ->
             1 <= Booking.hours b) ->
  In slot (MemStorage.courtSlots date court st) ->
  MemStorage.checkSlotAvailability (Court.id court) date (TimeSlot.time slot) 1 st
  = TimeSlot.available slot.
Proof.
  intros Hpos Hin. unfold MemStorage.courtSlots in Hin.
  apply in_map_iff in Hin. destruct Hin as (h & <- & Hh).
  now apply slot_agrees_with_check.
Qed.

(** The slots of 09:00 and of 11:00 of court A on the seeded day. *)
Lemma grid_agrees_witness :
  MemStorage.checkSlotAvailability "court-a" "2024-12-01" "09:00" 1 Scenario.seeded
    = false
  /\ MemStorage.checkSlotAvailability "court-a" "2024-12-01" "11:00" 1 Scenario.seeded
    = true.
Proof.
  assert (Hpos : forall b,
            In b (MemStorage.getBookingsForDateAndCourt "2024-12-01"
                    (Court.id (Court.mk "court-a" "Court A")) Scenario.seeded) ->
            1 <= Booking.hours b).
  { intros b Hb. vm_compute in Hb. destruct Hb as [<-|[]].
    vm_compute. discriminate. }
  split.
  - apply (grid_agrees_with_check "2024-12-01" (Court.mk "court-a" "Court A")
             Scenario.seeded (TimeSlot.mk "09:00" "9:00 AM" false
                                (Some (Scenario.rnd 0))) Hpos).
    vm_compute. do 3 right. left. reflexivity.
  - apply (grid_agrees_with_check "2024-12-01" (Court.mk "court-a" "Court A")
             Scenario.seeded (TimeSlot.mk "11:00" "11:00 AM" true None) Hpos).
    vm_compute. do 5 right. left. reflexivity.
Defined.

(** X15. Every slot the booking form offers for a court of a store the
    requests lead to from the seeded one is accepted by the availability
    check for one hour. *)
Theorem offered_slot_is_free today rnd rs date court offered slot :
  let st := Routes.serve rs (MemStorage.seedData today rnd) in
  In court (MemStorage.getCourts st) ->
  CreateBookingPage.availableSlots (Court.id court)
    (snd (MemStorage.getAvailability date st)) = Some offered ->
  In slot offered ->
  MemStorage.checkSlotAvailability (Court.id court) date (TimeSlot.time slot) 1 st
  = true.
Proof.
  intros st Hc Ho Hs. unfold CreateBookingPage.availableSlots in Ho.
  rewrite (getAvailability_slots date st court Hc) in Ho.
  destruct (Court.id court) eqn:Eid.
  - assert (offered = []) as -> by congruence. contradiction.
  - assert (offered = filter TimeSlot.available
                        (MemStorage.courtSlots date court st)) as -> by congruence.
    apply filter_In in Hs. destruct Hs as [Hin Hav].
    rewrite <- Eid, <- Hav.
    unfold MemStorage.courtSlots in Hin. apply in_map_iff in Hin.
    destruct Hin as (h & <- & Hh). apply slot_agrees_with_check; [exact Hh|].
    intros b Hb. apply In_getBookingsForDateAndCourt in Hb.
    destruct (serve_sound rs _ (seedData_sound today rnd)) as (_ & Hw & _).
    rewrite Forall_forall in Hw. destruct (Hw b (proj1 Hb)). lia.
Qed.

(** The slot of 11:00 of court A, offered on the seeded day. *)
Lemma offered_slot_witness :
  MemStorage.checkSlotAvailability "court-a" "2024-12-01" "11:00" 1 Scenario.seeded
  = true.
Proof.
  apply (offered_slot_is_free Scenario.sunday Scenario.rnd [] "2024-12-01"
           (Court.mk "court-a" "Court A")
           (filter TimeSlot.available
              (MemStorage.courtSlots "2024-12-01" (Court.mk "court-a" "Court A")
                 Scenario.seeded))
           (TimeSlot.mk "11:00" "11:00 AM" true None)).
  - vm_compute. left. reflexivity.
  - vm_compute. reflexivity.
  - vm_compute. do 3 right. left. reflexivity.
Defined.

(** ** [GET /api/slots] *)

Lemma slots_of_no_court date st k : forall courts acc,
  (forall c, In c courts -> Court.id c <> k) ->
  JsMap.get k acc = None ->
  JsMap.get k
    (fold_left (fun slots court =>
                  JsMap.set (Court.id court) (MemStorage.courtSlots date court st) slots)
               courts acc) = None.
Proof.
  induction courts as [|c l IH]; intros acc Hne Hacc; simpl; [exact Hacc|].
  apply IH; [intros c' Hc'; apply Hne; now right|].
  rewrite get_set_other; [exact Hacc|].
  intros E. apply (Hne c); [now left | now symmetry].
Qed.

(** X16. Asked with a date for the id of a court of the store, the slots
    route answers the seventeen slots of that court; asked without a date
    it answers 400. *)
Theorem getSlots_of_known_court date court st :
  date <> "" -> Court.id court <> "" ->
  In court (MemStorage.getCourts st) ->
  Routes.getSlots (Some date) (Some (Court.id court)) st
    = Routes.CourtSlots (MemStorage.courtSlots date court st)
  /\ List.length (MemStorage.courtSlots date court st) = 17%nat
  /\ Routes.getSlots None (Some (Court.id court)) st
     = Routes.SlotsMessage 400 "Date parameter is required"
  /\ Routes.getSlots (Some "") (Some (Court.id court)) st
     = Routes.SlotsMessage 400 "Date parameter is required".
Proof.
  intros Hd Hc Hin. split; [|split; [reflexivity|split; reflexivity]].
  unfold Routes.getSlots. destruct date as [|d0 date]; [contradiction|].
  destruct (Court.id court) as [|c0 cid] eqn:E; [contradiction|].
  rewrite <- E. now rewrite (getAvailability_slots _ st court Hin).
Qed.

(** Court A of the seeded store. *)
Lemma getSlots_known_witness :
  Routes.getSlots (Some "2024-12-01") (Some "court-a") Scenario.seeded
  = Routes.CourtSlots
      (MemStorage.courtSlots "2024-12-01" (Court.mk "court-a" "Court A")
         Scenario.seeded).
Proof.
  apply (getSlots_of_known_court "2024-12-01" (Court.mk "court-a" "Court A")
           Scenario.seeded); try discriminate.
  vm_compute. left. reflexivity.
Defined.

(** X17. Asked for an id that no court of the store has, the slots route
    answers 404, but for the names an object inherits, [constructor],
    [toString] and the like, which it answers with what the object
    inherits.  No court is to have the id [__proto__]. *)
Theorem getSlots_of_unknown_court date courtId st :
  date <> "" -> courtId <> "" ->
  (forall c, In c (MemStorage.getCourts st) ->
             Court.id c <> courtId /\ Court.id c <> "__proto__") ->
  Routes.getSlots (Some date) (Some courtId) st
  = if existsb (String.eqb courtId) Routes.objectPrototype
    then Routes.Inherited courtId
    else Routes.SlotsMessage 404 "Court not found".
Proof.
  intros Hd Hc Hno. unfold Routes.getSlots.
  destruct date as [|d0 date]; [contradiction|].
  destruct courtId as [|c0 cid]; [contradiction|].
  unfold MemStorage.getAvailability. cbn [snd].
  rewrite slots_of_no_court; [reflexivity | | reflexivity].
  intros c Hin. now apply Hno.
Qed.

(** A court the seeded store does not have, and the name [constructor]. *)
Lemma getSlots_unknown_witness :
  Routes.getSlots (Some "2024-12-01") (Some "court-c") Scenario.seeded
    = Routes.SlotsMessage 404 "Court not found"
  /\ Routes.getSlots (Some "2024-12-01") (Some "constructor") Scenario.seeded
    = Routes.Inherited "constructor".
Proof.
  split.
  - apply (getSlots_of_unknown_court "2024-12-01" "court-c" Scenario.seeded);
      try discriminate.
    intros c [<-|[<-|[]]]; split; discriminate.
  - apply (getSlots_of_unknown_court "2024-12-01" "constructor" Scenario.seeded);
      try discriminate.
    intros c [<-|[<-|[]]]; split; discriminate.
Defined.

(** ** Cancelling *)

Lemma pairs_around {A} (R : A -> A -> Prop) l1 b l2 :
  ForallOrdPairs R (l1 ++ b :: l2)%list ->
  (forall x, In x l1 -> R x b) /\ (forall x, In x l2 -> R b x).
Proof.
  induction l1 as [|a l1 IH]; simpl; intros H.
  - inversion H as [|a' l' Ha _]; subst. rewrite Forall_forall in Ha.
    split; [intros x []|exact Ha].
  - inversion H as [|a' l' Ha Hl]; subst. destruct (IH Hl) as [H1 H2].
    split; [|exact H2]. intros x [<-|Hx]; [|auto].
    rewrite Forall_forall in Ha. apply Ha. apply in_or_app. right. now left.
Qed.

Lemma values_app {V} (m1 m2 : JsMap.t V) :
  JsMap.values (m1 ++ m2)%list = (JsMap.values m1 ++ JsMap.values m2)%list.
Proof. apply map_app. Qed.

(** X18. In a store the requests lead to from the seeded one, cancelling a
    booked reservation is answered 200 and frees its slot: the
    availability check then accepts its court, date, start time and
    hours. *)
Theorem cancelling_frees_the_slot today rnd rs s id b :
  let st := Routes.serve rs (MemStorage.seedData today rnd) in
  Routes.loggedIn s = true ->
  MemStorage.getBooking id st = Some b ->
  Booking.status b = "booked" ->
  exists st',
    Routes.postCancel s id st
      = (st', Routes.Json 200 (Some (Booking.withStatus b "cancelled")))
    /\ MemStorage.checkSlotAvailability (Booking.courtId b) (Booking.date b)
         (Booking.startTime b) (Booking.hours b) st' = true.
Proof.
  intros st Hl Hg Hs.
  destruct (serve_sound rs _ (seedData_sound today rnd)) as (Hc & Hw & _).
  fold st in Hc, Hw.
  rewrite postCancel_cases, (loggedIn_requireAuth _ _ _ Hl), Hg, Hs. simpl.
  eexists. split; [reflexivity|].
  unfold MemStorage.getBooking in Hg.
  destruct (set_present id (Booking.withStatus b "cancelled") b _ Hg)
    as (m1 & m2 & Hm & Hset).
  unfold Ledger.Consistent in Hc. rewrite Hm, values_app in Hc, Hw. simpl in Hc, Hw.
  destruct (pairs_around _ _ _ _ Hc) as [Hbefore Hafter].
  rewrite Forall_forall in Hw.
  destruct (Hw b ltac:(apply in_or_app; right; now left)) as [Hh Hrange].
  apply checkSlotAvailability_true.
  change (MemStorage.hourOf (Booking.startTime b)) with (MemStorage.startHour b).
  split; [|split].
  - destruct (MemStorage.startHour b) as [sb|] eqn:Eb; [|reflexivity].
    destruct (Hrange sb eq_refl). simpl. apply Z.ltb_ge. assumption.
  - destruct (MemStorage.startHour b) as [sb|] eqn:Eb; [|reflexivity].
    destruct (Hrange sb eq_refl). simpl. unfold JsNum.gt, JsNum.lt.
    apply Z.ltb_ge. assumption.
  - intros x Hx. apply In_getBookingsForDateAndCourt in Hx.
    destruct Hx as (Hin & Hd & Hcourt & Hst). simpl in Hin.
    rewrite Hset, values_app in Hin. simpl in Hin.
    assert (Ledger.booked x = true) as Bx
      by (unfold Ledger.booked; now rewrite Hst).
    assert (Ledger.booked b = true) as Bb
      by (unfold Ledger.booked; now rewrite Hs).
    assert (In x (JsMap.values m1 ++ JsMap.values m2)%list) as Hin'.
    { apply in_app_or in Hin. apply in_or_app.
      destruct Hin as [H|[H|H]]; [now left | | now right].
      subst x. discriminate. }
    assert (Ledger.overlaps b x = false) as Hov.
    { apply in_app_or in Hin'. destruct Hin' as [H|H].
      - rewrite overlaps_sym. apply (Hbefore x H); auto.
      - apply (Hafter x H); auto. }
    destruct (Hw x ltac:(apply in_app_or in Hin'; apply in_or_app;
                         destruct Hin'; [now left | right; now right]))
      as [Hhx _].
    unfold Ledger.overlaps, MemStorage.endHour in Hov.
    unfold MemStorage.endHour.
    destruct (MemStorage.startHour b) as [sb|], (MemStorage.startHour x) as [sx|];
      try reflexivity; simpl in *.
    rewrite clash_overlap by lia. exact Hov.
Qed.

(** The seeded booking of 14:00 on court B, cancelled. *)
Lemma cancelling_frees_witness :
  exists st',
    fst (Routes.postCancel Scenario.admin (Scenario.rnd 2) Scenario.seeded) = st'
    /\ MemStorage.checkSlotAvailability "court-b" "2024-12-01" "14:00" 1 st' = true.
Proof.
  destruct (cancelling_frees_the_slot Scenario.sunday Scenario.rnd []
              Scenario.admin (Scenario.rnd 2)
              (MemStorage.record (Scenario.rnd 2) (MemStorage.shortUuid (Scenario.rnd 3))
                 (MemStorage.sample "Ali Hassan" "+92 321 9876543" "football"
                    "court-b" "2024-12-01" "14:00" 1 2500) "booked")
              eq_refl ltac:(vm_compute; reflexivity) eq_refl) as (st' & Hc & Hfree).
  exists st'. split; [|exact Hfree].
  change (Routes.serve [] (MemStorage.seedData Scenario.sunday Scenario.rnd))
    with Scenario.seeded in Hc.
  now rewrite Hc.
Defined.

(** ** Status changes and the dashboard *)

Lemma total_app share l1 l2 :
  RevenueSpec.total share (l1 ++ l2)%list
  = RevenueSpec.total share l1 + RevenueSpec.total share l2.
Proof. induction l1 as [|b l1 IH]; simpl; [reflexivity|]. rewrite IH. lia. Qed.

(** The revenue over a window when one record of the ledger is replaced
    by one that is not counted. *)
Lemma revenue_without (g : Booking.t -> bool) l1 l2 x y :
  MemStorage.counted x = true -> MemStorage.counted y = false ->
  MemStorage.revenue (filter g (filter MemStorage.counted (l1 ++ y :: l2)%list))
  = MemStorage.revenue (filter g (filter MemStorage.counted (l1 ++ x :: l2)%list))
    - (if g x then Booking.amount x else 0).
Proof.
  intros Hx Hy. rewrite !revenue_total, !total_filter_filter, !total_app.
  simpl. rewrite Hx, Hy. simpl. lia.
Qed.

Lemma counted_not_cancelled b :
  MemStorage.counted b = true -> String.eqb (Booking.status b) "cancelled" = false.
Proof.
  unfold MemStorage.counted. rewrite orb_true_iff, !String.eqb_eq.
  intros [->| ->]; reflexivity.
Qed.

(** X19. Cancelling a reservation that is booked or completed takes its
    amount out of the revenue of today, of the week and of the month, each
    when its date lies in that window, and takes one off the number of
    bookings. *)
Theorem cancelling_takes_out_revenue now s id b st :
  Routes.loggedIn s = true ->
  MemStorage.getBooking id st = Some b ->
  MemStorage.counted b = true ->
  let before := MemStorage.getDashboardMetrics now st in
  let after :=
    MemStorage.getDashboardMetrics now (fst (Routes.postCancel s id st)) in
  DashboardMetrics.todayRevenue after
    = DashboardMetrics.todayRevenue before
      - (if String.eqb (Booking.date b) (DateFns.format now)
         then Booking.amount b else 0)
  /\ DashboardMetrics.weekRevenue after
     = DashboardMetrics.weekRevenue before
       - (if JsStr.ge (Booking.date b) (DateFns.format (DateFns.startOfWeek now))
          then Booking.amount b else 0)
  /\ DashboardMetrics.monthRevenue after
     = DashboardMetrics.monthRevenue before
       - (if JsStr.ge (Booking.date b) (DateFns.format (DateFns.startOfMonth now))
          then Booking.amount b else 0)
  /\ DashboardMetrics.totalBookings after
     = DashboardMetrics.totalBookings before - 1.
Proof.
  intros Hl Hg Hc before after. subst before after.
  rewrite postCancel_cases, (loggedIn_requireAuth _ _ _ Hl), Hg,
    (counted_not_cancelled b Hc).
  unfold MemStorage.getBooking in Hg.
  destruct (set_present id (Booking.withStatus b "cancelled") b _ Hg)
    as (m1 & m2 & Hm & Hset).
  unfold MemStorage.getDashboardMetrics. cbn [fst MemStorage.withBookings
    MemStorage.bookings DashboardMetrics.todayRevenue DashboardMetrics.weekRevenue
    DashboardMetrics.monthRevenue DashboardMetrics.totalBookings].
  rewrite Hset, Hm, !values_app. cbn [JsMap.values map snd].
  fold (JsMap.values m1) (JsMap.values m2).
  repeat split.
  - now apply (revenue_without (fun x => String.eqb (Booking.date x) (DateFns.format now))).
  - now apply (revenue_without
                 (fun x => JsStr.ge (Booking.date x)
                             (DateFns.format (DateFns.startOfWeek now)))).
  - now apply (revenue_without
                 (fun x => JsStr.ge (Booking.date x)
                             (DateFns.format (DateFns.startOfMonth now)))).
  - rewrite !filter_app, !length_app. simpl. rewrite Hc. simpl. lia.
Qed.

(** The seeded booking of 09:00 on the Sunday: 4000 of the 8500 of the
    day. *)
Lemma cancelling_revenue_witness :
  DashboardMetrics.todayRevenue
    (MemStorage.getDashboardMetrics Scenario.sunday
       (fst (Routes.postCancel Scenario.admin (Scenario.rnd 0) Scenario.seeded)))
  = 4500.
Proof.
  destruct (cancelling_takes_out_revenue Scenario.sunday Scenario.admin
              (Scenario.rnd 0)
              (MemStorage.record (Scenario.rnd 0) (MemStorage.shortUuid (Scenario.rnd 1))
                 (MemStorage.sample "Ahmed Khan" "+92 300 1234567" "cricket"
                    "court-a" "2024-12-01" "09:00" 2 4000) "booked")
              Scenario.seeded eq_refl ltac:(vm_compute; reflexivity) eq_refl)
    as (Ht & _).
  rewrite Ht. vm_compute. reflexivity.
Defined.

(** A sum over the records that pass a test does not change when one
    record is replaced by one with the same answer to the test and the
    same share. *)
Lemma fold_filter_swap (g : Booking.t -> bool) (share : Booking.t -> Z) l1 l2 x y :
  g x = g y -> share x = share y ->
  forall acc,
    fold_left (fun sum b => sum + share b) (filter g (l1 ++ x :: l2)%list) acc
    = fold_left (fun sum b => sum + share b) (filter g (l1 ++ y :: l2)%list) acc.
Proof.
  intros Hg Hs acc. rewrite !filter_app, !fold_left_app. simpl.
  rewrite Hg. destruct (g y); simpl; [rewrite Hs|]; reflexivity.
Qed.

(** X20. Marking a booked reservation completed changes nothing on the
    dashboard: the three revenues, the number of bookings and the two
    occupancies are what they were. *)
Theorem completing_keeps_the_metrics now s id b st :
  Routes.loggedIn s = true ->
  MemStorage.getBooking id st = Some b ->
  Booking.status b = "booked" ->
  MemStorage.getDashboardMetrics now (fst (Routes.postComplete s id st))
  = MemStorage.getDashboardMetrics now st.
Proof.
  intros Hl Hg Hs.
  rewrite postComplete_cases, (loggedIn_requireAuth _ _ _ Hl), Hg, Hs.
  unfold MemStorage.getBooking in Hg.
  destruct (set_present id (Booking.withStatus b "completed") b _ Hg)
    as (m1 & m2 & Hm & Hset).
  unfold MemStorage.getDashboardMetrics.
  cbn [fst MemStorage.withBookings MemStorage.bookings String.eqb Ascii.eqb
       Bool.eqb].
  rewrite Hset, Hm, !values_app. cbn [JsMap.values map snd].
  fold (JsMap.values m1) (JsMap.values m2).
  assert (MemStorage.counted b = true) as Hc
    by (unfold MemStorage.counted; rewrite Hs; reflexivity).
  rewrite !(filter_app MemStorage.counted). cbn [filter].
  rewrite Hc.
  change (MemStorage.counted (Booking.withStatus b "completed")) with true.
  cbv iota. unfold MemStorage.revenue.
  f_equal.
  - apply fold_filter_swap; reflexivity.
  - apply fold_filter_swap; reflexivity.
  - apply fold_filter_swap; reflexivity.
  - now rewrite !length_app.
  - f_equal. apply fold_filter_swap; reflexivity.
  - f_equal. apply fold_filter_swap; reflexivity.
Qed.

(** The seeded booking of 09:00 on the Sunday, completed. *)
Lemma completing_metrics_witness :
  MemStorage.getDashboardMetrics Scenario.sunday
    (fst (Routes.postComplete Scenario.admin (Scenario.rnd 0) Scenario.seeded))
  = DashboardMetrics.mk 8500 8500 8500 15 13 10.
Proof.
  rewrite (completing_keeps_the_metrics Scenario.sunday Scenario.admin
             (Scenario.rnd 0)
             (MemStorage.record (Scenario.rnd 0) (MemStorage.shortUuid (Scenario.rnd 1))
                (MemStorage.sample "Ahmed Khan" "+92 300 1234567" "cricket"
                   "court-a" "2024-12-01" "09:00" 2 4000) "booked")
             Scenario.seeded eq_refl ltac:(vm_compute; reflexivity) eq_refl).
  vm_compute. reflexivity.
Defined.

(** ** The charts *)

Lemma chartDays_NoDup now : NoDup (MemStorage.chartDays now).
Proof.
  unfold MemStorage.chartDays.
  apply NoDup_map_NoDup_ForallPairs.
  - intros i j Hi Hj E.
    assert (0 <= i <= 6) as Ri
      by (simpl in Hi; repeat (destruct Hi as [<-|Hi]; [lia|]); contradiction).
    assert (0 <= j <= 6) as Rj
      by (simpl in Hj; repeat (destruct Hj as [<-|Hj]; [lia|]); contradiction).
    destruct (Z.lt_trichotomy i j) as [Hlt|[Heq|Hgt]]; [|exact Heq|].
    + exfalso. apply (format_week_distinct now i j); auto; lia.
    + exfalso. symmetry in E. apply (format_week_distinct now j i); auto; lia.
  - repeat constructor; simpl; intros H;
      repeat (destruct H as [H|H]; [discriminate|]); contradiction.
Qed.

(** Of shares given day by day to the records of a day, over days all
    different: the sum over the days is the share of the records whose
    date is one of the days. *)
Lemma days_split (test : Booking.t -> bool) (share : Booking.t -> Z) b :
  forall days, NoDup days ->
  sumZ (map (fun d =>
               if (test b && String.eqb (Booking.date b) d)%bool
               then share b else 0) days)
  = if (test b && existsb (String.eqb (Booking.date b)) days)%bool
    then share b else 0.
Proof.
  unfold sumZ.
  induction days as [|d days IH]; intros Hnd; simpl.
  - now rewrite andb_false_r.
  - inversion Hnd as [|d' l Hd Hnd']; subst. rewrite (IH Hnd').
    destruct (test b); simpl; [|reflexivity].
    destruct (String.eqb_spec (Booking.date b) d) as [->|Hne]; simpl; [|reflexivity].
    assert (existsb (String.eqb d) days = false) as ->; [|simpl; lia].
    apply not_true_iff_false. intros H. apply existsb_exists in H.
    destruct H as (x & Hx & E). apply String.eqb_eq in E. now subst.
Qed.

Lemma sumZ_zero {A} (days : list A) : sumZ (map (fun _ => 0) days) = 0.
Proof. unfold sumZ. induction days; simpl; [reflexivity|]. now rewrite IHdays. Qed.

Lemma sumZ_add {A} (f g : A -> Z) (days : list A) :
  sumZ (map (fun d => f d + g d) days) = sumZ (map f days) + sumZ (map g days).
Proof.
  unfold sumZ. induction days as [|d days IH]; simpl; [reflexivity|].
  rewrite IH. lia.
Qed.

Lemma total_days (test : Booking.t -> bool) (share : Booking.t -> Z) days l :
  NoDup days ->
  sumZ (map (fun d =>
               RevenueSpec.total
                 (fun b => if (test b && String.eqb (Booking.date b) d)%bool
                           then share b else 0) l) days)
  = RevenueSpec.total
      (fun b => if (test b && existsb (String.eqb (Booking.date b)) days)%bool
                then share b else 0) l.
Proof.
  intros Hnd. induction l as [|b l IH]; simpl.
  - apply sumZ_zero.
  - rewrite <- IH, <- (days_split test share b days Hnd).
    apply (sumZ_add
             (fun d => if (test b && String.eqb (Booking.date b) d)%bool
                       then share b else 0)).
Qed.

Lemma count_total (f : Booking.t -> bool) l :
  Z.of_nat (List.length (filter f l))
  = RevenueSpec.total (fun b => if f b then 1 else 0) l.
Proof.
  induction l as [|b l IH]; [reflexivity|].
  cbn [filter RevenueSpec.total].
  destruct (f b); cbn [List.length]; [rewrite Nat2Z.inj_succ|]; lia.
Qed.

Lemma filter_filter {A} (f g : A -> bool) l :
  filter g (filter f l) = filter (fun x => (f x && g x)%bool) l.
Proof.
  induction l as [|a l IH]; simpl; [reflexivity|].
  destruct (f a); simpl; [destruct (g a); simpl; now rewrite IH | exact IH].
Qed.

(** X21. [revenueByDay] lists the seven days up to today, the oldest
    first, and its revenues add up to the amounts of the records that are
    booked or completed and dated on one of these days, each counted
    once. *)
Theorem revenueByDay_sums_the_week now st :
  map fst (MemStorage.revenueByDay now st) = MemStorage.chartDays now
  /\ MemStorage.chartDays now
     = map (fun i => DateFns.format (now - i)) [6; 5; 4; 3; 2; 1; 0]
  /\ sumZ (map snd (MemStorage.revenueByDay now st))
     = RevenueSpec.total
         (fun b => if (MemStorage.counted b
                       && existsb (String.eqb (Booking.date b))
                                  (MemStorage.chartDays now))%bool
                   then Booking.amount b else 0)
         (JsMap.values (MemStorage.bookings st)).
Proof.
  unfold MemStorage.revenueByDay. rewrite !map_map. cbn [fst snd].
  split; [now rewrite map_id|]. split; [reflexivity|].
  rewrite <- (total_days MemStorage.counted Booking.amount _ _ (chartDays_NoDup now)).
  f_equal. apply map_ext. intros d.
  rewrite revenue_total.
  now rewrite (total_filter_filter MemStorage.counted
                 (fun b => String.eqb (Booking.date b) d)).
Qed.

(** X22. Over the seven days of [bookingsByDay], the counts of court A add
    up to the number of records that are booked or completed, dated on one
    of these days and on the court [court-a], and likewise for court B; a
    record on any other court is in neither. *)
Theorem bookingsByDay_counts_two_courts now st :
  sumZ (map (fun e => snd (fst e)) (MemStorage.bookingsByDay now st))
  = RevenueSpec.total
      (fun b => if (MemStorage.counted b
                    && existsb (String.eqb (Booking.date b))
                               (MemStorage.chartDays now))%bool
                then (if String.eqb (Booking.courtId b) "court-a" then 1 else 0)
                else 0)
      (JsMap.values (MemStorage.bookings st))
  /\ sumZ (map snd (MemStorage.bookingsByDay now st))
     = RevenueSpec.total
         (fun b => if (MemStorage.counted b
                       && existsb (String.eqb (Booking.date b))
                                  (MemStorage.chartDays now))%bool
                   then (if String.eqb (Booking.courtId b) "court-b" then 1 else 0)
                   else 0)
         (JsMap.values (MemStorage.bookings st)).
Proof.
  unfold MemStorage.bookingsByDay. rewrite !map_map. cbn [fst snd].
  split.
  - rewrite <- (total_days MemStorage.counted
                  (fun b => if String.eqb (Booking.courtId b) "court-a" then 1 else 0)
                  _ _ (chartDays_NoDup now)).
    f_equal. apply map_ext. intros d.
    rewrite !filter_filter, count_total.
    clear. induction (JsMap.values (MemStorage.bookings st)) as [|b l IH];
      simpl; [reflexivity|].
    rewrite IH. destruct (MemStorage.counted b), (String.eqb (Booking.date b) d),
      (String.eqb (Booking.courtId b) "court-a"); reflexivity.
  - rewrite <- (total_days MemStorage.counted
                  (fun b => if String.eqb (Booking.courtId b) "court-b" then 1 else 0)
                  _ _ (chartDays_NoDup now)).
    f_equal. apply map_ext. intros d.
    rewrite !filter_filter, count_total.
    clear. induction (JsMap.values (MemStorage.bookings st)) as [|b l IH];
      simpl; [reflexivity|].
    rewrite IH. destruct (MemStorage.counted b), (String.eqb (Booking.date b) d),
      (String.eqb (Booking.courtId b) "court-b"); reflexivity.
Qed.

(** ** Ids and public references *)

(** X23. A booking the create route answers with is found again: under
    its id by [getBooking], every other id finding what it found before,
    and by [getBookingByUuid] under its public reference, which finds a
    record with that reference, and the booking itself when no earlier
    record has the same. *)
Theorem created_booking_is_found s body id u st st' b :
  Routes.postBooking s body id u st = (st', Routes.Json 201 (Some b)) ->
  Booking.id b = id
  /\ Booking.uuid b = MemStorage.shortUuid u
  /\ MemStorage.getBooking id st' = Some b
  /\ (forall id', id' <> id ->
        MemStorage.getBooking id' st' = MemStorage.getBooking id' st)
  /\ (exists x, MemStorage.getBookingByUuid (Booking.uuid b) st' = Some x
                /\ Booking.uuid x = Booking.uuid b)
  /\ ((forall x, In x (JsMap.values (MemStorage.bookings st)) ->
                 Booking.uuid x <> Booking.uuid b) ->
      MemStorage.getBookingByUuid (Booking.uuid b) st' = Some b).
Proof.
  intros H.
  destruct (postBooking_created _ _ _ _ _ _ _ H) as (_ & _ & Hb & Hst & _).
  assert (In b (JsMap.values (MemStorage.bookings st'))) as Hin
    by (subst st'; simpl; apply In_values_after_set).
  assert (exists x, MemStorage.getBookingByUuid (Booking.uuid b) st' = Some x
                    /\ In x (JsMap.values (MemStorage.bookings st'))
                    /\ Booking.uuid x = Booking.uuid b) as (x & Hx & Hxin & Hxu).
  { unfold MemStorage.getBookingByUuid.
    destruct (find _ _) as [x|] eqn:E.
    - apply find_some in E. destruct E as [Hxin E]. apply String.eqb_eq in E.
      exists x. auto.
    - exfalso. apply (find_none _ _ E) in Hin.
      rewrite String.eqb_refl in Hin. discriminate. }
  split; [subst b; reflexivity|]. split; [subst b; reflexivity|].
  split; [subst st'; unfold MemStorage.getBooking; simpl; apply get_set_same|].
  split.
  { intros id' Hne. subst st'. unfold MemStorage.getBooking. simpl.
    now apply get_set_other. }
  split; [exists x; auto|].
  intros Hfresh. rewrite Hx. f_equal.
  rewrite Hst in Hxin. simpl in Hxin.
  destruct (In_values_set _ _ _ _ Hxin) as [->|Hold]; [reflexivity|].
  exfalso. exact (Hfresh x Hold Hxu).
Qed.

(** The booking of the scenario, looked up by its reference. *)
Lemma created_booking_witness :
  MemStorage.getBookingByUuid "9F8E7D6C" Scenario.oneBooking
  = Some Scenario.firstBooking.
Proof.
  assert (H : Routes.postBooking Scenario.admin Scenario.nineToEleven "b-1"
                "9f8e7d6c-1111" Scenario.empty
              = (Scenario.oneBooking, Routes.Json 201 (Some Scenario.firstBooking)))
    by (vm_compute; reflexivity).
  destruct (created_booking_is_found _ _ _ _ _ _ _ H)
    as (_ & _ & _ & _ & _ & Hfound).
  apply Hfound. intros x [].
Defined.

Lemma toUpper_not_lower c : Ledger.isLower (JsStr.toUpper c) = false.
Proof. destruct c as [[] [] [] [] [] [] [] []]; reflexivity. Qed.

Lemma toUpperCase_not_lower s :
  InsertBooking.allChars (fun c => negb (Ledger.isLower c)) (JsStr.toUpperCase s)
  = true.
Proof.
  induction s as [|c s IH]; simpl; [reflexivity|].
  now rewrite toUpper_not_lower, IH.
Qed.

(** X24. The public reference drawn from a UUID of eight characters or
    more is eight characters long, has no lower-case letter, and is the
    beginning of the UUID in upper case. *)
Theorem public_reference_format u :
  (8 <= String.length u)%nat ->
  String.length (MemStorage.shortUuid u) = 8%nat
  /\ InsertBooking.allChars (fun c => negb (Ledger.isLower c))
       (MemStorage.shortUuid u) = true
  /\ exists rest,
       JsStr.toUpperCase u = (MemStorage.shortUuid u ++ rest)%string.
Proof.
  intros H. split; [|split].
  - do 8 (destruct u as [|? u]; [simpl in H; lia|]). destruct u; reflexivity.
  - apply toUpperCase_not_lower.
  - do 8 (destruct u as [|? u]; [simpl in H; lia|]).
    exists (JsStr.toUpperCase u). unfold MemStorage.shortUuid. simpl.
    destruct u; reflexivity.
Qed.

(** The first UUID drawn for the seeded store. *)
Lemma public_reference_witness :
  String.length (MemStorage.shortUuid (Scenario.rnd 1)) = 8%nat.
Proof.
  apply (public_reference_format (Scenario.rnd 1)). vm_compute.
  repeat constructor.
Defined.

(** ** Courts added later *)

(** X26. A court created under an id no court has is listed after the
    courts there were and found under its id; the bookings stay as they
    were, and the availability then holds for it the grid of the booked
    reservations that name its id. *)
Theorem createCourt_adds_a_grid id name date st :
  MemStorage.getCourt id st = None ->
  let st' := fst (MemStorage.createCourt id name st) in
  MemStorage.getCourts st' = (MemStorage.getCourts st ++ [Court.mk id name])%list
  /\ MemStorage.getCourt id st' = Some (Court.mk id name)
  /\ MemStorage.bookings st' = MemStorage.bookings st
  /\ JsMap.get id (snd (MemStorage.getAvailability date st'))
     = Some (map (MemStorage.slotFor
                    (MemStorage.getBookingsForDateAndCourt date id st))
                 MemStorage.gridHours).
Proof.
  intros Hnone st'. unfold MemStorage.getCourt in Hnone.
  assert (MemStorage.getCourts st'
          = (MemStorage.getCourts st ++ [Court.mk id name])%list) as Hcs.
  { unfold st', MemStorage.getCourts. simpl.
    rewrite (set_absent _ _ _ Hnone). now rewrite values_app. }
  split; [exact Hcs|]. split; [|split; [reflexivity|]].
  - unfold st', MemStorage.getCourt. simpl. apply get_set_same.
  - change id with (Court.id (Court.mk id name)) at 1.
    rewrite (getAvailability_slots date st' (Court.mk id name)); [reflexivity|].
    rewrite Hcs. apply in_or_app. right. now left.
Qed.

(** A third court on the seeded store. *)
Lemma createCourt_witness :
  MemStorage.getCourts
    (fst (MemStorage.createCourt "7a8b9c0d-court" "Court C" Scenario.seeded))
  = [Court.mk "court-a" "Court A"; Court.mk "court-b" "Court B";
     Court.mk "7a8b9c0d-court" "Court C"].
Proof.
  destruct (createCourt_adds_a_grid "7a8b9c0d-court" "Court C" "2024-12-01"
              Scenario.seeded eq_refl) as (Hc & _).
  rewrite Hc. reflexivity.
Defined.

(** ** The pages of the list of bookings *)

Lemma firstn_add {A} (a b : nat) : forall l : list A,
  firstn (a + b) l = (firstn a l ++ firstn b (skipn a l))%list.
Proof.
  induction a as [|a IH]; intros l; [reflexivity|].
  destruct l as [|x l]; simpl.
  - now rewrite firstn_nil.
  - now rewrite IH.
Qed.

Lemma pages_cover {A} (l : list A) (n : nat) :
  List.concat (map (fun p => BookingsPage.paginatedBookings p l) (seq 1 n))
  = firstn (n * BookingsPage.ITEMS_PER_PAGE) l.
Proof.
  induction n as [|n IH]; [reflexivity|].
  rewrite seq_S, map_app, concat_app, IH. cbn [List.concat map].
  rewrite app_nil_r.
  unfold BookingsPage.paginatedBookings, BookingsPage.ITEMS_PER_PAGE.
  replace ((1 + n) * 10 - (1 + n - 1) * 10)%nat with 10%nat by lia.
  replace ((1 + n - 1) * 10)%nat with (n * 10)%nat by lia.
  replace (S n * 10)%nat with (n * 10 + 10)%nat by lia.
  now rewrite firstn_add.
Qed.

Lemma totalPages_bounds {A} (l : list A) :
  (List.length l <= BookingsPage.totalPages l * 10
   /\ BookingsPage.totalPages l * 10 < List.length l + 10)%nat.
Proof.
  unfold BookingsPage.totalPages, BookingsPage.ITEMS_PER_PAGE.
  pose proof (Nat.div_mod_eq (List.length l + (10 - 1)) 10) as E.
  pose proof (Nat.mod_upper_bound (List.length l + (10 - 1)) 10 ltac:(lia)) as B.
  lia.
Qed.

(** X25. The pages of the list of bookings, from the first to the last,
    put end to end give the list back; no page among them is empty and
    none has more than ten bookings; an empty list has no page. *)
Theorem pages_partition_the_list {A} (filteredBookings : list A) :
  List.concat (map (fun p => BookingsPage.paginatedBookings p filteredBookings)
              (seq 1 (BookingsPage.totalPages filteredBookings)))
  = filteredBookings
  /\ (forall p,
        (1 <= p <= BookingsPage.totalPages filteredBookings)%nat ->
        BookingsPage.paginatedBookings p filteredBookings <> []
        /\ (List.length (BookingsPage.paginatedBookings p filteredBookings)
            <= 10)%nat)
  /\ (BookingsPage.totalPages filteredBookings = 0%nat <-> filteredBookings = []).
Proof.
  pose proof (totalPages_bounds filteredBookings) as [Hlo Hhi].
  split; [|split].
  - rewrite pages_cover. apply firstn_all2.
    unfold BookingsPage.ITEMS_PER_PAGE. lia.
  - intros p Hp.
    assert (List.length (BookingsPage.paginatedBookings p filteredBookings)
            = Nat.min 10 (List.length filteredBookings - (p - 1) * 10)) as Hlen.
    { unfold BookingsPage.paginatedBookings, BookingsPage.ITEMS_PER_PAGE.
      rewrite length_firstn, length_skipn.
      replace (p * 10 - (p - 1) * 10)%nat with 10%nat by lia. reflexivity. }
    split; [|lia].
    intros E. rewrite E in Hlen. cbn [List.length] in Hlen. lia.
  - split.
    + intros E. rewrite E in Hlo. destruct filteredBookings; [reflexivity|].
      simpl in Hlo. lia.
    + intros ->. reflexivity.
Qed.
